(** * BouncerProvider: a shallow embedding of [src/libs/BouncerProvider.js]

    The provider keeps the client's networks and buffers in step with a
    remote bouncer.  The JavaScript object graph is modelled as follows:

    - a JavaScript value is a [jsval]; [===] is equality of [jsval]s and
      truthiness is [truthy];
    - a string is a [string], the bytes of its UTF-8 encoding;
    - [state.networks] is a [list Network]; a reference to a network object
      is a [NetRef]: the position of the network in that list, or, for a
      network the provider still holds in [this.controllerNetwork] after it
      has left [state.networks], the object itself, so [===] on network
      objects is equality of [NetRef]s;
    - [network.buffers] is a [list Buffer]; a reference to a buffer object
      is its position in that list;
    - [this.networksSnapshot], an object without prototype used as a
      dictionary, is a [gmap string Snapshot];
    - calls on an IRC client (bouncer commands and requests, raw lines)
      and [log] lines are appended to the provider's [trace].

    Numbers are integers.  [String.prototype.toLowerCase] is taken from the
    platform, as a function on strings nothing is assumed of.  The
    methods of the state store the provider calls ([addBuffer],
    [removeBuffer], [addNetwork], [getNetworkFromBncName]) live in another
    file of the repository; they are modelled from the specification and
    marked as such.

    The file has four parts: the embedding, the vocabulary of the
    statements, the states the examples run on, and the properties. *)

From Stdlib Require Import ZArith Ascii String.
From stdpp Require Import base decidable option list strings gmap pretty.

Local Open Scope string_scope.

(** ** JavaScript values *)

Inductive jsval : Type :=
  | JUndef
  | JNull
  | JBool (b : bool)
  | JNum (n : Z)
  | JStr (s : string).

Global Instance jsval_eq_dec : EqDecision jsval.
Proof. solve_decision. Defined.

Global Instance jsval_inhabited : Inhabited jsval := populate JUndef.

(** [a === b] and [a !== b] on the values above. *)
Definition strict_eq (a b : jsval) : bool := bool_decide (a = b).
Definition strict_ne (a b : jsval) : bool := negb (strict_eq a b).

(** ToBoolean: what [if (v)], [!v], [a && b] and [a || b] test. *)
Definition truthy (v : jsval) : bool :=
  match v with
  | JUndef | JNull => false
  | JBool b => b
  | JNum n => negb (n =? 0)%Z
  | JStr s => negb (String.eqb s "")
  end.

(** [a || b] *)
Definition js_or (a b : jsval) : jsval := if truthy a then a else b.

(** ToString: what a template literal, [+] with a string and a property
    key apply to a value. *)
Definition to_string (v : jsval) : string :=
  match v with
  | JUndef => "undefined"
  | JNull => "null"
  | JBool true => "true"
  | JBool false => "false"
  | JNum n => pretty n
  | JStr s => s
  end.

(** [s.split(sep)] for a separator of one character: the pieces between
    the separators, never an empty array. *)
Fixpoint split (sep : ascii) (s : string) : list string :=
  match s with
  | EmptyString => [EmptyString]
  | String c s' =>
      if Ascii.eqb c sep then EmptyString :: split sep s'
      else match split sep s' with
           | piece :: pieces => String c piece :: pieces
           | [] => [String c EmptyString]
           end
  end.

(** ** The data model *)

Inductive NetState : Type := disconnected | connecting | connected.

Global Instance NetState_eq_dec : EqDecision NetState.
Proof. solve_decision. Defined.

Inductive BufferKind : Type := channel | query | other.

Global Instance BufferKind_eq_dec : EqDecision BufferKind.
Proof. solve_decision. Defined.

Record Buffer : Type := mkBuffer {
  buf_name : string;
  buf_kind : BufferKind;
  buf_enabled : bool;
  buf_joined : bool;
  buf_topic : jsval;
  buf_last_read : Z;
}.

Global Instance Buffer_eq_dec : EqDecision Buffer.
Proof. solve_decision. Defined.

Definition isChannel (b : Buffer) : bool := bool_decide (buf_kind b = channel).
Definition isQuery (b : Buffer) : bool := bool_decide (buf_kind b = query).

(** [network.connection] *)
Record Connection : Type := mkConnection {
  conn_server : jsval;
  conn_port : jsval;
  conn_tls : jsval;
  conn_nick : jsval;
  conn_bncname : jsval;
  conn_direct : jsval;
  conn_path : jsval;
}.

(** [ircClient.options] *)
Record ClientOptions : Type := mkClientOptions {
  opt_host : jsval;
  opt_port : jsval;
  opt_tls : jsval;
  opt_password : jsval;
  opt_path : jsval;
}.

(** [network.ircClient]: what the provider reads from the transport
    ([client.network.cap.isEnabled('bouncer')], [client.bnc.hasNetwork()],
    [client.bnc.tags().network]) and the options it writes. *)
Record IrcClient : Type := mkIrcClient {
  cap_bouncer : bool;
  bnc_hasNetwork : bool;
  bnc_tags_network : jsval;
  options : ClientOptions;
}.

Record Network : Type := mkNetwork {
  net_name : string;
  net_state : NetState;
  net_hidden : bool;
  net_password : jsval;
  net_username : jsval;
  connection : Connection;
  ircClient : IrcClient;
  buffers : list Buffer;
}.

Global Instance Connection_eq_dec : EqDecision Connection.
Proof. solve_decision. Defined.

Global Instance ClientOptions_eq_dec : EqDecision ClientOptions.
Proof. solve_decision. Defined.

Global Instance IrcClient_eq_dec : EqDecision IrcClient.
Proof. solve_decision. Defined.

Global Instance Network_eq_dec : EqDecision Network.
Proof. solve_decision. Defined.

(** A reference to a network object.  [InList i] is the network at
    position [i] of [state.networks].  [Detached network] is a network
    object that is not in [state.networks] (it was removed from it) and
    that the holder of the reference still reaches; it is no object of
    the list, whatever its fields. *)
Inductive NetRef : Type :=
  | InList (i : nat)
  | Detached (network : Network).

Coercion InList : nat >-> NetRef.

Global Instance NetRef_eq_dec : EqDecision NetRef.
Proof. solve_decision. Defined.

(** [this.bnc] *)
Record BncConfig : Type := mkBncConfig {
  bnc_enabled : bool;
  bnc_username : jsval;
  bnc_password : jsval;
  bnc_server : jsval;
  bnc_port : jsval;
  bnc_tls : jsval;
  bnc_direct : jsval;
  bnc_path : jsval;
  bnc_registered : bool;
}.

(** An entry of [this.networksSnapshot]. *)
Record Snapshot : Type := mkSnapshot {
  snap_name : jsval;
  snap_host : jsval;
  snap_port : jsval;
  snap_tls : jsval;
  snap_password : jsval;
  snap_nick : jsval;
  snap_username : jsval;
}.

(** The object [{}]: every property reads [undefined]. *)
Definition empty_snapshot : Snapshot :=
  mkSnapshot JUndef JUndef JUndef JUndef JUndef JUndef JUndef.

(** The [tags] object of [saveState]: [None] is a key that was never
    assigned, [Some v] a key assigned [v]. *)
Record Tags : Type := mkTags {
  tag_host : option jsval;
  tag_port : option jsval;
  tag_tls : option jsval;
  tag_password : option jsval;
  tag_nick : option jsval;
  tag_user : option jsval;
}.

(** Reading a property of [tags]. *)
Definition tag_read (t : option jsval) : jsval := default JUndef t.

(** What the provider does to the outside world, in order. [via] is the
    network whose IRC client carries the command: [client.bnc.addNetwork],
    [saveNetwork], [removeNetwork], [closeBuffer], the requests
    [client.bnc.getNetworks()] and [client.bnc.getBuffers(name)],
    [client.raw] and [client.who]. *)
Inductive Effect : Type :=
  | Log (msg : string)
  | BncAddNetwork (via : NetRef) (name : string)
      (host port tls nick user password : jsval)
  | BncSaveNetwork (via : NetRef) (bncName : jsval) (tags : Tags)
  | BncRemoveNetwork (via : NetRef) (bncName : jsval)
  | BncCloseBuffer (via : NetRef) (bncName : jsval) (buffer : string)
  | BncGetNetworks (via : NetRef)
  | BncGetBuffers (via : NetRef) (bncName : jsval)
  | Raw (via : NetRef) (line : string)
  | Who (via : NetRef) (target : string).

(** The provider together with the part of [state] it works on. *)
Record Provider : Type := mkProvider {
  networks : list Network;
  controllerNetwork : option NetRef;
  bnc : BncConfig;
  rewriteConnections : bool;
  networksSnapshot : gmap string Snapshot;
  trace : list Effect;
}.

(** What the relay answers to [getNetworks()] and [getBuffers(name)]. *)
Record BncNetwork : Type := mkBncNetwork {
  bn_name : string;
  bn_host : jsval;
  bn_port : jsval;
  bn_tls : jsval;
  bn_nick : jsval;
  bn_user : jsval;
  bn_password : jsval;
}.

Record BncBuffer : Type := mkBncBuffer {
  bb_name : string;
  bb_joined : jsval;
  bb_seen : jsval;
  bb_topic : jsval;
}.

Record Relay : Type := mkRelay {
  getNetworks : list BncNetwork;
  getBuffers : jsval → list BncBuffer;
}.

(** *** Field updates *)

Definition set_networks (ns : list Network) (p : Provider) : Provider :=
  mkProvider ns (controllerNetwork p) (bnc p) (rewriteConnections p)
    (networksSnapshot p) (trace p).

Definition set_controllerNetwork (c : option NetRef) (p : Provider) : Provider :=
  mkProvider (networks p) c (bnc p) (rewriteConnections p)
    (networksSnapshot p) (trace p).

Definition set_bnc (b : BncConfig) (p : Provider) : Provider :=
  mkProvider (networks p) (controllerNetwork p) b (rewriteConnections p)
    (networksSnapshot p) (trace p).

Definition set_networksSnapshot (m : gmap string Snapshot) (p : Provider) : Provider :=
  mkProvider (networks p) (controllerNetwork p) (bnc p) (rewriteConnections p)
    m (trace p).

Definition emit (e : Effect) (p : Provider) : Provider :=
  mkProvider (networks p) (controllerNetwork p) (bnc p) (rewriteConnections p)
    (networksSnapshot p) (trace p ++ [e]).

(** Assigning to a property of the network object at position [i]. *)
Definition update_network (i : nat) (f : Network → Network) (p : Provider) : Provider :=
  set_networks (alter f i (networks p)) p.

Definition set_connection (c : Connection) (n : Network) : Network :=
  mkNetwork (net_name n) (net_state n) (net_hidden n) (net_password n)
    (net_username n) c (ircClient n) (buffers n).

Definition set_bncname (v : jsval) (n : Network) : Network :=
  let c := connection n in
  set_connection
    (mkConnection (conn_server c) (conn_port c) (conn_tls c) (conn_nick c) v
       (conn_direct c) (conn_path c)) n.

Definition set_direct (v : jsval) (n : Network) : Network :=
  let c := connection n in
  set_connection
    (mkConnection (conn_server c) (conn_port c) (conn_tls c) (conn_nick c)
       (conn_bncname c) v (conn_path c)) n.

Definition set_name (s : string) (n : Network) : Network :=
  mkNetwork s (net_state n) (net_hidden n) (net_password n)
    (net_username n) (connection n) (ircClient n) (buffers n).

Definition set_state (s : NetState) (n : Network) : Network :=
  mkNetwork (net_name n) s (net_hidden n) (net_password n)
    (net_username n) (connection n) (ircClient n) (buffers n).

Definition set_hidden (h : bool) (n : Network) : Network :=
  mkNetwork (net_name n) (net_state n) h (net_password n)
    (net_username n) (connection n) (ircClient n) (buffers n).

Definition set_buffers (bs : list Buffer) (n : Network) : Network :=
  mkNetwork (net_name n) (net_state n) (net_hidden n) (net_password n)
    (net_username n) (connection n) (ircClient n) bs.

Definition set_options (o : ClientOptions) (n : Network) : Network :=
  let c := ircClient n in
  mkNetwork (net_name n) (net_state n) (net_hidden n) (net_password n)
    (net_username n) (connection n)
    (mkIrcClient (cap_bouncer c) (bnc_hasNetwork c) (bnc_tags_network c) o)
    (buffers n).

(** ** Iterating a live array

    [arr.forEach(cb)] reads the length once, then visits the positions
    [0 .. length-1] in order; a position that is no longer in the array
    when its turn comes is passed over.  [arr] reads the array out
    of the current state, so that a callback that changes the array is seen
    by the positions that follow. *)

Fixpoint forEach_from {St A : Type} (arr : St → list A)
    (cb : nat → A → St → St) (k len : nat) (s : St) : St :=
  match len with
  | 0 => s
  | S len' =>
      let s' := match arr s !! k with
                | Some x => cb k x s
                | None => s
                end in
      forEach_from arr cb (S k) len' s'
  end.

Definition forEach {St A : Type} (arr : St → list A)
    (cb : nat → A → St → St) (s : St) : St :=
  forEach_from arr cb 0 (length (arr s)) s.

(** ** Controller election *)

Definition is_connected (n : Network) : bool :=
  bool_decide (net_state n = connected).

(** The network object a reference leads to. *)
Definition deref (p : Provider) (r : NetRef) : option Network :=
  match r with
  | InList i => networks p !! i
  | Detached network => Some network
  end.

(** Line 52: [this.controllerNetwork && this.controllerNetwork.state === 'connected'];
    the cached object is not looked up in [state.networks]. *)
Definition cached_controller_connected (p : Provider) : bool :=
  match controllerNetwork p with
  | Some c =>
      match deref p c with
      | Some n => is_connected n
      | None => false
      end
  | None => false
  end.

(** Line 60: the test of the scan. *)
Definition can_control (n : Network) : bool :=
  is_connected n && cap_bouncer (ircClient n).

Definition getController (p : Provider) : option NetRef * Provider :=
  if cached_controller_connected p then (controllerNetwork p, p)
  else
    let found := InList ∘ fst <$> list_find (λ n, can_control n) (networks p) in
    (found, set_controllerNetwork found p).

(** ** The snapshot store and [saveState] *)

(** The property key a value selects in [obj[v]]. *)
Definition snapshot_key (bncName : jsval) : string := to_string bncName.

(** Lines 204-212: the record stored for a network. *)
Definition snapshot_of (network : Network) : Snapshot :=
  mkSnapshot
    (conn_bncname (connection network))
    (conn_server (connection network))
    (conn_port (connection network))
    (conn_tls (connection network))
    (net_password network)
    (conn_nick (connection network))
    (net_username network).

Definition snapshotCurrentNetworks (p : Provider) : Provider :=
  forEach networks
    (λ _ network p,
       if negb (truthy (conn_bncname (connection network))) then p
       else
         set_networksSnapshot
           (<[snapshot_key (conn_bncname (connection network))
                := snapshot_of network]> (networksSnapshot p)) p)
    (set_networksSnapshot ∅ p).

(** Lines 235-254: one [if (current !== snapshot.field)] per field. *)
Definition changed (current saved : jsval) : option jsval :=
  if strict_ne current saved then Some current else None.

Definition diff_tags (network : Network) (snapshot : Snapshot) : Tags :=
  mkTags
    (changed (conn_server (connection network)) (snap_host snapshot))
    (changed (conn_port (connection network)) (snap_port snapshot))
    (changed (conn_tls (connection network)) (snap_tls snapshot))
    (changed (net_password network) (snap_password snapshot))
    (changed (conn_nick (connection network)) (snap_nick snapshot))
    (changed (net_username network) (snap_username snapshot)).

(** Line 234: [this.networksSnapshot[bncName] || {}]. *)
Definition lookup_snapshot (p : Provider) (bncName : jsval) : Snapshot :=
  default empty_snapshot (networksSnapshot p !! snapshot_key bncName).

(** Lines 226-271: the callback of [this.state.networks.forEach]. *)
Definition saveState_network (controller : NetRef) (i : nat) (network : Network)
    (p : Provider) : Provider :=
  let '(current, p) := getController p in
  if bool_decide (current = Some (InList i))
     && negb (bnc_hasNetwork (ircClient network))
  then p
  else
    let bncName := conn_bncname (connection network) in
    let snapshot := lookup_snapshot p bncName in
    let tags := diff_tags network snapshot in
    if negb (truthy (snap_name snapshot))
       && truthy (tag_read (tag_host tags))
       && truthy (tag_read (tag_port tags))
       && truthy (tag_read (tag_nick tags))
    then
      emit
        (BncAddNetwork controller (net_name network)
           (tag_read (tag_host tags)) (tag_read (tag_port tags))
           (tag_read (tag_tls tags)) (tag_read (tag_nick tags))
           (tag_read (tag_user tags)) (tag_read (tag_password tags)))
        (update_network i (set_bncname (JStr (net_name network))) p)
    else if truthy (snap_name snapshot)
    then emit (BncSaveNetwork controller bncName tags) p
    else p.

Definition saveState (p : Provider) : Provider :=
  match getController p with
  | (None, p) => emit (Log "No controller available to save networks") p
  | (Some controller, p) =>
      snapshotCurrentNetworks
        (forEach networks (saveState_network controller) p)
  end.

(** [monitorNetworkChanges]: the snapshot is taken at once; the debounced
    watcher it installs calls [saveState] later. *)
Definition monitorNetworkChanges (p : Provider) : Provider :=
  snapshotCurrentNetworks p.

(** ** [enable] and the handlers of [listenToState] *)

Definition enable (server port tls direct path : jsval) (p : Provider) : Provider :=
  set_bnc
    (mkBncConfig true (bnc_username (bnc p)) (bnc_password (bnc p))
       server (js_or port (JNum 6667)) (JBool (truthy tls))
       (JBool (truthy direct)) (js_or path (JStr ""))
       (bnc_registered (bnc p))) p.

(** Lines 291-310: the first handler of [network.connecting]. *)
Definition rewrite_connection (b : BncConfig) (network : Network) : Network :=
  let netname := conn_bncname (connection network) in
  let o := options (ircClient network) in
  let password :=
    if truthy (bnc_password b)
    then JStr (to_string (bnc_username b) ++ "/" ++ to_string netname
               ++ ":" ++ to_string (bnc_password b))
    else opt_password o in
  set_options
    (mkClientOptions (bnc_server b) (bnc_port b) (bnc_tls b) password (bnc_path b))
    (set_direct (bnc_direct b) network).

Definition onConnecting_rewrite (i : nat) (p : Provider) : Provider :=
  if bnc_enabled (bnc p) && rewriteConnections p
  then update_network i (rewrite_connection (bnc p)) p
  else p.

(** Lines 311-325: the second handler of [network.connecting]. *)
Definition onConnecting_save (i : nat) (p : Provider) : Provider :=
  match getController p with
  | (None, p) => emit (Log "No controller available to save network states") p
  | (Some controller, p) =>
      let p := saveState p in
      match networks p !! i with
      | Some network =>
          if truthy (conn_bncname (connection network))
          then emit (Raw controller
                       ("BOUNCER connect "
                        ++ to_string (conn_bncname (connection network)))) p
          else p
      | None => p
      end
  end.

(** The handlers run in the order they were registered. *)
Definition onNetworkConnecting (i : nat) (p : Provider) : Provider :=
  onConnecting_save i (onConnecting_rewrite i p).

(** Lines 326-332: the [irc.motd] handler of [listenToState]. *)
Definition onMotd_who (i : nat) (p : Provider) : Provider :=
  match networks p !! i with
  | Some network =>
      foldl (λ p buffer,
               if isChannel buffer && buf_enabled buffer && buf_joined buffer
               then emit (Who i (buf_name buffer)) p else p)
        p (buffers network)
  | None => p
  end.

(** Lines 347-352: the two [_.find] of the naming loop. *)
Definition find_existingNet (candidate : string) (p : Provider) : option nat :=
  match list_find (λ n, net_name n = candidate) (networks p) with
  | Some (j, _) => Some j
  | None =>
      fst <$> list_find (λ n, conn_bncname (connection n) = JStr candidate)
                (networks p)
  end.

(** Lines 346-360: the [while] loop, [fuel] bounding its iterations;
    [None] is a loop that has not finished within [fuel]. *)
Fixpoint allocateName (fuel : nat) (i : nat) (currentNum : nat)
    (p : Provider) : option Provider :=
  match fuel with
  | 0 => None
  | S fuel' =>
      let candidate := "Network" ++ pretty currentNum in
      match find_existingNet candidate p with
      | Some j =>
          if bool_decide (i = j)
          then Some (update_network i (set_name candidate) p)
          else allocateName fuel' i (S currentNum) p
      | None => Some (update_network i (set_name candidate) p)
      end
  end.

(** Lines 336-362: the handler of [network.new], without the middleware
    it installs on the client. *)
Definition onNetworkNew (fuel : nat) (i : nat) (p : Provider) : option Provider :=
  match networks p !! i with
  | Some network =>
      if negb (truthy (conn_bncname (connection network)))
      then allocateName fuel i 1 p
      else Some p
  | None => Some p
  end.

(** Lines 364-374: the handler of [network.removed]; the removed network
    is no longer in [state.networks], the event carries it. *)
Definition onNetworkRemoved (network : Network) (p : Provider) : Provider :=
  match getController p with
  | (None, p) => emit (Log "No controller available to save network states") p
  | (Some controller, p) =>
      if truthy (conn_bncname (connection network))
      then emit (BncRemoveNetwork controller (conn_bncname (connection network))) p
      else p
  end.

(** Lines 376-390: the handler of [buffer.close]; [i] is the network
    [buffer.getNetwork()] returns. *)
Definition onBufferClose (i : nat) (buffer : Buffer) (p : Provider) : Provider :=
  match networks p !! i with
  | Some network =>
      let bncName := conn_bncname (connection network) in
      match getController p with
      | (None, p) => emit (Log "No controller available to save buffer states") p
      | (Some controller, p) =>
          if truthy bncName
          then emit (BncCloseBuffer controller bncName (buf_name buffer)) p
          else p
      end
  | None => p
  end.

(** ** Collaborators outside this file *)

(** What the provider takes from the platform and from the state store's
    buffer objects: [(new Date(v)).getTime()], the kind ([isChannel()],
    [isQuery()]) of a buffer the store creates under a given name, and
    [s.toLowerCase()], the lower-casing of the language, which folds the
    letters of every script. *)
Class Platform : Type := mkPlatform {
  date_getTime : jsval → Z;
  new_buffer_kind : string → BufferKind;
  toLowerCase : string → string;
}.

Section reconciliation.
Context {platform : Platform}.

Definition network_buffers (i : nat) (p : Provider) : list Buffer :=
  match networks p !! i with
  | Some network => buffers network
  | None => []
  end.

Definition same_name (a b : string) : Prop := toLowerCase a = toLowerCase b.

Global Instance same_name_dec a b : Decision (same_name a b).
Proof. unfold same_name. apply _. Defined.

(** Modelled from the spec: [state.addBuffer(networkid, name)] of the state
    store, which is not part of this file.  It finds or creates the buffer
    of that name, compared without case, within the network; a buffer it
    creates goes to the end of [network.buffers], not joined, never read.
    It returns the buffer, here its position. *)
Definition addBuffer (i : nat) (name : string) (p : Provider) : nat * Provider :=
  let bs := network_buffers i p in
  match list_find (λ b, same_name (buf_name b) name) bs with
  | Some (k, _) => (k, p)
  | None =>
      (length bs,
       update_network i
         (set_buffers
            (bs ++ [mkBuffer name (new_buffer_kind name) false false (JStr "") 0]))
         p)
  end.

(** Modelled from the spec: [state.removeBuffer(buffer)] of the state
    store, which is not part of this file.  It takes the buffer, here the
    one at position [k], out of the ordered collection [network.buffers]
    of its network; the buffers behind it move up by one. *)
Definition removeBuffer (i k : nat) (p : Provider) : Provider :=
  update_network i (λ n, set_buffers (delete k (buffers n)) n) p.

(** Modelled from the spec: [state.getNetworkFromBncName(name)] of the state
    store, which is not part of this file: the first network whose relay
    name is [name]. *)
Definition getNetworkFromBncName (name : string) (p : Provider) : option nat :=
  fst <$> list_find (λ n, conn_bncname (connection n) = JStr name) (networks p).

(** Modelled from the spec: [state.addNetwork(name, nick, params)] of the
    state store, which is not part of this file.  It creates a network from
    the parameters it is given, disconnected and without buffers, at the
    end of [state.networks], and returns it. *)
Definition addNetwork (name : string) (nick : jsval)
    (server port tls password bncname username : jsval) (p : Provider)
    : nat * Provider :=
  (length (networks p),
   set_networks
     (networks p ++
      [mkNetwork name disconnected false password username
         (mkConnection server port tls nick bncname JUndef JUndef)
         (mkIrcClient false false JUndef
            (mkClientOptions JUndef JUndef JUndef JUndef JUndef))
         []])
     p).

(** Assigning to properties of the buffer at position [k] of network [i]. *)
Definition update_buffer (i k : nat) (f : Buffer → Buffer) (p : Provider) : Provider :=
  update_network i (λ n, set_buffers (alter f k (buffers n)) n) p.

(** Lines 133-144: the assignments to [newBuffer]. *)
Definition apply_remote (buffer : BncBuffer) (b : Buffer) : Buffer :=
  mkBuffer (buf_name b) (buf_kind b)
    (truthy (bb_joined buffer))
    (truthy (bb_joined buffer))
    (js_or (bb_topic buffer) (JStr ""))
    (if truthy (bb_seen buffer) then date_getTime (bb_seen buffer)
     else buf_last_read b).

(** Lines 132-148: the callback of [buffers.forEach]. *)
Definition sync_buffer (i : nat) (buffer : BncBuffer) (p : Provider) : Provider :=
  let '(k, p) := addBuffer i (bb_name buffer) p in
  let p := update_buffer i k (apply_remote buffer) p in
  match networks p !! i with
  | Some bncNetwork =>
      match buffers bncNetwork !! k with
      | Some newBuffer =>
          if is_connected bncNetwork && isChannel newBuffer && buf_joined newBuffer
          then emit (Raw i ("NAMES " ++ buf_name newBuffer)) p
          else p
      | None => p
      end
  | None => p
  end.

(** Lines 153-163: the callback of [bncNetwork.buffers.forEach]. *)
Definition remove_missing (i : nat) (remote : list BncBuffer) (k : nat)
    (clientBuffer : Buffer) (p : Provider) : Provider :=
  if negb (isChannel clientBuffer) && negb (isQuery clientBuffer) then p
  else
    let existingBuffers :=
      filter (λ bncBuffer, same_name (bb_name bncBuffer) (buf_name clientBuffer))
        remote in
    if bool_decide (length existingBuffers = 0)
    then removeBuffer i k p
    else p.

(** Lines 131-164: reconciling network [i] with the list the relay
    answered. *)
Definition reconcile (i : nat) (remote : list BncBuffer) (p : Provider) : Provider :=
  let p := foldl (λ p buffer, sync_buffer i buffer p) p remote in
  forEach (network_buffers i) (remove_missing i remote) p.

(** [syncBncNetwork]: [client.bnc.getBuffers] is a request on the client
    of the network; its answer is taken from [relay]. *)
Definition syncBncNetwork (relay : Relay) (i : nat) (p : Provider) : Provider :=
  match networks p !! i with
  | Some bncNetwork =>
      let bncName := conn_bncname (connection bncNetwork) in
      let p := emit (BncGetBuffers i bncName) p in
      reconcile i (getBuffers relay bncName) p
  | None => p
  end.

(** Lines 178-188: find the network of that relay name, or create it. *)
Definition find_or_add (network : BncNetwork) (p : Provider) : nat * Provider :=
  match getNetworkFromBncName (bn_name network) p with
  | Some net => (net, p)
  | None =>
      addNetwork (bn_name network) (js_or (bn_nick network) (JStr ""))
        (bn_host network) (bn_port network) (bn_tls network)
        (bn_password network) (JStr (bn_name network)) (bn_user network) p
  end.

Definition addNetworkToState (relay : Relay) (network : BncNetwork)
    (p : Provider) : Provider :=
  let '(net, p) := find_or_add network p in
  syncBncNetwork relay net p.

(** ** The login sequence *)

(** A call either returns or throws; both carry the state it left. *)
Inductive outcome : Type :=
  | Returned (p : Provider)
  | Threw (p : Provider).

(** Lines 112-113: [password.split(':')], destructured, then
    [username.split('/')[0]].  Only a string has [split]. *)
Definition login_credentials (password : jsval) : option (jsval * jsval) :=
  match password with
  | JStr s =>
      let parts := split ":" s in
      let username := default "" (parts !! 0) in
      let password := from_option JStr JUndef (parts !! 1) in
      Some (JStr (default "" (split "/" username !! 0)), password)
  | _ => None
  end.

(** [initAndAddNetworks]; [client.bnc.getNetworks] is a request on the
    client of the network, its answer is taken from [relay]; each
    [addNetworkToState] is run to its end before the next one starts. *)
Definition initAndAddNetworks (relay : Relay) (i : nat) (p : Provider) : outcome :=
  match networks p !! i with
  | None => Returned p
  | Some network =>
      let b := bnc p in
      let p := set_bnc
                 (mkBncConfig (bnc_enabled b) (bnc_username b) (bnc_password b)
                    (bnc_server b) (bnc_port b) (bnc_tls b) (bnc_direct b)
                    (bnc_path b) true) p in
      let p := update_network i
                 (set_hidden (negb (bnc_hasNetwork (ircClient network)))) p in
      let p := emit (BncGetNetworks i) p in
      let p := foldl (λ p bncNet, addNetworkToState relay bncNet p) p
                 (getNetworks relay) in
      match networks p !! i with
      | None => Returned p
      | Some network =>
          match login_credentials (net_password network) with
          | None => Threw p
          | Some (username, password) =>
              let c := connection network in
              let p := set_bnc
                         (mkBncConfig true username password
                            (conn_server c) (conn_port c) (conn_tls c)
                            (conn_direct c) (js_or (conn_path c) (JStr ""))
                            (bnc_registered (bnc p))) p in
              Returned (monitorNetworkChanges p)
          end
      end
  end.


End reconciliation.

(** * The vocabulary of the statements *)

Local Close Scope string_scope.
Local Open Scope nat_scope.

(** ** [saveState] *)

(** The state inside the loop of [saveState]: the controller [c] is cached
    and connected, so that every [this.getController()] of the loop returns
    it and changes nothing. *)
Definition controller_is (c : NetRef) (p : Provider) : Prop :=
  controllerNetwork p = Some c ∧ cached_controller_connected p = true.

(** What one visit of the loop does, read off the callback once the
    controller is known. *)
Definition visit_tags (network : Network) (p : Provider) : Tags :=
  diff_tags network (lookup_snapshot p (conn_bncname (connection network))).

(** Line 229: the network is the controller and has no upstream. *)
Definition is_bare_controller (c : NetRef) (i : nat) (network : Network) : bool :=
  bool_decide (Some c = Some (InList i))
  && negb (bnc_hasNetwork (ircClient network)).

(** Line 258: the test of the create branch. *)
Definition creates (network : Network) (p : Provider) : bool :=
  negb (truthy (snap_name (lookup_snapshot p (conn_bncname (connection network)))))
  && truthy (tag_read (tag_host (visit_tags network p)))
  && truthy (tag_read (tag_port (visit_tags network p)))
  && truthy (tag_read (tag_nick (visit_tags network p))).

(** A visit keeps the controller, the snapshot store and the length of the
    network list, touches no network but the visited one, and only adds
    to the trace. *)
Record visit_frame (c : NetRef) (i : nat) (p p' : Provider) : Prop := mkVisitFrame {
  vf_controller : controller_is c p';
  vf_snapshot : networksSnapshot p' = networksSnapshot p;
  vf_length : length (networks p') = length (networks p);
  vf_others : ∀ j, j ≠ i → networks p' !! j = networks p !! j;
  vf_trace : ∃ l, trace p' = (trace p ++ l)%list;
}.

(** The loop from position [k] over [len] positions: the same frame, for
    the networks outside [k .. k+len-1]. *)
Record loop_frame (c : NetRef) (k len : nat) (p p' : Provider) : Prop := mkLoopFrame {
  lf_controller : controller_is c p';
  lf_snapshot : networksSnapshot p' = networksSnapshot p;
  lf_length : length (networks p') = length (networks p);
  lf_others : ∀ j, j < k ∨ k + len ≤ j → networks p' !! j = networks p !! j;
  lf_trace : ∃ l, trace p' = (trace p ++ l)%list;
}.

(** The fields [saveState] compares. *)
Inductive Field : Type :=
  | fHost | fPort | fTls | fPassword | fNick | fUser.

(** The field in the change set, in the network and in the snapshot. *)
Definition tag_of (f : Field) (t : Tags) : option jsval :=
  match f with
  | fHost => tag_host t
  | fPort => tag_port t
  | fTls => tag_tls t
  | fPassword => tag_password t
  | fNick => tag_nick t
  | fUser => tag_user t
  end.

Definition current_of (f : Field) (n : Network) : jsval :=
  match f with
  | fHost => conn_server (connection n)
  | fPort => conn_port (connection n)
  | fTls => conn_tls (connection n)
  | fPassword => net_password n
  | fNick => conn_nick (connection n)
  | fUser => net_username n
  end.

Definition saved_of (f : Field) (s : Snapshot) : jsval :=
  match f with
  | fHost => snap_host s
  | fPort => snap_port s
  | fTls => snap_tls s
  | fPassword => snap_password s
  | fNick => snap_nick s
  | fUser => snap_username s
  end.

(** Every entry [snapshotCurrentNetworks] stores carries a name, so that
    [snapshot.name] is truthy exactly when the network has an entry. *)
Definition snapshot_named (p : Provider) : Prop :=
  ∀ k s, networksSnapshot p !! k = Some s → truthy (snap_name s) = true.

(** What [saveState] passes to [addNetwork] for a network. *)
Definition create_command (c : NetRef) (network : Network) (tags : Tags) : Effect :=
  BncAddNetwork c (net_name network)
    (tag_read (tag_host tags)) (tag_read (tag_port tags))
    (tag_read (tag_tls tags)) (tag_read (tag_nick tags))
    (tag_read (tag_user tags)) (tag_read (tag_password tags)).

(** Line 258: the values the change set holds for host, port and nick are
    all truthy. *)
Definition ready_to_create (tags : Tags) : bool :=
  truthy (tag_read (tag_host tags))
  && truthy (tag_read (tag_port tags))
  && truthy (tag_read (tag_nick tags)).

(** ** The connection rewriter *)

(** The password the rewriter composes: [`${username}/${netname}:${password}`]. *)
Definition tunnel_password (b : BncConfig) (netname : jsval) : jsval :=
  JStr (to_string (bnc_username b) ++ "/" ++ to_string netname ++ ":"
        ++ to_string (bnc_password b)).

(** ** Reconciliation *)

(** A network without its buffers. *)
Definition without_buffers (n : Network) : Network := set_buffers [] n.

(** [p'] differs from [p] in the buffers of network [i] and in the trace
    only. *)
Record buffers_only (i : nat) (p p' : Provider) : Prop := mkBuffersOnly {
  bo_networks : ∀ j, without_buffers <$> networks p' !! j
                     = without_buffers <$> networks p !! j;
  bo_others : ∀ j, j ≠ i → networks p' !! j = networks p !! j;
  bo_length : length (networks p') = length (networks p);
  bo_bnc : bnc p' = bnc p;
  bo_snapshot : networksSnapshot p' = networksSnapshot p;
  bo_controller : controllerNetwork p' = controllerNetwork p;
  bo_trace : ∃ l, trace p' = (trace p ++ l)%list;
}.

Section wanted_buffers.
Context {platform : Platform}.

(** Reconciliation has no reason to remove [b]: it is neither a channel nor
    a query, or the relay lists its name. *)
Definition wanted (remote : list BncBuffer) (b : Buffer) : Prop :=
  (isChannel b = false ∧ isQuery b = false)
  ∨ ∃ r, r ∈ remote ∧ same_name (bb_name r) (buf_name b).

End wanted_buffers.

(** A buffer of that name and kind is among the buffers of network [i]. *)
Definition has_buffer (i : nat) (name : string) (kind : BufferKind)
    (p : Provider) : Prop :=
  ∃ b, b ∈ network_buffers i p ∧ buf_name b = name ∧ buf_kind b = kind.

(** ** Credentials *)

(** [s.includes(c)] *)
Fixpoint has_char (c : ascii) (s : string) : bool :=
  match s with
  | EmptyString => false
  | String a s' => Ascii.eqb a c || has_char c s'
  end.

(** [s.split(sep)[0]] *)
Definition first_piece (sep : ascii) (s : string) : string :=
  default EmptyString (split sep s !! 0).

(** ** The naming allocator *)

(** ['Network' + k] *)
Definition name_of (k : nat) : string := "Network" +:+ pretty k.

(** No network has [Network<k>] as display name or as relay name. *)
Definition unused (p : Provider) (k : nat) : Prop :=
  ∀ n, n ∈ networks p →
    net_name n ≠ name_of k ∧ conn_bncname (connection n) ≠ JStr (name_of k).

(** Network [i] is the first network whose display name is [Network<k>]. *)
Definition first_named (i : nat) (p : Provider) (k : nat) : Prop :=
  ∃ n, networks p !! i = Some n ∧ net_name n = name_of k
       ∧ ∀ j m, networks p !! j = Some m → j < i → net_name m ≠ name_of k.

(** A network other than [i] has [Network<k>] as display name or as relay
    name. *)
Definition used_by_other (i : nat) (p : Provider) (k : nat) : Prop :=
  ∃ j m, j ≠ i ∧ networks p !! j = Some m
         ∧ (net_name m = name_of k ∨ conn_bncname (connection m) = JStr (name_of k)).

(** The loop stops at [k]: nothing was found, or the network itself. *)
Definition stops (i : nat) (p : Provider) (k : nat) : Prop :=
  find_existingNet (name_of k) p = None ∨ find_existingNet (name_of k) p = Some i.

Global Instance stops_dec i p k : Decision (stops i p k).
Proof. unfold stops. apply _. Defined.

(** The relay name of a network, when it is a string. *)
Definition relay_name (n : Network) : string :=
  match conn_bncname (connection n) with
  | JStr s => s
  | _ => EmptyString
  end.

(** The strings in use as display name or as relay name. *)
Definition names_in_use (p : Provider) : list string :=
  (net_name <$> networks p) ++ (relay_name <$> networks p).

(** ** Reconciliation run again *)

Section settling.
Context {platform : Platform}.

(** [b], at position [j], is the first buffer of its name: the one
    [addBuffer] finds under that name. *)
Definition first_of_name (bs : list Buffer) (j : nat) (b : Buffer) : Prop :=
  list_find (λ x, same_name (buf_name x) (buf_name b)) bs = Some (j, b).

(** Every name of the remote list has a buffer. *)
Definition covered (l : list BncBuffer) (bs : list Buffer) : Prop :=
  ∀ r, r ∈ l → ∃ b, b ∈ bs ∧ same_name (buf_name b) (bb_name r).

(** The relay lists no buffer of the name of [x]. *)
Definition unlisted (remote : list BncBuffer) (x : Buffer) : Prop :=
  ∀ r, r ∈ remote → ¬ same_name (bb_name r) (buf_name x).

Global Instance first_of_name_dec bs j b : Decision (first_of_name bs j b).
Proof. unfold first_of_name. apply _. Defined.

(** What [sync_buffer] does to the buffers of its network. *)
Definition sync_buffers (r : BncBuffer) (bs : list Buffer) : list Buffer :=
  match list_find (λ b, same_name (buf_name b) (bb_name r)) bs with
  | Some (k, _) => alter (apply_remote r) k bs
  | None =>
      bs ++ [apply_remote r
               (mkBuffer (bb_name r) (new_buffer_kind (bb_name r)) false false
                  (JStr "") 0)]
  end.

(** What the entries of the remote list of a given name do, in order, to
    a buffer of that name. *)
Definition settle_step (name : string) (x : Buffer) (r : BncBuffer) : Buffer :=
  if decide (same_name name (bb_name r)) then apply_remote r x else x.

(** A buffer after all the entries of its name. *)
Definition settle_buffer (remote : list BncBuffer) (b : Buffer) : Buffer :=
  foldl (settle_step (buf_name b)) b remote.

(** The remote list has nothing more to say to the buffers it addresses. *)
Definition settled (l : list BncBuffer) (bs : list Buffer) : Prop :=
  ∀ j b, first_of_name bs j b → settle_buffer l b = b.

(** Every first buffer of a name given all the remote list has for it. *)
Definition settle_all (l : list BncBuffer) (bs : list Buffer) : list Buffer :=
  imap (λ j b, if decide (first_of_name bs j b) then settle_buffer l b else b) bs.

End settling.

(** ** Further statements *)

(** A command to the relay, carried by the client of network [c]: what
    [saveState] issues. *)
Definition relay_command_via (c : NetRef) (e : Effect) : Prop :=
  match e with
  | BncAddNetwork via _ _ _ _ _ _ _ => via = c
  | BncSaveNetwork via _ _ => via = c
  | _ => False
  end.

(** The change set without a field. *)
Definition empty_tags : Tags := mkTags None None None None None None.

(** The network has a relay name, and [k] is its key in the snapshot
    store. *)
Definition snapshot_source (k : string) (n : Network) : Prop :=
  truthy (conn_bncname (connection n)) = true
  ∧ snapshot_key (conn_bncname (connection n)) = k.

Global Instance snapshot_source_dec k n : Decision (snapshot_source k n).
Proof. unfold snapshot_source. apply _. Defined.

(** A [NAMES] line on the client of network [i]. *)
Definition names_request (i : nat) (e : Effect) : Prop :=
  ∃ name, e = Raw i ("NAMES " +:+ name).

(** Line 328: the buffers the [irc.motd] handler asks [WHO] for. *)
Definition who_target (b : Buffer) : Prop :=
  isChannel b = true ∧ buf_enabled b = true ∧ buf_joined b = true.

Global Instance who_target_dec b : Decision (who_target b).
Proof. unfold who_target. apply _. Defined.

Section removal.
Context {platform : Platform}.

(** Lines 153-163: the test under which the callback of the second loop of
    [syncBncNetwork] removes [clientBuffer]. *)
Definition removes (remote : list BncBuffer) (clientBuffer : Buffer) : bool :=
  negb (negb (isChannel clientBuffer) && negb (isQuery clientBuffer))
  && bool_decide
       (length (filter (λ bncBuffer,
                          same_name (bb_name bncBuffer) (buf_name clientBuffer))
                  remote) = 0).

End removal.

(** A loop by position over a list that loses the element at hand whenever
    [gone] holds of it: the element that moves into the freed position is
    passed over, the loop goes on behind it. *)
Fixpoint sweep {A : Type} (gone : A → bool) (l : list A) : list A :=
  match l with
  | [] => []
  | x :: l' =>
      if gone x
      then match l' with
           | [] => []
           | y :: l'' => y :: sweep gone l''
           end
      else x :: sweep gone l'
  end.

(** * States for the examples *)

Module ControllerExample.

Definition client (cap : bool) : IrcClient :=
  mkIrcClient cap false JUndef
    (mkClientOptions JUndef JUndef JUndef JUndef JUndef).

Definition net (name : string) (s : NetState) (cap : bool) : Network :=
  mkNetwork name s false (JStr "") (JStr "")
    (mkConnection (JStr "irc.example.org") (JNum 6667) (JBool false)
       (JStr "alice") JUndef JUndef JUndef)
    (client cap) [].

Definition config : BncConfig :=
  mkBncConfig false (JStr "") (JStr "") (JStr "") (JNum 6667)
    (JBool false) (JBool false) (JStr "") false.

(** [A(disconnected), B(connected, no cap), C(connected, cap)] *)
Definition start : Provider :=
  mkProvider
    [net "A" disconnected true; net "B" connected false; net "C" connected true]
    None config true ∅ [].

Definition set_cap (cap : bool) (n : Network) : Network :=
  mkNetwork (net_name n) (net_state n) (net_hidden n) (net_password n)
    (net_username n) (connection n)
    (mkIrcClient cap (bnc_hasNetwork (ircClient n))
       (bnc_tags_network (ircClient n)) (options (ircClient n)))
    (buffers n).

End ControllerExample.

Module SaveExample.

(** The controller, attached to the relay network [freenode]. *)
Definition freenode (nick : string) : Network :=
  mkNetwork "freenode" connected false (JStr "alice/freenode:s3cret") (JStr "alice")
    (mkConnection (JStr "irc.example.org") (JNum 6667) (JBool false)
       (JStr nick) (JStr "freenode") JUndef JUndef)
    (mkIrcClient true true (JStr "freenode")
       (mkClientOptions JUndef JUndef JUndef JUndef JUndef))
    [].

(** The bare control connection: no upstream, no relay name. *)
Definition control : Network :=
  mkNetwork "control" connected true (JStr "alice:s3cret") (JStr "alice")
    (mkConnection (JStr "bnc.example.org") (JNum 6697) (JBool true)
       (JStr "alice") JUndef JUndef JUndef)
    (mkIrcClient true false JUndef
       (mkClientOptions JUndef JUndef JUndef JUndef JUndef))
    [].

(** A network the user has just added. *)
Definition fresh (server : string) (port : Z) (nick : jsval) : Network :=
  mkNetwork "Network1" disconnected false (JStr "") (JStr "")
    (mkConnection (JStr server) (JNum port) (JBool false) nick
       JUndef JUndef JUndef)
    (mkIrcClient false false JUndef
       (mkClientOptions JUndef JUndef JUndef JUndef JUndef))
    [].

Definition provider (ns : list Network) (m : gmap string Snapshot) : Provider :=
  mkProvider ns None ControllerExample.config true m [].

(** Saved with nick [alice]; the nick is now [bob]. *)
Definition renamed : Provider :=
  provider [freenode "bob"] {[ "freenode" := snapshot_of (freenode "alice") ]}.

Definition only_nick : Tags :=
  mkTags None None None None (Some (JStr "bob")) None.

(** No normalisation: the saved port is the string ["6667"], the current
    one the number [6667]; the port is sent. *)
Definition retyped : Provider :=
  provider [freenode "alice"]
    {[ "freenode" :=
         mkSnapshot (JStr "freenode") (JStr "irc.example.org") (JStr "6667")
           (JBool false) (JStr "alice/freenode:s3cret") (JStr "alice")
           (JStr "alice") ]}.

End SaveExample.

Module CreateExample.
Import SaveExample.

(** Host, port and nick entered. *)
Definition complete : Provider :=
  provider [control; fresh "irc.libera.chat" 6697 (JStr "alice")] ∅.

(** No nick yet. *)
Definition without_nick : Provider :=
  provider [control; fresh "irc.libera.chat" 6697 JUndef] ∅.

(** No server yet: the server is the empty string. *)
Definition without_server : Provider :=
  provider [control; fresh "" 6697 (JStr "alice")] ∅.

End CreateExample.

Module NoControllerExample.

(** A relay network with unsaved changes and a new network ready to be
    created, while nothing is connected. *)
Definition offline : Provider :=
  SaveExample.provider
    [set_state disconnected (SaveExample.freenode "bob");
     SaveExample.fresh "irc.libera.chat" 6697 (JStr "alice")]
    {[ "freenode" := snapshot_of (SaveExample.freenode "alice") ]}.

End NoControllerExample.

Module RewriteExample.

(** The relay's address and credentials, as the login sequence left
    them. *)
Definition relay_config : BncConfig :=
  mkBncConfig true (JStr "alice") (JStr "s3cret") (JStr "bnc.example.org")
    (JNum 6697) (JBool true) (JBool true) (JStr "/socket") true.

Definition attached : Provider :=
  mkProvider [SaveExample.control; SaveExample.freenode "alice"] None
    relay_config true ∅ [].

End RewriteExample.

Module ReconcileExample.

(** Lower-casing of the letters [A] to [Z]: what [toLowerCase] does to a
    name that has no other letter. *)
Definition lower_ascii (c : ascii) : ascii :=
  let n := nat_of_ascii c in
  if (65 <=? n)%nat && (n <=? 90)%nat then ascii_of_nat (n + 32) else c.

Fixpoint ascii_toLowerCase (s : string) : string :=
  match s with
  | EmptyString => EmptyString
  | String c s' => String (lower_ascii c) (ascii_toLowerCase s')
  end.

(** A platform for the examples, whose names are ASCII: a date given as a
    number of milliseconds is that number; a name that starts with [#] or
    [&] is a channel, any other a query; lower-casing is that of the
    letters [A] to [Z]. *)
Definition example_platform : Platform :=
  mkPlatform
    (λ v, match v with JNum n => n | _ => 0%Z end)
    (λ name, match name with
             | String "#" _ | String "&" _ => channel
             | _ => query
             end)
    ascii_toLowerCase.

Definition chan (name : string) (joined : bool) : Buffer :=
  mkBuffer name channel joined joined (JStr "") 0.

Definition server_buffer : Buffer := mkBuffer "*" other true true (JStr "") 0.

Definition with_buffers (bs : list Buffer) : Provider :=
  SaveExample.provider [set_buffers bs (SaveExample.freenode "alice")] ∅.

Definition remote (name : string) (joined : bool) (seen : jsval) : BncBuffer :=
  mkBncBuffer name (JBool joined) seen JUndef.

End ReconcileExample.

Module ReconcileFailing.
Import ReconcileExample.

(** The server buffer and three channels; the relay only has [#chan]. *)
Definition local_buffers : list Buffer :=
  [server_buffer; chan "#old1" true; chan "#old2" true; chan "#chan" true].

Definition relay_buffers : list BncBuffer := [remote "#chan" true JUndef].

Definition once : Provider :=
  @reconcile example_platform 0 relay_buffers (with_buffers local_buffers).

Definition twice : Provider :=
  @reconcile example_platform 0 relay_buffers once.

End ReconcileFailing.

Module LoginExample.

(** The controller connection logs in with [password]; the relay has no
    networks yet. *)
Definition login (password : string) : Provider :=
  SaveExample.provider
    [mkNetwork "bouncer" connected false (JStr password) (JStr "alice")
       (mkConnection (JStr "bnc.example.org") (JNum 6697) (JBool true)
          (JStr "alice") JUndef (JBool true) JUndef)
       (mkIrcClient true false JUndef
          (mkClientOptions JUndef JUndef JUndef JUndef JUndef))
       []]
    ∅.

Definition empty_relay : Relay := mkRelay [] (λ _, []).

(** The relay username and password the login sequence leaves, when it
    returns. *)
Definition credentials_after (password : string) : option (jsval * jsval) :=
  match @initAndAddNetworks ReconcileExample.example_platform empty_relay 0
          (login password) with
  | Returned p => Some (bnc_username (bnc p), bnc_password (bnc p))
  | Threw _ => None
  end.

End LoginExample.

Module NamingExample.

Definition named (name : string) (bncname : jsval) : Network :=
  mkNetwork name disconnected false (JStr "") (JStr "")
    (mkConnection (JStr "") (JNum 6667) (JBool false) (JStr "alice")
       bncname JUndef JUndef)
    (mkIrcClient false false JUndef
       (mkClientOptions JUndef JUndef JUndef JUndef JUndef))
    [].

(** [Network1] and [Network3] exist; a network is added. *)
Definition with_gap : Provider :=
  SaveExample.provider
    [named "Network1" (JStr "Network1"); named "Network3" (JStr "Network3");
     named "New network" JUndef]
    ∅.

(** The controller; a network saved to the relay as [Network1] and since
    renamed [freenode]; and a network just added, which comes with the
    name [Network1] and whose server, port and nick have been entered. *)
Definition saved : Network :=
  mkNetwork "freenode" disconnected false (JStr "") (JStr "")
    (mkConnection (JStr "irc.freenode.net") (JNum 6667) (JBool false)
       (JStr "alice") (JStr "Network1") JUndef JUndef)
    (mkIrcClient false false JUndef
       (mkClientOptions JUndef JUndef JUndef JUndef JUndef))
    [].

Definition added : Network :=
  SaveExample.fresh "irc.libera.chat" 6697 (JStr "alice").

Definition collision : Provider :=
  SaveExample.provider [SaveExample.control; saved; added]
    {[ "Network1" := snapshot_of saved ]}.

End NamingExample.

Module MergeExample.

(** The relay reports one network, [freenode], with one joined channel. *)
Definition relay : Relay :=
  mkRelay
    [mkBncNetwork "freenode" (JStr "irc.freenode.net") (JStr "6667") (JStr "0")
       (JStr "alice") JUndef JUndef]
    (λ _, [ReconcileExample.remote "#kiwi" true JUndef]).

(** A connection to the relay attached to the upstream [freenode], not
    yet named. *)
Definition upstream : Network :=
  mkNetwork "bouncer" connected false (JStr "alice/freenode:s3cret")
    (JStr "alice")
    (mkConnection (JStr "bnc.example.org") (JNum 6697) (JBool true)
       (JStr "alice") JUndef (JBool true) JUndef)
    (mkIrcClient true true (JStr "freenode")
       (mkClientOptions JUndef JUndef JUndef JUndef JUndef))
    [].

(** Relaying has been enabled. *)
Definition attached : Provider :=
  mkProvider [upstream] None
    (mkBncConfig true (JStr "") (JStr "") (JStr "bnc.example.org") (JNum 6697)
       (JBool true) (JBool true) (JStr "") false)
    true ∅ [].

End MergeExample.

(** * Properties *)

(** ** JavaScript values *)

Example to_string_num : to_string (JNum 6667) = "6667".
Proof. vm_compute. reflexivity. Qed.

Example split_login : split ":" "alice/freenode:s3cret" = ["alice/freenode"; "s3cret"].
Proof. reflexivity. Qed.

Example split_no_separator : split ":" "alice" = ["alice"].
Proof. reflexivity. Qed.

(** ** Controller election *)

Lemma getController_networks p : networks (getController p).2 = networks p.
Proof. unfold getController. by destruct (cached_controller_connected p). Qed.

Lemma getController_snapshot p :
  networksSnapshot (getController p).2 = networksSnapshot p.
Proof. unfold getController. by destruct (cached_controller_connected p). Qed.

Lemma getController_trace p : trace (getController p).2 = trace p.
Proof. unfold getController. by destruct (cached_controller_connected p). Qed.

Lemma getController_bnc p : bnc (getController p).2 = bnc p.
Proof. unfold getController. by destruct (cached_controller_connected p). Qed.

Lemma getController_deref p r : deref (getController p).2 r = deref p r.
Proof. destruct r; simpl; [by rewrite getController_networks|done]. Qed.

(** The result is what the call leaves in [this.controllerNetwork]. *)
Lemma getController_cached p :
  controllerNetwork (getController p).2 = (getController p).1.
Proof. unfold getController. by destruct (cached_controller_connected p). Qed.

(** Whatever [getController] returns is a connected network. *)
Lemma getController_connected p c :
  (getController p).1 = Some c →
  ∃ n, deref p c = Some n ∧ net_state n = connected.
Proof.
  unfold getController.
  destruct (cached_controller_connected p) eqn:Hc; simpl.
  - unfold cached_controller_connected in Hc. intros Hk. rewrite Hk in Hc.
    destruct (deref p c) as [n|] eqn:Hn; [|done].
    exists n. split; [done|]. unfold is_connected in Hc.
    by apply bool_decide_eq_true in Hc.
  - destruct (list_find _ (networks p)) as [[j n]|] eqn:Hf; [|done].
    simpl. intros [= <-]. apply list_find_Some in Hf as (Hj & Hn & _).
    exists n. split; [done|]. unfold can_control, is_connected in Hn.
    apply andb_prop_elim in Hn as [Hn _].
    by apply bool_decide_unpack in Hn.
Qed.

(** A scan returns a network of [state.networks]. *)
Lemma getController_scan_listed p r :
  cached_controller_connected p = false →
  (getController p).1 = Some r → ∃ c : nat, r = InList c.
Proof.
  intros Hc. unfold getController. rewrite Hc. simpl.
  destruct (list_find _ (networks p)) as [[j n]|]; [|done].
  simpl. intros [= <-]. by exists j.
Qed.

(** When the cached controller is missing or no longer connected, the
    result is the first network, in stored order, that is connected with
    the capability enabled. *)
Lemma getController_scan p (c : nat) :
  cached_controller_connected p = false →
  (getController p).1 = Some (InList c) ↔
  ∃ n, networks p !! c = Some n ∧ can_control n = true
       ∧ ∀ j m, networks p !! j = Some m → j < c → can_control m = false.
Proof.
  intros Hc. unfold getController. rewrite Hc. simpl. split.
  - destruct (list_find _ (networks p)) as [[j n]|] eqn:Hf; [|done].
    simpl. intros [= ->]. apply list_find_Some in Hf as (Hj & Hn & Hmin).
    exists n. split_and!; [done|by apply Is_true_true|].
    intros k m Hk Hlt. specialize (Hmin k m Hk Hlt).
    by apply negb_prop_intro, Is_true_true, negb_true_iff in Hmin.
  - intros (n & Hn & Hok & Hmin).
    assert (list_find (λ n, can_control n) (networks p) = Some (c, n)) as ->; [|done].
    apply list_find_Some. split_and!; [done|by apply Is_true_true|].
    intros k m Hk Hlt. rewrite (Hmin k m Hk Hlt). by intros [].
Qed.

(** No usable network and no connected cached controller: the result is
    null. *)
Lemma getController_none p :
  cached_controller_connected p = false →
  (getController p).1 = None ↔ Forall (λ n, can_control n = false) (networks p).
Proof.
  intros Hc. unfold getController. rewrite Hc. simpl.
  rewrite fmap_None, list_find_None. apply Forall_iff. intros n.
  destruct (can_control n); naive_solver.
Qed.

(** A call that found a connected cached controller changes nothing. *)
Lemma getController_stable p c :
  (getController p).1 = Some c →
  getController (getController p).2 = (Some c, (getController p).2).
Proof.
  intros Hc. destruct (getController_connected p c Hc) as (n & Hn & Hs).
  pose proof (getController_cached p) as Hk. rewrite Hc in Hk.
  pose proof (getController_networks p) as Hnets.
  set (p' := (getController p).2) in *.
  unfold getController at 1.
  assert (deref p' c = deref p c) as Hd by apply getController_deref.
  assert (cached_controller_connected p' = true) as ->.
  { unfold cached_controller_connected. rewrite Hk, Hd, Hn.
    unfold is_connected. by apply bool_decide_eq_true. }
  by rewrite Hk.
Qed.

Section controller_examples.
Import ControllerExample.

(** The scan elects [C]. *)
Example scan_elects_C : (getController start).1 = Some (InList 2).
Proof. reflexivity. Qed.

(** Once [C] is disconnected the next call returns null: [B] is
    connected but has no capability. *)
Example disconnected_C_no_fallback_to_B :
  (getController
     (update_network 2 (set_state disconnected) (getController start).2)).1
  = None.
Proof. reflexivity. Qed.

End controller_examples.

(** C1, at the failing input: [C] is elected and cached; [C] then loses
    the bouncer capability while it stays connected; the next call tests
    only [state === 'connected'] on the cached network and returns [C],
    a network whose capability is not enabled. *)
Theorem getController_cached_without_capability :
  let p1 := (getController ControllerExample.start).2 in
  let p2 := update_network 2 (ControllerExample.set_cap false) p1 in
  (getController ControllerExample.start).1 = Some (InList 2)
  ∧ (getController p2).1 = Some (InList 2)
  ∧ (can_control <$> networks p2 !! 2) = Some false
  ∧ (cap_bouncer ∘ ircClient <$> networks p2 !! 2) = Some false.
Proof. by vm_compute. Qed.

(** ** Iteration lemmas *)

Lemma forEach_from_split {St A} (arr : St → list A) cb k a b s :
  forEach_from arr cb k (a + b) s
  = forEach_from arr cb (k + a) b (forEach_from arr cb k a s).
Proof.
  revert k s. induction a as [|a IH]; intros k s; simpl.
  - by rewrite Nat.add_0_r.
  - rewrite IH. by rewrite Nat.add_succ_r.
Qed.

(** An invariant of the callback is an invariant of the loop. *)
Lemma forEach_from_invariant {St A} (arr : St → list A) cb (I : St → Prop) k len s :
  (∀ j x s, I s → arr s !! j = Some x → I (cb j x s)) →
  I s → I (forEach_from arr cb k len s).
Proof.
  intros Hcb. revert k s. induction len as [|len IH]; intros k s Hs; simpl; [done|].
  apply IH. destruct (arr s !! k) eqn:Hk; eauto.
Qed.

(** ** [saveState] *)

Lemma controller_is_getController c p :
  controller_is c p → getController p = (Some c, p).
Proof. intros [Hc Hk]. unfold getController. by rewrite Hk, Hc. Qed.

Lemma getController_controller_is p c :
  (getController p).1 = Some c → controller_is c (getController p).2.
Proof.
  intros Hc. destruct (getController_connected p c Hc) as (n & Hn & Hs).
  pose proof (getController_cached p) as Hk. rewrite Hc in Hk.
  split; [done|]. unfold cached_controller_connected.
  rewrite Hk, getController_deref, Hn.
  unfold is_connected. by apply bool_decide_eq_true.
Qed.

Lemma controller_is_emit c e p : controller_is c p → controller_is c (emit e p).
Proof. done. Qed.

Lemma lookup_update_network i j f p :
  networks (update_network i f p) !! j
  = if decide (i = j) then f <$> networks p !! j else networks p !! j.
Proof.
  unfold update_network. simpl. destruct (decide (i = j)) as [->|Hne].
  - apply list_lookup_alter_eq.
  - by apply list_lookup_alter_ne.
Qed.

Lemma controller_is_update_network c i f p :
  (∀ n, net_state (f n) = net_state n) →
  controller_is c p → controller_is c (update_network i f p).
Proof.
  intros Hf [Hc Hk]. split; [done|].
  unfold cached_controller_connected in *.
  change (controllerNetwork (update_network i f p)) with (controllerNetwork p).
  rewrite Hc in *. destruct c as [c|n]; [|done]. cbn [deref] in *.
  rewrite lookup_update_network.
  destruct (decide (i = c)) as [->|]; [|done].
  destruct (networks p !! c) as [n|]; [|done]. simpl.
  unfold is_connected in *. by rewrite Hf.
Qed.

Lemma saveState_network_unfold c i network p :
  controller_is c p →
  saveState_network c i network p =
    if is_bare_controller c i network then p
    else if creates network p then
      emit
        (BncAddNetwork c (net_name network)
           (tag_read (tag_host (visit_tags network p)))
           (tag_read (tag_port (visit_tags network p)))
           (tag_read (tag_tls (visit_tags network p)))
           (tag_read (tag_nick (visit_tags network p)))
           (tag_read (tag_user (visit_tags network p)))
           (tag_read (tag_password (visit_tags network p))))
        (update_network i (set_bncname (JStr (net_name network))) p)
    else if truthy (snap_name (lookup_snapshot p (conn_bncname (connection network))))
    then emit (BncSaveNetwork c (conn_bncname (connection network))
                 (visit_tags network p)) p
    else p.
Proof.
  intros Hc. unfold saveState_network.
  rewrite (controller_is_getController c p Hc). done.
Qed.

Lemma saveState_network_frame c i network p :
  controller_is c p → visit_frame c i p (saveState_network c i network p).
Proof.
  intros Hc. rewrite (saveState_network_unfold c i network p Hc).
  assert (visit_frame c i p p) as Hrefl.
  { split; try done. exists []. by rewrite app_nil_r. }
  destruct (is_bare_controller c i network); [done|].
  destruct (creates network p).
  - split.
    + apply controller_is_emit, controller_is_update_network; done.
    + done.
    + simpl. by rewrite length_alter.
    + intros j Hj. change (networks (emit ?e ?q)) with (networks q).
      rewrite lookup_update_network. by destruct (decide (i = j)).
    + by eexists.
  - destruct (truthy _); [|done].
    split; try done. by eexists.
Qed.

Lemma saveState_loop_frame c k len p :
  controller_is c p →
  loop_frame c k len p (forEach_from networks (saveState_network c) k len p).
Proof.
  revert k p. induction len as [|len IH]; intros k p Hc; simpl.
  - split; try done. exists []. by rewrite app_nil_r.
  - set (p1 := match networks p !! k with
               | Some x => saveState_network c k x p
               | None => p
               end).
    assert (visit_frame c k p p1) as [H1 H2 H3 H4 [l1 H5]].
    { subst p1. destruct (networks p !! k) as [x|].
      - by apply saveState_network_frame.
      - split; try done. exists []. by rewrite app_nil_r. }
    destruct (IH (S k) p1 H1) as [G1 G2 G3 G4 [l2 G5]].
    split.
    + done.
    + by rewrite G2.
    + by rewrite G3.
    + intros j Hj. rewrite G4 by lia. apply H4. lia.
    + exists (l1 ++ l2)%list. by rewrite G5, H5, app_assoc.
Qed.

Lemma snapshotCurrentNetworks_frame p :
  networks (snapshotCurrentNetworks p) = networks p
  ∧ trace (snapshotCurrentNetworks p) = trace p
  ∧ controllerNetwork (snapshotCurrentNetworks p) = controllerNetwork p
  ∧ bnc (snapshotCurrentNetworks p) = bnc p.
Proof.
  unfold snapshotCurrentNetworks, forEach.
  apply (forEach_from_invariant networks _
           (λ s, networks s = networks p ∧ trace s = trace p
                 ∧ controllerNetwork s = controllerNetwork p ∧ bnc s = bnc p)).
  - intros j x s Hs _. by destruct (negb _).
  - done.
Qed.

(** The visit of network [i] inside [saveState]: the state [q] in which
    the callback runs has the controller cached, the snapshot store and
    network [i] as they were at the call, and what the callback leaves of
    network [i] and of the trace is still there when [saveState] returns. *)
Lemma saveState_visit p c i network :
  (getController p).1 = Some c →
  networks p !! i = Some network →
  ∃ q,
    controller_is c q
    ∧ networksSnapshot q = networksSnapshot p
    ∧ networks q !! i = Some network
    ∧ (∃ before, trace q = (trace p ++ before)%list)
    ∧ (∃ after, trace (saveState p)
                = (trace (saveState_network c i network q) ++ after)%list)
    ∧ networks (saveState p) !! i = networks (saveState_network c i network q) !! i.
Proof.
  intros Hc Hi. unfold saveState.
  pose proof (getController_controller_is p c Hc) as Hok.
  pose proof (getController_networks p) as Hnets.
  pose proof (getController_snapshot p) as Hsnap.
  pose proof (getController_trace p) as Htr.
  destruct (getController p) as [r p1]. simpl in *. subst r.
  assert (i < length (networks p1)) as Hlt.
  { rewrite Hnets. by eapply lookup_lt_Some. }
  unfold forEach.
  replace (length (networks p1)) with (i + S (length (networks p1) - S i)) by lia.
  rewrite forEach_from_split. simpl.
  destruct (saveState_loop_frame c 0 i p1 Hok) as [G1 G2 G3 G4 [l G5]].
  set (q := forEach_from networks (saveState_network c) 0 i p1) in *.
  assert (networks q !! i = Some network) as Hq.
  { rewrite G4 by lia. by rewrite Hnets. }
  rewrite Hq. exists q. split_and!.
  - done.
  - by rewrite G2.
  - done.
  - exists l. by rewrite G5, Htr.
  - set (q' := saveState_network c i network q).
    assert (controller_is c q') as Hq'.
    { by apply saveState_network_frame. }
    destruct (saveState_loop_frame c (S i) (length (networks p1) - S i) q' Hq')
      as [_ _ _ _ [l' F5]].
    exists l'. by rewrite (proj1 (proj2 (snapshotCurrentNetworks_frame _))).
  - set (q' := saveState_network c i network q).
    assert (controller_is c q') as Hq'.
    { by apply saveState_network_frame. }
    destruct (saveState_loop_frame c (S i) (length (networks p1) - S i) q' Hq')
      as [_ _ _ F4 _].
    rewrite (proj1 (snapshotCurrentNetworks_frame _)). apply F4. lia.
Qed.

Lemma diff_tags_field f network snapshot :
  tag_of f (diff_tags network snapshot)
  = if decide (current_of f network = saved_of f snapshot) then None
    else Some (current_of f network).
Proof.
  destruct f; simpl; unfold changed, strict_ne, strict_eq;
    case_bool_decide; by case_decide.
Qed.

Lemma lookup_snapshot_eq p q bncName :
  networksSnapshot q = networksSnapshot p →
  lookup_snapshot q bncName = lookup_snapshot p bncName.
Proof. unfold lookup_snapshot. by intros ->. Qed.

Lemma snapshotCurrentNetworks_named p : snapshot_named (snapshotCurrentNetworks p).
Proof.
  unfold snapshotCurrentNetworks, forEach.
  apply (forEach_from_invariant networks _ snapshot_named).
  - intros j x s Hs _. destruct (truthy (conn_bncname (connection x))) eqn:Hx; [|done].
    simpl. intros k e. simpl. rewrite lookup_insert.
    case_decide; [|by apply Hs]. by intros [= <-].
  - intros k s. simpl. by rewrite lookup_empty.
Qed.

(** C2: with a controller available, a network that is not the controller's
    bare connection and has an entry in the snapshot store under its relay
    name makes [saveState] issue an update command on the controller; a
    field is in its change set, with the current value, exactly when the
    current value is not strictly equal to the saved one. *)
Theorem saveState_update_sends_changed_fields p c i network snapshot :
  (getController p).1 = Some c →
  networks p !! i = Some network →
  is_bare_controller c i network = false →
  networksSnapshot p !! snapshot_key (conn_bncname (connection network))
    = Some snapshot →
  truthy (snap_name snapshot) = true →
  ∃ tags before after,
    trace (saveState p)
    = (trace p ++ before
       ++ [BncSaveNetwork c (conn_bncname (connection network)) tags]
       ++ after)%list
    ∧ ∀ f, tag_of f tags
           = if decide (current_of f network = saved_of f snapshot) then None
             else Some (current_of f network).
Proof.
  intros Hc Hi Hbare Hs Hname.
  destruct (saveState_visit p c i network Hc Hi)
    as (q & Hq & Hsnap & _ & [before Hb] & [after Ha] & _).
  assert (lookup_snapshot q (conn_bncname (connection network)) = snapshot) as Hl.
  { rewrite (lookup_snapshot_eq p q _ Hsnap). unfold lookup_snapshot. by rewrite Hs. }
  rewrite (saveState_network_unfold c i network q Hq), Hbare in Ha.
  unfold creates, visit_tags in Ha. rewrite Hl, Hname in Ha. simpl in Ha.
  exists (diff_tags network snapshot), before, after. split.
  - rewrite Ha, Hb. by rewrite <- !app_assoc.
  - intros f. apply diff_tags_field.
Qed.

Section save_examples.
Import SaveExample.

Example renamed_sends_only_nick :
  trace (saveState renamed) = [BncSaveNetwork 0 (JStr "freenode") only_nick].
Proof. by vm_compute. Qed.

Example retyped_sends_port :
  trace (saveState retyped)
  = [BncSaveNetwork 0 (JStr "freenode")
       (mkTags None (Some (JNum 6667)) None None None None)].
Proof. by vm_compute. Qed.

End save_examples.

Lemma saveState_update_sends_changed_fields_witness :
  ∃ tags before after,
    trace (saveState SaveExample.renamed)
    = (trace SaveExample.renamed ++ before
       ++ [BncSaveNetwork 0 (JStr "freenode") tags] ++ after)%list
    ∧ ∀ f, tag_of f tags
           = if decide (current_of f (SaveExample.freenode "bob")
                        = saved_of f (snapshot_of (SaveExample.freenode "alice")))
             then None
             else Some (current_of f (SaveExample.freenode "bob")).
Proof.
  apply (saveState_update_sends_changed_fields SaveExample.renamed 0 0
           (SaveExample.freenode "bob") (snapshot_of (SaveExample.freenode "alice")));
    by vm_compute.
Defined.

(** C3, amended: with a controller available, a network that is not the
    controller's bare connection and whose snapshot has no name is created
    on the relay exactly when its change set holds a truthy value (a string
    that is not empty, a number that is not zero) for each of host, port
    and nick.  Its visit then issues the one create command, with the
    values of the change set, and assigns [network.name] to
    [network.connection.bncname]; otherwise its visit does nothing and the
    network is as it was when [saveState] returns. *)
Theorem saveState_creates_when_ready p c i network :
  (getController p).1 = Some c →
  networks p !! i = Some network →
  is_bare_controller c i network = false →
  truthy (snap_name (lookup_snapshot p (conn_bncname (connection network))))
    = false →
  let tags := diff_tags network
                (lookup_snapshot p (conn_bncname (connection network))) in
  if ready_to_create tags then
    (∀ q, controller_is c q → networksSnapshot q = networksSnapshot p →
          saveState_network c i network q
          = emit (create_command c network tags)
              (update_network i (set_bncname (JStr (net_name network))) q))
    ∧ (∃ before after,
         trace (saveState p)
         = (trace p ++ before ++ [create_command c network tags] ++ after)%list)
    ∧ networks (saveState p) !! i
      = Some (set_bncname (JStr (net_name network)) network)
  else
    (∀ q, controller_is c q → networksSnapshot q = networksSnapshot p →
          saveState_network c i network q = q)
    ∧ networks (saveState p) !! i = Some network.
Proof.
  intros Hc Hi Hbare Hname tags.
  assert (∀ q, controller_is c q → networksSnapshot q = networksSnapshot p →
            saveState_network c i network q
            = if ready_to_create tags
              then emit (create_command c network tags)
                     (update_network i (set_bncname (JStr (net_name network))) q)
              else q) as Hvisit.
  { intros q Hq Hsnap.
    rewrite (saveState_network_unfold c i network q Hq), Hbare.
    unfold creates, visit_tags.
    rewrite (lookup_snapshot_eq p q _ Hsnap), Hname. cbn [negb andb].
    fold tags. unfold ready_to_create.
    by destruct (truthy (tag_read (tag_host tags)) &&
                 truthy (tag_read (tag_port tags)) &&
                 truthy (tag_read (tag_nick tags))). }
  destruct (saveState_visit p c i network Hc Hi)
    as (q & Hq & Hsnap & Hqi & [before Hb] & [after Ha] & Hend).
  rewrite (Hvisit q Hq Hsnap) in Ha, Hend.
  destruct (ready_to_create tags).
  - split_and!.
    + done.
    + exists before, after. rewrite Ha. simpl. rewrite Hb.
      by rewrite <- !app_assoc.
    + rewrite Hend. change (networks (emit ?e ?s)) with (networks s).
      rewrite lookup_update_network. case_decide; [|done]. by rewrite Hqi.
  - split; [done|]. by rewrite Hend.
Qed.

Section create_examples.
Import CreateExample.

Example complete_network_is_created :
  trace (saveState complete)
  = [BncAddNetwork 0 "Network1" (JStr "irc.libera.chat") (JNum 6697)
       (JBool false) (JStr "alice") (JStr "") (JStr "")]
  ∧ (conn_bncname ∘ connection <$> networks (saveState complete) !! 1)
    = Some (JStr "Network1").
Proof. by vm_compute. Qed.

Example network_without_nick_is_skipped :
  trace (saveState without_nick) = []
  ∧ networks (saveState without_nick) = networks without_nick.
Proof. by vm_compute. Qed.

End create_examples.

Lemma saveState_creates_when_ready_witness :
  (∃ before after,
     trace (saveState CreateExample.complete)
     = (trace CreateExample.complete ++ before
        ++ [BncAddNetwork 0 "Network1" (JStr "irc.libera.chat") (JNum 6697)
              (JBool false) (JStr "alice") (JStr "") (JStr "")]
        ++ after)%list)
  ∧ networks (saveState CreateExample.complete) !! 1
    = Some (set_bncname (JStr "Network1")
              (SaveExample.fresh "irc.libera.chat" 6697 (JStr "alice"))).
Proof.
  pose proof (saveState_creates_when_ready CreateExample.complete 0 1
                (SaveExample.fresh "irc.libera.chat" 6697 (JStr "alice"))
                eq_refl eq_refl eq_refl eq_refl) as H.
  cbv zeta in H. change (ready_to_create _) with true in H.
  destruct H as (_ & Htrace & Hname). split; [exact Htrace | exact Hname].
Defined.

(** C3 as stated fails: the change set of a new network whose server is
    still the empty string includes host, port and nick (each differs from
    the [undefined] of the empty snapshot), and nothing is created. *)
Lemma saveState_diff_includes_all_three_not_created :
  let network := SaveExample.fresh "" 6697 (JStr "alice") in
  let p := CreateExample.without_server in
  let tags := diff_tags network
                (lookup_snapshot p (conn_bncname (connection network))) in
  networks p !! 1 = Some network
  ∧ (getController p).1 = Some (InList 0)
  ∧ networksSnapshot p !! snapshot_key (conn_bncname (connection network)) = None
  ∧ tag_host tags = Some (JStr "")
  ∧ tag_port tags = Some (JNum 6697)
  ∧ tag_nick tags = Some (JStr "alice")
  ∧ trace (saveState p) = []
  ∧ networks (saveState p) !! 1 = Some network.
Proof. by vm_compute. Qed.

(** C6: without a controller [saveState] writes its log line and returns:
    the networks, the snapshot store and the relay's configuration are what
    they were, and nothing else is added to the trace. *)
Theorem saveState_without_controller p :
  (getController p).1 = None →
  networks (saveState p) = networks p
  ∧ networksSnapshot (saveState p) = networksSnapshot p
  ∧ bnc (saveState p) = bnc p
  ∧ trace (saveState p)
    = (trace p ++ [Log "No controller available to save networks"])%list.
Proof.
  intros Hc. unfold saveState.
  pose proof (getController_networks p) as Hn.
  pose proof (getController_snapshot p) as Hs.
  pose proof (getController_bnc p) as Hb.
  pose proof (getController_trace p) as Ht.
  destruct (getController p) as [r p1]. simpl in *. subst r. simpl.
  by rewrite Hn, Hs, Hb, Ht.
Qed.

Lemma saveState_without_controller_witness :
  networks (saveState NoControllerExample.offline)
  = networks NoControllerExample.offline
  ∧ networksSnapshot (saveState NoControllerExample.offline)
    = networksSnapshot NoControllerExample.offline
  ∧ bnc (saveState NoControllerExample.offline) = bnc NoControllerExample.offline
  ∧ trace (saveState NoControllerExample.offline)
    = (trace NoControllerExample.offline
       ++ [Log "No controller available to save networks"])%list.
Proof.
  apply (saveState_without_controller NoControllerExample.offline).
  by vm_compute.
Defined.

(** ** The connection rewriter *)

(** C7: with relaying enabled and rewriting active, the first handler of
    [network.connecting] points the client of the network at the relay
    (host, port, tls), copies [direct] and [path] from the relay's
    configuration, and sets the outgoing password to
    [username/bncname:password] exactly when the relay password is truthy;
    otherwise the outgoing password is left alone.  Nothing else changes. *)
Theorem onConnecting_rewrite_redirects p i network :
  bnc_enabled (bnc p) = true →
  rewriteConnections p = true →
  networks p !! i = Some network →
  ∃ network',
    networks (onConnecting_rewrite i p) !! i = Some network'
    ∧ opt_host (options (ircClient network')) = bnc_server (bnc p)
    ∧ opt_port (options (ircClient network')) = bnc_port (bnc p)
    ∧ opt_tls (options (ircClient network')) = bnc_tls (bnc p)
    ∧ conn_direct (connection network') = bnc_direct (bnc p)
    ∧ opt_path (options (ircClient network')) = bnc_path (bnc p)
    ∧ opt_password (options (ircClient network'))
      = (if truthy (bnc_password (bnc p))
         then tunnel_password (bnc p) (conn_bncname (connection network))
         else opt_password (options (ircClient network)))
    ∧ set_options (options (ircClient network))
        (set_direct (conn_direct (connection network)) network')
      = network
    ∧ (∀ j, j ≠ i → networks (onConnecting_rewrite i p) !! j = networks p !! j)
    ∧ bnc (onConnecting_rewrite i p) = bnc p
    ∧ trace (onConnecting_rewrite i p) = trace p.
Proof.
  intros He Hr Hi. unfold onConnecting_rewrite. rewrite He, Hr. simpl.
  exists (rewrite_connection (bnc p) network). split_and!; try done.
  - by rewrite list_lookup_alter_eq, Hi.
  - destruct network as [? ? ? ? ? [] [] ?]. reflexivity.
  - intros j Hj. by apply list_lookup_alter_ne.
Qed.

Section rewrite_examples.
Import RewriteExample.

Example named_network_is_tunnelled :
  options ∘ ircClient <$> networks (onConnecting_rewrite 1 attached) !! 1
  = Some (mkClientOptions (JStr "bnc.example.org") (JNum 6697) (JBool true)
            (JStr "alice/freenode:s3cret") (JStr "/socket")).
Proof. by vm_compute. Qed.

(** A network without relay name: the template spells [undefined]. *)
Example unnamed_network_is_tunnelled :
  opt_password ∘ options ∘ ircClient
    <$> networks (onConnecting_rewrite 0 attached) !! 0
  = Some (JStr "alice/undefined:s3cret").
Proof. by vm_compute. Qed.

End rewrite_examples.

Lemma onConnecting_rewrite_redirects_witness :
  ∃ network',
    networks (onConnecting_rewrite 1 RewriteExample.attached) !! 1 = Some network'
    ∧ opt_host (options (ircClient network')) = JStr "bnc.example.org"
    ∧ opt_port (options (ircClient network')) = JNum 6697
    ∧ opt_tls (options (ircClient network')) = JBool true
    ∧ conn_direct (connection network') = JBool true
    ∧ opt_path (options (ircClient network')) = JStr "/socket"
    ∧ opt_password (options (ircClient network')) = JStr "alice/freenode:s3cret".
Proof.
  destruct (onConnecting_rewrite_redirects RewriteExample.attached 1
              (SaveExample.freenode "alice") eq_refl eq_refl eq_refl)
    as (n' & H1 & H2 & H3 & H4 & H5 & H6 & H7 & _).
  exists n'. split_and!; [exact H1|exact H2|exact H3|exact H4|exact H5|exact H6|exact H7].
Defined.

(** ** Buffer reconciliation *)

Section reconcile_examples.
Import ReconcileExample.

(** The relay knows [#chan] and [#old]; the client has nothing yet. *)
Example reconcile_first_sync :
  let p := @reconcile example_platform 0
             [remote "#chan" true (JNum 1000); remote "#old" false JUndef]
             (with_buffers [server_buffer]) in
  network_buffers 0 p
  = [server_buffer;
     mkBuffer "#chan" channel true true (JStr "") 1000;
     mkBuffer "#old" channel false false (JStr "") 0]
  ∧ trace p = [Raw 0 "NAMES #chan"].
Proof. by vm_compute. Qed.

End reconcile_examples.

Section reconciliation_facts.
Context {platform : Platform}.

Lemma buffers_only_refl i p : buffers_only i p p.
Proof. split; try done. exists []. by rewrite app_nil_r. Qed.

Lemma buffers_only_trans i p1 p2 p3 :
  buffers_only i p1 p2 → buffers_only i p2 p3 → buffers_only i p1 p3.
Proof.
  intros [A1 A2 A3 A4 A5 A6 [l1 A7]] [B1 B2 B3 B4 B5 B6 [l2 B7]]. split.
  - intros j. by rewrite B1.
  - intros j Hj. by rewrite B2, A2.
  - by rewrite B3.
  - by rewrite B4.
  - by rewrite B5.
  - by rewrite B6.
  - exists (l1 ++ l2)%list. by rewrite B7, A7, app_assoc.
Qed.

Lemma buffers_only_emit i e p : buffers_only i p (emit e p).
Proof. split; try done. by eexists. Qed.

Lemma buffers_only_update i (g : Network → list Buffer) p :
  buffers_only i p (update_network i (λ n, set_buffers (g n) n) p).
Proof.
  split; try done.
  - intros j. rewrite lookup_update_network. case_decide; [|done].
    by destruct (networks p !! j).
  - intros j Hj. rewrite lookup_update_network. by case_decide.
  - simpl. by rewrite length_alter.
  - exists []. simpl. by rewrite app_nil_r.
Qed.

Lemma addBuffer_buffers_only i name p : buffers_only i p (addBuffer i name p).2.
Proof.
  unfold addBuffer. destruct (list_find _ _) as [[k b]|]; simpl.
  - apply buffers_only_refl.
  - apply (buffers_only_update i (λ _, _)).
Qed.

Lemma sync_buffer_buffers_only i buffer p : buffers_only i p (sync_buffer i buffer p).
Proof.
  unfold sync_buffer.
  pose proof (addBuffer_buffers_only i (bb_name buffer) p) as H1.
  destruct (addBuffer i (bb_name buffer) p) as [k p1]. simpl in H1.
  eapply buffers_only_trans; [exact H1|].
  eapply buffers_only_trans;
    [apply (buffers_only_update i
              (λ n, alter (apply_remote buffer) k (buffers n)))|].
  fold (update_buffer i k (apply_remote buffer) p1).
  destruct (networks _ !! i) as [n|]; [|apply buffers_only_refl].
  destruct (buffers n !! k) as [b|]; [|apply buffers_only_refl].
  destruct (_ && _); [apply buffers_only_emit|apply buffers_only_refl].
Qed.

Lemma remove_missing_buffers_only i remote k b p :
  buffers_only i p (remove_missing i remote k b p).
Proof.
  unfold remove_missing. destruct (_ && _); [apply buffers_only_refl|].
  case_bool_decide; [|apply buffers_only_refl].
  apply (buffers_only_update i (λ n, delete k (buffers n))).
Qed.

(** Reconciliation touches the buffers of the reconciled network, and the
    trace, and nothing else. *)
Lemma reconcile_buffers_only i remote p : buffers_only i p (reconcile i remote p).
Proof.
  unfold reconcile, forEach.
  apply (forEach_from_invariant _ _ (buffers_only i p)).
  - intros j x s Hs _. eapply buffers_only_trans; [exact Hs|].
    apply remove_missing_buffers_only.
  - induction remote as [|b l IH] using rev_ind; simpl; [apply buffers_only_refl|].
    rewrite foldl_app. simpl. eapply buffers_only_trans; [exact IH|].
    apply sync_buffer_buffers_only.
Qed.

Lemma syncBncNetwork_buffers_only relay i p :
  buffers_only i p (syncBncNetwork relay i p).
Proof.
  unfold syncBncNetwork. destruct (networks p !! i); [|apply buffers_only_refl].
  eapply buffers_only_trans; [apply buffers_only_emit|].
  apply reconcile_buffers_only.
Qed.

End reconciliation_facts.

Section network_merger.
Context {platform : Platform}.

Lemma getNetworkFromBncName_Some name p net :
  getNetworkFromBncName name p = Some net →
  ∃ n, networks p !! net = Some n ∧ conn_bncname (connection n) = JStr name.
Proof.
  unfold getNetworkFromBncName.
  destruct (list_find _ _) as [[j n]|] eqn:Hf; [|done].
  simpl. intros [= ->]. apply list_find_Some in Hf as (Hj & Hn & _). eauto.
Qed.

(** C10: when the relay reports a network whose name is the relay name of a
    local network, [addNetworkToState] creates nothing and changes nothing
    of that network but its buffers: name, state, password, username and
    connection parameters are as before, and so is every other network.
    Only when there is no such local network is one created, at the end of
    the list, with the reported parameters; the existing networks are then
    all as before. *)
Theorem addNetworkToState_keeps_existing relay network p :
  let p' := addNetworkToState relay network p in
  match getNetworkFromBncName (bn_name network) p with
  | Some net =>
      length (networks p') = length (networks p)
      ∧ (∃ n n',
           networks p !! net = Some n
           ∧ networks p' !! net = Some n'
           ∧ conn_bncname (connection n) = JStr (bn_name network)
           ∧ connection n' = connection n
           ∧ net_password n' = net_password n
           ∧ net_username n' = net_username n
           ∧ n' = set_buffers (buffers n') n)
      ∧ (∀ j, j ≠ net → networks p' !! j = networks p !! j)
  | None =>
      length (networks p') = S (length (networks p))
      ∧ (∀ j, j < length (networks p) → networks p' !! j = networks p !! j)
      ∧ (∃ n',
           networks p' !! length (networks p) = Some n'
           ∧ net_name n' = bn_name network
           ∧ net_password n' = bn_password network
           ∧ net_username n' = bn_user network
           ∧ connection n'
             = mkConnection (bn_host network) (bn_port network) (bn_tls network)
                 (js_or (bn_nick network) (JStr "")) (JStr (bn_name network))
                 JUndef JUndef)
  end.
Proof.
  simpl. unfold addNetworkToState, find_or_add.
  destruct (getNetworkFromBncName (bn_name network) p) as [net|] eqn:Hf.
  - destruct (syncBncNetwork_buffers_only relay net p) as [H1 H2 H3 _ _ _ _].
    destruct (getNetworkFromBncName_Some _ _ _ Hf) as (n & Hn & Hname).
    split_and!; [done| |done].
    specialize (H1 net). rewrite Hn in H1.
    destruct (networks (syncBncNetwork relay net p) !! net) as [n'|]; [|done].
    change (Some (without_buffers n') = Some (without_buffers n)) in H1.
    apply (inj Some) in H1.
    exists n, n'. split_and!; try done.
    + by apply (f_equal connection) in H1.
    + by apply (f_equal net_password) in H1.
    + by apply (f_equal net_username) in H1.
    + destruct n, n'. unfold without_buffers, set_buffers in *. simpl in *.
      congruence.
  - unfold addNetwork.
    set (fresh := mkNetwork _ _ _ _ _ _ _ _).
    set (p1 := set_networks (networks p ++ [fresh]) p).
    destruct (syncBncNetwork_buffers_only relay (length (networks p)) p1)
      as [H1 H2 H3 _ _ _ _].
    split_and!.
    + rewrite H3. simpl. rewrite length_app. simpl. lia.
    + intros j Hj. rewrite H2 by lia. simpl. by apply lookup_app_l.
    + specialize (H1 (length (networks p))). simpl in H1.
      rewrite list_lookup_middle in H1 by done.
      destruct (networks (syncBncNetwork relay _ p1) !! _) as [n'|]; [|done].
      change (Some (without_buffers n') = Some (without_buffers fresh)) in H1.
      apply (inj Some) in H1. exists n'. split; [done|].
      split_and!.
      * by apply (f_equal net_name) in H1.
      * by apply (f_equal net_password) in H1.
      * by apply (f_equal net_username) in H1.
      * by apply (f_equal connection) in H1.
Qed.

End network_merger.

Section reconciliation_keeps.
Context {platform : Platform}.

Lemma network_buffers_update i (g : Network → list Buffer) p :
  network_buffers i (update_network i (λ n, set_buffers (g n) n) p)
  = match networks p !! i with
    | Some n => g n
    | None => []
    end.
Proof.
  unfold network_buffers. rewrite lookup_update_network.
  case_decide; [|done]. by destruct (networks p !! i).
Qed.

Lemma sync_buffer_has_buffer i buffer name kind p :
  has_buffer i name kind p → has_buffer i name kind (sync_buffer i buffer p).
Proof.
  intros (b & Hb & Hname & Hkind). unfold sync_buffer.
  assert (has_buffer i name kind (addBuffer i (bb_name buffer) p).2) as H1.
  { unfold addBuffer. destruct (list_find _ _) as [[k x]|]; simpl; [by exists b|].
    exists b. split; [|done].
    rewrite (network_buffers_update i (λ _, _)).
    unfold network_buffers in *. destruct (networks p !! i); [|by inversion Hb].
    apply elem_of_app. by left. }
  destruct (addBuffer i (bb_name buffer) p) as [k p1]. simpl in H1.
  assert (has_buffer i name kind (update_buffer i k (apply_remote buffer) p1)) as H2.
  { destruct H1 as (b1 & Hb1 & Hn1 & Hk1). unfold update_buffer.
    unfold has_buffer.
    rewrite (network_buffers_update i
               (λ n, alter (apply_remote buffer) k (buffers n))).
    unfold network_buffers in Hb1.
    destruct (networks p1 !! i) as [n|]; [|by inversion Hb1].
    apply list_elem_of_lookup in Hb1 as [j Hj].
    destruct (decide (k = j)) as [->|Hne].
    - exists (apply_remote buffer b1). split_and!; [|done..].
      apply list_elem_of_lookup. exists j.
      by rewrite list_lookup_alter_eq, Hj.
    - exists b1. split_and!; [|done..].
      apply list_elem_of_lookup. exists j.
      by rewrite list_lookup_alter_ne. }
  set (p2 := update_buffer i k (apply_remote buffer) p1) in *.
  destruct (networks p2 !! i) as [n|]; [|done].
  destruct (buffers n !! k) as [x|]; [|done].
  by destruct (_ && _).
Qed.

Lemma remove_missing_has_buffer i remote k x name kind p :
  network_buffers i p !! k = Some x →
  (∃ b, b ∈ network_buffers i p ∧ buf_name b = name ∧ buf_kind b = kind
        ∧ wanted remote b) →
  ∃ b, b ∈ network_buffers i (remove_missing i remote k x p)
       ∧ buf_name b = name ∧ buf_kind b = kind ∧ wanted remote b.
Proof.
  intros Hk (b & Hb & Hname & Hkind & Hw). unfold remove_missing.
  destruct (negb (isChannel x) && negb (isQuery x)) eqn:Hx; [by exists b|].
  case_bool_decide as Hnone; [|by exists b].
  exists b. split; [|done]. unfold removeBuffer.
  rewrite (network_buffers_update i (λ n, delete k (buffers n))).
  unfold network_buffers in *. destruct (networks p !! i) as [n|]; [|by inversion Hb].
  apply list_elem_of_lookup in Hb as [j Hj].
  assert (j ≠ k) as Hjk.
  { intros ->. assert (x = b) as -> by congruence.
    destruct Hw as [[Hc Hq]|(r & Hr & Hsame)].
    - by rewrite Hc, Hq in Hx.
    - apply length_zero_iff_nil in Hnone.
      assert (r ∈ filter (λ bncBuffer, same_name (bb_name bncBuffer) (buf_name b))
                    remote) as Hin by (by apply list_elem_of_filter).
      rewrite Hnone in Hin. by inversion Hin. }
  apply list_elem_of_lookup.
  destruct (decide (j < k)).
  - exists j. by rewrite list_lookup_delete_lt.
  - exists (pred j). rewrite list_lookup_delete_ge by lia.
    by replace (S (pred j)) with j by lia.
Qed.

(** What reconciliation never removes: a buffer that is neither a channel
    nor a query is still there afterwards, and so is a buffer whose name
    the relay lists. *)
Lemma reconcile_keeps_wanted i remote p b :
  b ∈ network_buffers i p →
  wanted remote b →
  has_buffer i (buf_name b) (buf_kind b) (reconcile i remote p).
Proof.
  intros Hb Hw. unfold reconcile, forEach.
  set (I := λ s, ∃ b', b' ∈ network_buffers i s ∧ buf_name b' = buf_name b
                       ∧ buf_kind b' = buf_kind b ∧ wanted remote b').
  assert (∀ s, I s → has_buffer i (buf_name b) (buf_kind b) s) as HI.
  { intros s (b' & ? & ? & ? & _). by exists b'. }
  apply HI. apply (forEach_from_invariant _ _ I).
  - intros j x s Hs Hj. by apply remove_missing_has_buffer.
  - assert (∀ s, has_buffer i (buf_name b) (buf_kind b) s → I s) as HI'.
    { intros s (b' & Hb' & Hn & Hk). exists b'. split_and!; try done.
      destruct Hw as [[Hc Hq]|(r & Hr & Hsame)].
      - left. unfold isChannel, isQuery in *. by rewrite Hk.
      - right. exists r. split; [done|]. unfold same_name in *. by rewrite Hn. }
    apply HI'. clear HI HI' I Hw.
    induction remote as [|r l IH] using rev_ind; simpl; [by exists b|].
    rewrite foldl_app. simpl. by apply sync_buffer_has_buffer.
Qed.

End reconciliation_keeps.

(** C5, at the failing input: [#old1] and [#old2] are channels the relay
    does not list.  Removing [#old1] at position 1 moves [#old2] to
    position 1, and the iteration goes on at position 2: [#old2] is never
    looked at and is still there after reconciliation. *)
Theorem reconcile_leaves_buffer_behind_removed_one :
  network_buffers 0 (ReconcileExample.with_buffers ReconcileFailing.local_buffers)
  = [ReconcileExample.server_buffer; ReconcileExample.chan "#old1" true;
     ReconcileExample.chan "#old2" true; ReconcileExample.chan "#chan" true]
  ∧ filter (λ r, @same_name ReconcileExample.example_platform (bb_name r) "#old2")
      ReconcileFailing.relay_buffers = []
  ∧ isChannel (ReconcileExample.chan "#old2" true) = true
  ∧ network_buffers 0 ReconcileFailing.once
    = [ReconcileExample.server_buffer; ReconcileExample.chan "#old2" true;
       ReconcileExample.chan "#chan" true].
Proof. by vm_compute. Qed.

(** ** Reconciliation run again *)

Section reconciliation_again.
Context {platform : Platform}.

Lemma network_buffers_emit i e p : network_buffers i (emit e p) = network_buffers i p.
Proof. done. Qed.

Lemma network_buffers_sync_buffer i r p n :
  networks p !! i = Some n →
  network_buffers i (sync_buffer i r p) = sync_buffers r (network_buffers i p).
Proof.
  intros Hi. unfold sync_buffer, sync_buffers, addBuffer.
  assert (network_buffers i p = buffers n) as Hbs.
  { unfold network_buffers. by rewrite Hi. }
  rewrite Hbs.
  destruct (list_find _ (buffers n)) as [[k x]|] eqn:Hf.
  - set (q := update_buffer i k (apply_remote r) p).
    assert (network_buffers i q = alter (apply_remote r) k (buffers n)) as Hq.
    { subst q. unfold update_buffer.
      rewrite (network_buffers_update i (λ n, alter (apply_remote r) k (buffers n))).
      by rewrite Hi. }
    destruct (networks q !! i) as [m|]; [|done].
    destruct (buffers m !! k) as [y|]; [|done].
    by destruct (_ && _).
  - set (fresh := mkBuffer (bb_name r) (new_buffer_kind (bb_name r)) false false
                    (JStr "") 0).
    set (p1 := update_network i (set_buffers (buffers n ++ [fresh])) p).
    set (q := update_buffer i (length (buffers n)) (apply_remote r) p1).
    assert (network_buffers i q = buffers n ++ [apply_remote r fresh]) as Hq.
    { subst q. unfold update_buffer.
      rewrite (network_buffers_update i
                 (λ m, alter (apply_remote r) (length (buffers n)) (buffers m))).
      subst p1. rewrite lookup_update_network.
      case_decide; [|done]. rewrite Hi. simpl.
      replace (length (buffers n)) with (length (buffers n) + 0) at 1 by lia.
      by rewrite alter_app_r. }
    destruct (networks q !! i) as [m|]; [|done].
    destruct (buffers m !! length (buffers n)) as [y|]; [|done].
    by destruct (_ && _).
Qed.

(** The buffers after the first half of [reconcile]. *)
Lemma network_buffers_sync_all i (l : list BncBuffer) p n :
  networks p !! i = Some n →
  network_buffers i (foldl (λ p buffer, sync_buffer i buffer p) p l)
  = foldl (λ bs r, sync_buffers r bs) (network_buffers i p) l.
Proof.
  intros Hi. induction l as [|r l IH] using rev_ind; [done|].
  rewrite !foldl_app. simpl. rewrite <- IH.
  set (q := foldl (λ p buffer, sync_buffer i buffer p) p l).
  assert (buffers_only i p q) as [Hq _ _ _ _ _ _].
  { subst q. clear IH. induction l as [|x l IH] using rev_ind;
      [apply buffers_only_refl|].
    rewrite foldl_app. simpl. eapply buffers_only_trans; [exact IH|].
    apply sync_buffer_buffers_only. }
  specialize (Hq i). rewrite Hi in Hq.
  destruct (networks q !! i) as [m|] eqn:Hm; [|done].
  by apply (network_buffers_sync_buffer i r q m).
Qed.

Lemma settle_step_name name x r : buf_name (settle_step name x r) = buf_name x.
Proof. unfold settle_step. by case_decide. Qed.

Lemma settle_name name x l : buf_name (foldl (settle_step name) x l) = buf_name x.
Proof.
  revert x. induction l as [|r l IH]; intros x; simpl; [done|].
  by rewrite IH, settle_step_name.
Qed.

Lemma settle_unmatched name x l :
  (∀ r, r ∈ l → ¬ same_name name (bb_name r)) →
  foldl (settle_step name) x l = x.
Proof.
  revert x. induction l as [|r l IH]; intros x H; simpl; [done|].
  unfold settle_step at 2. case_decide as Hr.
  - destruct (H r); [by left|done].
  - apply IH. intros r' Hr'. apply H. by right.
Qed.

Lemma settle_last_read name x y l :
  buf_last_read x = buf_last_read y →
  buf_last_read (foldl (settle_step name) x l)
  = buf_last_read (foldl (settle_step name) y l).
Proof.
  revert x y. induction l as [|r l IH]; intros x y Hxy; simpl; [done|].
  apply IH. unfold settle_step. case_decide; [|done].
  simpl. by rewrite Hxy.
Qed.

Lemma apply_remote_idemp r x : apply_remote r (apply_remote r x) = apply_remote r x.
Proof. unfold apply_remote. simpl. by destruct (truthy (bb_seen r)). Qed.

(** An entry applied before and after the others of its name leaves what
    it leaves when applied after them. *)
Lemma settle_absorb name a l r :
  buf_name a = name →
  foldl (settle_step name) a l = a →
  apply_remote r (foldl (settle_step name) (apply_remote r a) l) = apply_remote r a.
Proof.
  intros Hname Hfix.
  pose proof (settle_name name (apply_remote r a) l) as Hn.
  assert (buf_kind (foldl (settle_step name) (apply_remote r a) l) = buf_kind a)
    as Hk.
  { clear. generalize (apply_remote r a) (eq_refl : buf_kind (apply_remote r a) = buf_kind a).
    induction l as [|x l IH]; intros b Hb; simpl; [done|].
    apply IH. unfold settle_step. by case_decide. }
  unfold apply_remote at 1 3. rewrite Hn, Hk. simpl.
  destruct (truthy (bb_seen r)) eqn:Hs; [done|].
  f_equal.
  rewrite (settle_last_read name (apply_remote r a) a l).
  - by rewrite Hfix.
  - unfold apply_remote. simpl. by rewrite Hs.
Qed.

Lemma settle_buffer_snoc l r b :
  settle_buffer (l ++ [r]) b = settle_step (buf_name b) (settle_buffer l b) r.
Proof. unfold settle_buffer. by rewrite foldl_app. Qed.

Lemma same_name_trans a b c : same_name a b → same_name b c → same_name a c.
Proof. unfold same_name. congruence. Qed.

Lemma same_name_sym a b : same_name a b → same_name b a.
Proof. unfold same_name. congruence. Qed.

Lemma first_of_name_intro bs j b :
  bs !! j = Some b →
  (∀ j' b', bs !! j' = Some b' → j' < j → ¬ same_name (buf_name b') (buf_name b)) →
  first_of_name bs j b.
Proof. intros Hj Hmin. apply list_find_Some. by split_and!. Qed.

Lemma first_of_name_elim bs j b :
  first_of_name bs j b →
  bs !! j = Some b
  ∧ ∀ j' b', bs !! j' = Some b' → j' < j → ¬ same_name (buf_name b') (buf_name b).
Proof. intros (Hj & _ & Hmin)%list_find_Some. split; [done|]. eauto. Qed.

(** The buffer [addBuffer] finds for a remote entry is the first of its
    name. *)
Lemma find_first_of_name r bs k x :
  list_find (λ b, same_name (buf_name b) (bb_name r)) bs = Some (k, x) →
  first_of_name bs k x ∧ same_name (buf_name x) (bb_name r).
Proof.
  intros (Hk & Hx & Hmin)%list_find_Some. split; [|done].
  apply first_of_name_intro; [done|].
  intros j' b' Hj' Hlt Hs. apply (Hmin j' b' Hj' Hlt).
  by eapply same_name_trans.
Qed.

Lemma sync_buffers_settled l r bs :
  settled l bs → covered l bs → settled (l ++ [r]) (sync_buffers r bs).
Proof.
  intros Hset Hcov j b Hfirst. unfold sync_buffers in Hfirst.
  apply first_of_name_elim in Hfirst as [Hj Hmin].
  rewrite settle_buffer_snoc.
  destruct (list_find _ bs) as [[k x]|] eqn:Hf.
  - pose proof (find_first_of_name r bs k x Hf) as [Hkx Hxr].
    pose proof (proj1 (first_of_name_elim _ _ _ Hkx)) as Hk.
    destruct (decide (j = k)) as [->|Hjk].
    + rewrite list_lookup_alter_eq, Hk in Hj. simpl in Hj. injection Hj as <-.
      unfold settle_step. simpl. rewrite decide_True by done.
      unfold settle_buffer. simpl.
      apply settle_absorb; [done|]. by apply (Hset k x).
    + rewrite list_lookup_alter_ne in Hj by done.
      assert (first_of_name bs j b) as Hjb.
      { apply first_of_name_intro; [done|]. intros j' b' Hj' Hlt.
        destruct (decide (j' = k)) as [->|Hne].
        - apply (Hmin k (apply_remote r b')); [|done].
          by rewrite list_lookup_alter_eq, Hj'.
        - apply (Hmin j' b'); [|done]. by rewrite list_lookup_alter_ne. }
      rewrite (Hset j b Hjb). unfold settle_step. case_decide as Hbr; [|done].
      exfalso. apply list_find_Some in Hf as (_ & _ & Hkmin).
      destruct (decide (k < j)) as [Hlt|Hge].
      * apply (Hmin k (apply_remote r x)); [|done|].
        -- by rewrite list_lookup_alter_eq, Hk.
        -- simpl. eapply same_name_trans; [exact Hxr|]. by apply same_name_sym.
      * apply (Hkmin j b Hj); [lia|done].
  - apply list_find_None in Hf. rewrite Forall_forall in Hf.
    set (fresh := mkBuffer _ _ _ _ _ _) in *.
    apply lookup_app_Some in Hj as [Hj|[Hge Hj]].
    + assert (first_of_name bs j b) as Hjb.
      { apply first_of_name_intro; [done|]. intros j' b' Hj' Hlt.
        apply (Hmin j' b'); [|done]. by apply lookup_app_l_Some. }
      rewrite (Hset j b Hjb). unfold settle_step. case_decide as Hbr; [|done].
      destruct (Hf b); [by eapply list_elem_of_lookup_2|done].
    + apply list_lookup_singleton_Some in Hj as [_ <-].
      unfold settle_step. simpl. rewrite decide_True by done.
      unfold settle_buffer. rewrite settle_unmatched; [apply apply_remote_idemp|].
      intros r' Hr' Hs. simpl in Hs.
      destruct (Hcov r' Hr') as (b' & Hb' & Hm).
      apply (Hf b' Hb'). eapply same_name_trans; [exact Hm|]. by apply same_name_sym.
Qed.

Lemma sync_buffers_has_name r bs b :
  b ∈ bs → ∃ b', b' ∈ sync_buffers r bs ∧ buf_name b' = buf_name b.
Proof.
  intros [j Hj]%list_elem_of_lookup. unfold sync_buffers.
  destruct (list_find _ bs) as [[k x]|].
  - destruct (decide (k = j)) as [->|Hne].
    + exists (apply_remote r b). split; [|done].
      apply list_elem_of_lookup. exists j. by rewrite list_lookup_alter_eq, Hj.
    + exists b. split; [|done].
      apply list_elem_of_lookup. exists j. by rewrite list_lookup_alter_ne.
  - exists b. split; [|done]. apply elem_of_app. left.
    by eapply list_elem_of_lookup_2.
Qed.

Lemma sync_buffers_covered l r bs :
  covered l bs → covered (l ++ [r]) (sync_buffers r bs).
Proof.
  intros Hcov r' [Hr'|Hr']%elem_of_app.
  - destruct (Hcov r' Hr') as (b & Hb & Hm).
    destruct (sync_buffers_has_name r bs b Hb) as (b' & Hb' & Hn).
    exists b'. split; [done|]. by rewrite Hn.
  - apply list_elem_of_singleton in Hr' as ->. unfold sync_buffers.
    destruct (list_find _ bs) as [[k x]|] eqn:Hf.
    + apply list_find_Some in Hf as (Hk & Hx & _).
      exists (apply_remote r x). split; [|done].
      apply list_elem_of_lookup. exists k. by rewrite list_lookup_alter_eq, Hk.
    + eexists. split; [apply elem_of_app; right; apply list_elem_of_singleton; done|].
      done.
Qed.

(** After the first half of [reconcile] the buffers are settled and cover
    the remote list. *)
Lemma sync_all_settled (l : list BncBuffer) bs :
  settled l (foldl (λ bs r, sync_buffers r bs) bs l)
  ∧ covered l (foldl (λ bs r, sync_buffers r bs) bs l).
Proof.
  induction l as [|r l [IH1 IH2]] using rev_ind.
  - split.
    + by intros j b _.
    + intros r Hr. by inversion Hr.
  - rewrite foldl_app. simpl. split.
    + by apply sync_buffers_settled.
    + by apply sync_buffers_covered.
Qed.

Lemma remove_missing_buffers i remote k x p :
  network_buffers i (remove_missing i remote k x p) = network_buffers i p
  ∨ (unlisted remote x
     ∧ (isChannel x = true ∨ isQuery x = true)
     ∧ network_buffers i (remove_missing i remote k x p)
       = delete k (network_buffers i p)).
Proof.
  unfold remove_missing.
  destruct (negb (isChannel x) && negb (isQuery x)) eqn:Hx; [by left|].
  case_bool_decide as Hnone; [|by left]. right. split_and!.
  - intros r Hr Hs. apply length_zero_iff_nil in Hnone.
    assert (r ∈ filter (λ bncBuffer, same_name (bb_name bncBuffer) (buf_name x))
                  remote) as Hin by (by apply list_elem_of_filter).
    rewrite Hnone in Hin. by inversion Hin.
  - destruct (isChannel x), (isQuery x); auto.
  - unfold removeBuffer.
    rewrite (network_buffers_update i (λ n, delete k (buffers n))).
    unfold network_buffers. by destruct (networks p !! i).
Qed.

Lemma list_lookup_delete_inv (bs : list Buffer) k j b :
  delete k bs !! j = Some b →
  ∃ j0, bs !! j0 = Some b ∧ j0 ≠ k ∧ (j0 = j ∧ j < k ∨ j0 = S j ∧ k ≤ j).
Proof.
  intros H. destruct (decide (j < k)).
  - rewrite list_lookup_delete_lt in H by done. exists j. split_and!; [done|lia|lia].
  - rewrite list_lookup_delete_ge in H by lia. exists (S j). split_and!; [done|lia|lia].
Qed.

Lemma elem_of_delete_other (bs : list Buffer) k j b :
  bs !! j = Some b → j ≠ k → b ∈ delete k bs.
Proof.
  intros Hj Hne. apply list_elem_of_lookup. destruct (decide (j < k)).
  - exists j. by rewrite list_lookup_delete_lt.
  - exists (pred j). rewrite list_lookup_delete_ge by lia.
    by replace (S (pred j)) with j by lia.
Qed.

Lemma delete_settled l bs k x :
  bs !! k = Some x → unlisted l x → settled l bs → settled l (delete k bs).
Proof.
  intros Hk Hx Hset j b [Hj Hmin]%first_of_name_elim.
  destruct (decide (Exists (λ r, same_name (buf_name b) (bb_name r)) l))
    as [Hex|Hno].
  - apply Exists_exists in Hex as (r & Hr & Hbr).
    destruct (list_lookup_delete_inv bs k j b Hj) as (j0 & Hj0 & Hne & Hpos).
    apply (Hset j0 b). apply first_of_name_intro; [done|].
    intros j' b' Hj' Hlt Hs.
    destruct (decide (j' = k)) as [->|Hne'].
    + assert (b' = x) as -> by congruence.
      apply (Hx r Hr). apply same_name_sym.
      by eapply same_name_trans.
    + destruct (decide (j' < k)).
      * apply (Hmin j' b'); [by rewrite list_lookup_delete_lt|lia|done].
      * apply (Hmin (pred j') b'); [|lia|done].
        rewrite list_lookup_delete_ge by lia.
        by replace (S (pred j')) with j' by lia.
  - unfold settle_buffer. apply settle_unmatched.
    intros r Hr Hs. apply Hno. apply Exists_exists. by exists r.
Qed.

Lemma delete_covered l bs k x :
  bs !! k = Some x → unlisted l x → covered l bs → covered l (delete k bs).
Proof.
  intros Hk Hx Hcov r Hr.
  destruct (Hcov r Hr) as (b & [j Hj]%list_elem_of_lookup & Hm).
  exists b. split; [|done]. apply (elem_of_delete_other bs k j b Hj).
  intros ->. assert (b = x) as -> by congruence.
  apply (Hx r Hr). by apply same_name_sym.
Qed.

(** The second half of [reconcile] keeps the buffers settled and covering
    the remote list. *)
Lemma remove_pass_settled i remote p :
  settled remote (network_buffers i p) →
  covered remote (network_buffers i p) →
  settled remote
    (network_buffers i (forEach (network_buffers i) (remove_missing i remote) p))
  ∧ covered remote
      (network_buffers i (forEach (network_buffers i) (remove_missing i remote) p)).
Proof.
  intros Hs Hc. unfold forEach.
  apply (forEach_from_invariant (network_buffers i) _
           (λ s, settled remote (network_buffers i s)
                 ∧ covered remote (network_buffers i s))); [|done].
  intros k x s [Hs' Hc'] Hk.
  destruct (remove_missing_buffers i remote k x s) as [->|(Hx & _ & ->)]; [done|].
  split; [by eapply delete_settled|by eapply delete_covered].
Qed.

(** When every buffer is wanted, the second half of [reconcile] removes
    nothing. *)
Lemma remove_pass_nothing i remote p :
  Forall (wanted remote) (network_buffers i p) →
  network_buffers i (forEach (network_buffers i) (remove_missing i remote) p)
  = network_buffers i p.
Proof.
  intros Hw. unfold forEach.
  apply (forEach_from_invariant (network_buffers i) _
           (λ s, network_buffers i s = network_buffers i p)); [|done].
  intros k x s Hs Hk.
  destruct (remove_missing_buffers i remote k x s) as [->|(Hx & Hkind & _)]; [done|].
  exfalso. rewrite Hs in Hk. apply list_elem_of_lookup_2 in Hk.
  rewrite Forall_forall in Hw. destruct (Hw x Hk) as [[Hc Hq]|(r & Hr & Hm)].
  - rewrite Hc, Hq in Hkind. by destruct Hkind.
  - by apply (Hx r Hr).
Qed.

Lemma settle_all_lookup l bs j :
  settle_all l bs !! j
  = (λ b, if decide (first_of_name bs j b) then settle_buffer l b else b)
      <$> bs !! j.
Proof. unfold settle_all. by rewrite list_lookup_imap. Qed.

Lemma settle_all_settled l bs : settled l bs → settle_all l bs = bs.
Proof.
  intros Hset. apply list_eq. intros j. rewrite settle_all_lookup.
  destruct (bs !! j) as [b|]; [|done]. simpl. f_equal.
  case_decide; [|done]. by apply (Hset j b).
Qed.

(** On buffers that cover the remote list, the first half of [reconcile]
    gives every first buffer of a name what the list has for it. *)
Lemma sync_all_covered (l : list BncBuffer) bs :
  covered l bs → foldl (λ bs r, sync_buffers r bs) bs l = settle_all l bs.
Proof.
  induction l as [|r l IH] using rev_ind; intros Hcov.
  - simpl. apply list_eq. intros j. rewrite settle_all_lookup.
    destruct (bs !! j) as [b|]; [|done]. simpl. by case_decide.
  - rewrite foldl_app. simpl. rewrite IH.
    2:{ intros r' Hr'. apply Hcov. apply elem_of_app. by left. }
    destruct (Hcov r) as (b0 & Hb0 & Hm0).
    { apply elem_of_app. right. by apply list_elem_of_singleton. }
    destruct (list_find_elem_of (λ b, same_name (buf_name b) (bb_name r)) bs b0 Hb0 Hm0)
      as [[k x] Hf].
    pose proof (find_first_of_name r bs k x Hf) as [Hkx Hxr].
    pose proof (proj1 (first_of_name_elim _ _ _ Hkx)) as Hk.
    assert (list_find (λ b, same_name (buf_name b) (bb_name r)) (settle_all l bs)
            = Some (k, settle_buffer l x)) as Hf'.
    { apply list_find_Some. split_and!.
      - rewrite settle_all_lookup, Hk. simpl. by rewrite decide_True.
      - unfold settle_buffer. by rewrite settle_name.
      - intros j' y' Hj' Hlt. rewrite settle_all_lookup in Hj'.
        destruct (bs !! j') as [y|] eqn:Hy; [|done]. simpl in Hj'.
        injection Hj' as <-.
        apply list_find_Some in Hf as (_ & _ & Hmin).
        assert (buf_name (if decide (first_of_name bs j' y)
                          then settle_buffer l y else y) = buf_name y) as ->.
        { case_decide; [|done]. unfold settle_buffer. by rewrite settle_name. }
        by apply (Hmin j' y). }
    unfold sync_buffers. rewrite Hf'.
    apply list_eq. intros j. rewrite settle_all_lookup.
    destruct (decide (k = j)) as [<-|Hne].
    + rewrite list_lookup_alter_eq, settle_all_lookup, Hk. simpl.
      rewrite !decide_True by done. f_equal.
      rewrite settle_buffer_snoc. unfold settle_step. by rewrite decide_True.
    + rewrite list_lookup_alter_ne, settle_all_lookup by done.
      destruct (bs !! j) as [b|] eqn:Hj; [|done]. simpl. f_equal.
      case_decide as Hfirst; [|done].
      rewrite settle_buffer_snoc. unfold settle_step.
      case_decide as Hbr; [|done]. exfalso. apply Hne.
      unfold first_of_name in Hfirst.
      rewrite (list_find_ext _ (λ b, same_name (buf_name b) (bb_name r))) in Hfirst.
      * congruence.
      * intros y. split; intros Hy.
        -- by eapply same_name_trans.
        -- eapply same_name_trans; [exact Hy|]. by apply same_name_sym.
Qed.

(** Idempotence after a complete run: when the first run has left no
    channel or query behind that the relay does not list, a second run
    with the same list leaves the buffers of the network as they are. *)
Lemma reconcile_again i remote p n :
  networks p !! i = Some n →
  Forall (wanted remote) (network_buffers i (reconcile i remote p)) →
  network_buffers i (reconcile i remote (reconcile i remote p))
  = network_buffers i (reconcile i remote p).
Proof.
  intros Hi Hw.
  assert (settled remote (network_buffers i (reconcile i remote p))
          ∧ covered remote (network_buffers i (reconcile i remote p))) as [Hs Hc].
  { unfold reconcile. apply remove_pass_settled;
      rewrite (network_buffers_sync_all i remote p n Hi); apply sync_all_settled. }
  destruct (reconcile_buffers_only i remote p) as [Hn _ _ _ _ _ _].
  specialize (Hn i). rewrite Hi in Hn.
  destruct (networks (reconcile i remote p) !! i) as [n1|] eqn:Hi1; [|done].
  set (p1 := reconcile i remote p) in *.
  assert (network_buffers i (foldl (λ p buffer, sync_buffer i buffer p) p1 remote)
          = network_buffers i p1) as Hsame.
  { rewrite (network_buffers_sync_all i remote p1 n1 Hi1).
    rewrite sync_all_covered by done. by apply settle_all_settled. }
  unfold reconcile at 1. rewrite remove_pass_nothing; [done|].
  by rewrite Hsame.
Qed.

End reconciliation_again.

(** C4, at the failing input: the second run with the same list removes
    [#old2], which the first run had left behind. *)
Theorem reconcile_second_run_removes_buffer :
  network_buffers 0 ReconcileFailing.once
  = [ReconcileExample.server_buffer; ReconcileExample.chan "#old2" true;
     ReconcileExample.chan "#chan" true]
  ∧ network_buffers 0 ReconcileFailing.twice
    = [ReconcileExample.server_buffer; ReconcileExample.chan "#chan" true].
Proof. by vm_compute. Qed.

(** ** The login sequence: tunnelling credentials *)

Lemma split_cons sep s : ∃ piece pieces, split sep s = piece :: pieces.
Proof.
  induction s as [|c s (piece & pieces & IH)]; simpl; [by eauto|].
  destruct (Ascii.eqb c sep); [by eauto|]. rewrite IH. by eauto.
Qed.

Lemma split_without sep s : has_char sep s = false → split sep s = [s].
Proof.
  induction s as [|c s IH]; simpl; [done|].
  intros [Hc Hs]%orb_false_elim. rewrite Hc, (IH Hs). done.
Qed.

Lemma split_at_first sep a b :
  has_char sep a = false →
  split sep (a +:+ String sep b) = a :: split sep b.
Proof.
  induction a as [|c a IH]; simpl.
  - intros _. by rewrite Ascii.eqb_refl.
  - intros [Hc Ha]%orb_false_elim. by rewrite Hc, (IH Ha).
Qed.

Lemma has_char_app c a b : has_char c (a +:+ b) = has_char c a || has_char c b.
Proof.
  induction a as [|x a IH]; simpl; [done|]. by rewrite IH, orb_assoc.
Qed.

Lemma string_app_assoc (a b c : string) : (a +:+ b) +:+ c = a +:+ (b +:+ c).
Proof.
  induction a as [|x a IH]; [done|].
  change (String x ((a +:+ b) +:+ c) = String x (a +:+ (b +:+ c))).
  by rewrite IH.
Qed.

(** What [login_credentials] computes, piece by piece. *)
Lemma login_credentials_string s :
  login_credentials (JStr s)
  = Some (JStr (first_piece "/" (first_piece ":" s)),
          from_option JStr JUndef (split ":" s !! 1)).
Proof. done. Qed.

(** The well-formed login password. *)
Lemma login_credentials_well_formed realuser netname secret :
  has_char "/" realuser = false →
  has_char ":" realuser = false →
  has_char ":" netname = false →
  has_char ":" secret = false →
  login_credentials (JStr (realuser +:+ "/" +:+ netname +:+ ":" +:+ secret))
  = Some (JStr realuser, JStr secret).
Proof.
  intros Hu1 Hu2 Hn Hs. rewrite login_credentials_string.
  assert (realuser +:+ "/" +:+ netname +:+ ":" +:+ secret
          = (realuser +:+ String "/" netname) +:+ String ":" secret) as ->.
  { by rewrite string_app_assoc. }
  unfold first_piece. rewrite split_at_first.
  - rewrite (split_without ":" secret Hs). simpl.
    by rewrite split_at_first.
  - rewrite has_char_app. simpl. by rewrite Hu2, Hn.
Qed.

Section login.
Context {platform : Platform}.

Lemma addNetworkToState_preserves relay network p :
  bnc (addNetworkToState relay network p) = bnc p
  ∧ ∀ j n, networks p !! j = Some n →
      ∃ n', networks (addNetworkToState relay network p) !! j = Some n'
            ∧ without_buffers n' = without_buffers n.
Proof.
  unfold addNetworkToState, find_or_add.
  destruct (getNetworkFromBncName (bn_name network) p) as [net|].
  - destruct (syncBncNetwork_buffers_only relay net p) as [H1 _ _ H4 _ _ _].
    split; [done|]. intros j n Hj. specialize (H1 j). rewrite Hj in H1.
    destruct (networks (syncBncNetwork relay net p) !! j) as [n'|]; [|done].
    exists n'. split; [done|]. by apply (inj Some).
  - unfold addNetwork.
    set (p1 := set_networks _ p).
    destruct (syncBncNetwork_buffers_only relay (length (networks p)) p1)
      as [H1 _ _ H4 _ _ _].
    split; [done|]. intros j n Hj. specialize (H1 j).
    assert (networks p1 !! j = Some n) as Hj1.
    { subst p1. simpl. by apply lookup_app_l_Some. }
    rewrite Hj1 in H1.
    destruct (networks (syncBncNetwork relay _ p1) !! j) as [n'|]; [|done].
    exists n'. split; [done|]. by apply (inj Some).
Qed.

Lemma addNetworkToState_all_preserves relay (l : list BncNetwork) p :
  let p' := foldl (λ p bncNet, addNetworkToState relay bncNet p) p l in
  bnc p' = bnc p
  ∧ ∀ j n, networks p !! j = Some n →
      ∃ n', networks p' !! j = Some n' ∧ without_buffers n' = without_buffers n.
Proof.
  simpl. induction l as [|x l IH] using rev_ind; simpl; [by eauto|].
  rewrite foldl_app. simpl. destruct IH as [IH1 IH2].
  destruct (addNetworkToState_preserves relay x
              (foldl (λ p bncNet, addNetworkToState relay bncNet p) p l))
    as [H1 H2].
  split; [by rewrite H1|].
  intros j n Hj. destruct (IH2 j n Hj) as (n1 & Hn1 & He1).
  destruct (H2 j n1 Hn1) as (n2 & Hn2 & He2).
  exists n2. split; [done|]. by rewrite He2.
Qed.

(** What the login sequence stores: for a login password that is a string
    it returns, with relaying enabled; the relay username is the text before
    the first [/] of the text before the first [:], the relay password the
    text between the first and the second [:], and [undefined] when there
    is no [:].  So a password [realuser/netname:secret] whose parts hold
    no further separator gives [realuser] and [secret]; a password without
    [:] gives no relay password, and its text up to the first [/], all of
    it when it has none, as the username. *)
Theorem initAndAddNetworks_credentials relay i p network s :
  networks p !! i = Some network →
  net_password network = JStr s →
  ∃ p',
    initAndAddNetworks relay i p = Returned p'
    ∧ bnc_enabled (bnc p') = true
    ∧ bnc_username (bnc p') = JStr (first_piece "/" (first_piece ":" s))
    ∧ bnc_password (bnc p') = from_option JStr JUndef (split ":" s !! 1)
    ∧ (∀ realuser netname secret,
         s = realuser +:+ "/" +:+ netname +:+ ":" +:+ secret →
         has_char "/" realuser = false →
         has_char ":" realuser = false →
         has_char ":" netname = false →
         has_char ":" secret = false →
         bnc_username (bnc p') = JStr realuser
         ∧ bnc_password (bnc p') = JStr secret)
    ∧ (has_char ":" s = false →
       bnc_password (bnc p') = JUndef
       ∧ bnc_username (bnc p') = JStr (first_piece "/" s)
       ∧ (has_char "/" s = false → bnc_username (bnc p') = JStr s)).
Proof.
  intros Hi Hpw. unfold initAndAddNetworks. rewrite Hi.
  set (p0 := emit _ (update_network i _ (set_bnc _ p))).
  assert (networks p0 !! i
          = Some (set_hidden (negb (bnc_hasNetwork (ircClient network))) network))
    as Hi0.
  { subst p0. change (networks (emit ?e ?q)) with (networks q).
    rewrite lookup_update_network. case_decide; [|done].
    simpl. by rewrite Hi. }
  destruct (addNetworkToState_all_preserves relay (getNetworks relay) p0)
    as [_ Hkeep].
  destruct (Hkeep i _ Hi0) as (n' & Hn' & He).
  rewrite Hn'.
  assert (net_password n' = JStr s) as ->.
  { apply (f_equal net_password) in He. simpl in He. by rewrite He. }
  rewrite login_credentials_string.
  eexists. split; [reflexivity|].
  destruct (snapshotCurrentNetworks_frame
              (set_bnc
                 (mkBncConfig true (JStr (first_piece "/" (first_piece ":" s)))
                    (from_option JStr JUndef (split ":" s !! 1))
                    (conn_server (connection n')) (conn_port (connection n'))
                    (conn_tls (connection n')) (conn_direct (connection n'))
                    (js_or (conn_path (connection n')) (JStr ""))
                    (bnc_registered
                       (bnc (foldl (λ p bncNet, addNetworkToState relay bncNet p)
                               p0 (getNetworks relay)))))
                 (foldl (λ p bncNet, addNetworkToState relay bncNet p)
                    p0 (getNetworks relay))))
    as (_ & _ & _ & Hb).
  unfold monitorNetworkChanges. rewrite Hb. simpl.
  split_and!; try done.
  - intros realuser netname secret -> H1 H2 H3 H4.
    pose proof (login_credentials_well_formed _ _ _ H1 H2 H3 H4) as Hl.
    rewrite login_credentials_string in Hl. by injection Hl as -> ->.
  - intros Hc. unfold first_piece. rewrite (split_without ":" s Hc). simpl.
    split_and!; try done.
    intros Hs. by rewrite (split_without "/" s Hs).
Qed.

End login.

Section login_examples.
Import LoginExample.

Example login_well_formed :
  credentials_after "alice/freenode:s3cret" = Some (JStr "alice", JStr "s3cret").
Proof. by vm_compute. Qed.

(** A secret with a [:] in it is cut at the [:]. *)
Example login_secret_with_colon :
  credentials_after "alice/freenode:s3:cret" = Some (JStr "alice", JStr "s3").
Proof. by vm_compute. Qed.

End login_examples.

(** A login password without [/] and [:] does not leave the relay
    username empty, and one without [/] fills both fields. *)
Lemma login_without_separator_fills_credentials :
  LoginExample.credentials_after "alice" = Some (JStr "alice", JUndef)
  ∧ LoginExample.credentials_after "alice:s3cret"
    = Some (JStr "alice", JStr "s3cret")
  ∧ JStr "alice" ≠ JStr "".
Proof. by vm_compute. Qed.

(** C8, at the failing input: the login password is
    [alice/freenode:s3:cret], of the form [<realuser>/<netname>:<secret>]
    with the secret [s3:cret].  Line 112 destructures
    [password.split(':')] into two names, so the relay password is the
    text up to the second [:], [s3], and not the secret; the password the
    rewriter composes from it for [freenode] is not the login password. *)
Theorem initAndAddNetworks_cuts_secret_at_colon :
  "alice/freenode:s3:cret" = "alice" +:+ "/" +:+ "freenode" +:+ ":" +:+ "s3:cret"
  ∧ ∃ p',
      @initAndAddNetworks ReconcileExample.example_platform
        LoginExample.empty_relay 0 (LoginExample.login "alice/freenode:s3:cret")
      = Returned p'
      ∧ bnc_username (bnc p') = JStr "alice"
      ∧ bnc_password (bnc p') = JStr "s3"
      ∧ bnc_password (bnc p') ≠ JStr "s3:cret"
      ∧ tunnel_password (bnc p') (JStr "freenode") = JStr "alice/freenode:s3"
      ∧ tunnel_password (bnc p') (JStr "freenode") ≠ JStr "alice/freenode:s3:cret".
Proof.
  split; [reflexivity|]. eexists. split; [by vm_compute|].
  split_and!; by vm_compute.
Qed.

(** ** The naming allocator *)

Lemma string_app_inj_l (a x y : string) : a +:+ x = a +:+ y → x = y.
Proof.
  induction a as [|c a IH]; [done|]. intros H.
  change (String c (a +:+ x) = String c (a +:+ y)) in H.
  injection H as H. by apply IH.
Qed.

Global Instance name_of_inj : Inj (=) (=) name_of.
Proof.
  intros a b H. unfold name_of in H.
  apply string_app_inj_l in H. by apply (inj pretty).
Qed.

Lemma name_of_truthy k : truthy (JStr (name_of k)) = true.
Proof. done. Qed.

Lemma find_existingNet_None c p :
  find_existingNet c p = None ↔
  ∀ n, n ∈ networks p → net_name n ≠ c ∧ conn_bncname (connection n) ≠ JStr c.
Proof.
  unfold find_existingNet.
  destruct (list_find (λ n, net_name n = c) (networks p)) as [[j x]|] eqn:H1.
  - split; [done|]. intros H. apply list_find_Some in H1 as (Hj & Hx & _).
    apply list_elem_of_lookup_2 in Hj. by destruct (H x Hj).
  - rewrite fmap_None. apply list_find_None in H1. rewrite list_find_None.
    rewrite Forall_forall in H1. rewrite Forall_forall. naive_solver.
Qed.

Lemma find_existingNet_Some c p j :
  find_existingNet c p = Some j →
  ∃ n, networks p !! j = Some n
       ∧ ((net_name n = c
           ∧ ∀ j' m, networks p !! j' = Some m → j' < j → net_name m ≠ c)
          ∨ conn_bncname (connection n) = JStr c).
Proof.
  unfold find_existingNet.
  destruct (list_find (λ n, net_name n = c) (networks p)) as [[j1 x]|] eqn:H1.
  - intros [= ->]. apply list_find_Some in H1 as (Hj & Hx & Hmin).
    exists x. split; [done|]. left. exact (conj Hx Hmin).
  - destruct (list_find (λ n, conn_bncname (connection n) = JStr c) (networks p))
      as [[j2 x]|] eqn:H2; simpl; [|done].
    intros [= ->]. apply list_find_Some in H2 as (Hj & Hx & _).
    exists x. split; [done|]. by right.
Qed.

Lemma first_named_find i p k :
  first_named i p k → find_existingNet (name_of k) p = Some i.
Proof.
  intros (n & Hi & Hn & Hmin). unfold find_existingNet.
  assert (list_find (λ n, net_name n = name_of k) (networks p) = Some (i, n)) as ->;
    [|done].
  apply list_find_Some. split_and!; [done..|]. eauto.
Qed.

(** What stopping at [k] means for a network without relay name. *)
Lemma stops_iff i p k network :
  networks p !! i = Some network →
  truthy (conn_bncname (connection network)) = false →
  stops i p k ↔ unused p k ∨ first_named i p k.
Proof.
  intros Hi Hb. unfold stops. rewrite find_existingNet_None. split.
  - intros [H|H]; [by left|]. right.
    apply find_existingNet_Some in H as (n & Hn & [[H1 H2]|H]).
    + by exists n.
    + assert (n = network) as -> by congruence.
      rewrite H in Hb. by rewrite name_of_truthy in Hb.
  - intros [H|H]; [by left|]. right. by apply first_named_find.
Qed.

Lemma not_stops_used i p k : ¬ stops i p k → used_by_other i p k.
Proof.
  unfold stops. intros H.
  destruct (find_existingNet (name_of k) p) as [j|] eqn:Hf; [|by destruct H; left].
  assert (j ≠ i) as Hji by (intros ->; apply H; by right).
  apply find_existingNet_Some in Hf as (n & Hn & [[H1 _]|H1]);
    exists j, n; eauto.
Qed.

(** The loop returns at the first [k], from [cur] on, at which it stops,
    provided the fuel reaches that far. *)
Lemma allocateName_search fuel i cur p :
  (∃ k, cur ≤ k < cur + fuel ∧ stops i p k) →
  ∃ k, cur ≤ k
       ∧ stops i p k
       ∧ (∀ k', cur ≤ k' < k → ¬ stops i p k')
       ∧ allocateName fuel i cur p
         = Some (update_network i (set_name (name_of k)) p).
Proof.
  revert cur. induction fuel as [|fuel IH]; intros cur (k & Hk & Hs); [lia|].
  simpl. fold (name_of cur).
  destruct (find_existingNet (name_of cur) p) as [j|] eqn:Hf.
  - case_bool_decide as Hij.
    + subst j. exists cur. split_and!; [lia|by right|intros; lia|done].
    + assert (¬ stops i p cur) as Hn.
      { unfold stops. rewrite Hf. intros [?|[=]]; done. }
      destruct (IH (S cur)) as (k0 & H1 & H2 & H3 & H4).
      { exists k. split; [|done]. destruct (decide (k = cur)) as [->|]; [done|lia]. }
      exists k0. split_and!; [lia|done| |done].
      intros k' Hk'. destruct (decide (k' = cur)) as [->|]; [done|].
      apply H3. lia.
  - exists cur. split_and!; [lia|by left|intros; lia|done].
Qed.

Lemma find_existingNet_in_use c p j :
  find_existingNet c p = Some j → c ∈ names_in_use p.
Proof.
  intros (n & Hn & H)%find_existingNet_Some.
  apply list_elem_of_lookup_2 in Hn. unfold names_in_use.
  apply elem_of_app. destruct H as [[H _]|H].
  - left. apply list_elem_of_fmap. by exists n.
  - right. apply list_elem_of_fmap. exists n. split; [|done].
    unfold relay_name. by rewrite H.
Qed.

(** Among the first [2 * length + 1] candidates one is not in use. *)
Lemma some_name_unused p :
  ∃ k, 1 ≤ k < 1 + S (2 * length (networks p))
       ∧ find_existingNet (name_of k) p = None.
Proof.
  set (ks := seq 1 (S (2 * length (networks p)))).
  destruct (decide (Exists (λ k, find_existingNet (name_of k) p = None) ks))
    as [H|H].
  - apply Exists_exists in H as (k & Hk & Hf). exists k. split; [|done].
    apply elem_of_seq in Hk. lia.
  - exfalso. apply not_Exists_Forall in H; [|apply _].
    rewrite Forall_forall in H.
    assert (name_of <$> ks ⊆+ names_in_use p) as Hsub.
    { apply NoDup_submseteq.
      - apply (NoDup_fmap_2 name_of), NoDup_seq.
      - intros c (k & -> & Hk)%list_elem_of_fmap. specialize (H k Hk). simpl in H.
        destruct (find_existingNet (name_of k) p) as [j|] eqn:Hf; [|done].
        by eapply find_existingNet_in_use. }
    apply submseteq_length in Hsub. unfold names_in_use, ks in Hsub.
    rewrite length_fmap, length_app, !length_fmap, length_seq in Hsub. lia.
Qed.

(** What the allocator does: a new network without relay name is named
    [Network<k>] for the smallest positive [k] such that no network has
    [Network<k>] as display name or as relay name, or the new network is
    itself the first network of that display name; the loop needs no more than
    [2 * length + 1] rounds, and every smaller [Network<j>] is the display
    name or the relay name of another network. *)
Theorem onNetworkNew_allocates fuel i p network :
  networks p !! i = Some network →
  truthy (conn_bncname (connection network)) = false →
  2 * length (networks p) < fuel →
  ∃ k,
    1 ≤ k
    ∧ onNetworkNew fuel i p = Some (update_network i (set_name (name_of k)) p)
    ∧ (unused p k ∨ first_named i p k)
    ∧ ∀ k', 1 ≤ k' < k →
        used_by_other i p k' ∧ ¬ (unused p k' ∨ first_named i p k').
Proof.
  intros Hi Hb Hfuel. unfold onNetworkNew. rewrite Hi, Hb. simpl.
  destruct (allocateName_search fuel i 1 p) as (k & H1 & H2 & H3 & H4).
  { destruct (some_name_unused p) as (k & Hk & Hf).
    exists k. split; [lia|by left]. }
  exists k. split_and!; [done|done|by apply (stops_iff i p k network)|].
  intros k' Hk'. specialize (H3 k' Hk'). split.
  - by apply not_stops_used.
  - by rewrite <- (stops_iff i p k' network).
Qed.

Section naming_examples.
Import NamingExample.

Example allocator_fills_gap :
  (λ p, net_name <$> networks p !! 2) <$> onNetworkNew 7 2 with_gap
  = Some (Some "Network2").
Proof. by vm_compute. Qed.

End naming_examples.

(** C9, at the failing input: a network saved to the relay as [Network1]
    has since been renamed [freenode]; the network added comes with the
    display name [Network1].  The lookup by display name on lines 347-349
    finds the new network itself, the [||] of line 350 skips the lookup by
    relay name, and the test [network === existingNet] of line 354 keeps
    the name: the new network is called [Network1] although that is the
    relay name of another network.  The next [saveState] creates it on the
    relay under [Network1]; both networks then have that relay name, the
    snapshot store has the record of the new one under it, and the
    [saveState] after that sends the host and port of the old network as
    changes to [Network1]. *)
Theorem onNetworkNew_keeps_relay_name_in_use :
  let p := NamingExample.collision in
  let p1 := update_network 2 (set_name (name_of 1)) p in
  let p2 := saveState p1 in
  let p3 := saveState p2 in
  networks p !! 1 = Some NamingExample.saved
  ∧ networks p !! 2 = Some NamingExample.added
  ∧ name_of 1 = "Network1"
  ∧ conn_bncname (connection NamingExample.saved) = JStr (name_of 1)
  ∧ conn_bncname (connection NamingExample.added) = JUndef
  ∧ onNetworkNew 7 2 p = Some p1
  ∧ (net_name <$> networks p1 !! 2) = Some (name_of 1)
  ∧ used_by_other 2 p 1
  ∧ ¬ unused p 1
  ∧ trace p2
    = [BncSaveNetwork 0 (JStr (name_of 1)) empty_tags;
       BncAddNetwork 0 (name_of 1) (JStr "irc.libera.chat") (JNum 6697)
         (JBool false) (JStr "alice") (JStr "") (JStr "")]
  ∧ (conn_bncname ∘ connection <$> networks p2 !! 1) = Some (JStr (name_of 1))
  ∧ (conn_bncname ∘ connection <$> networks p2 !! 2) = Some (JStr (name_of 1))
  ∧ networksSnapshot p2 !! name_of 1
    = Some (snapshot_of (set_bncname (JStr (name_of 1)) NamingExample.added))
  ∧ trace p3
    = (trace p2
       ++ [BncSaveNetwork 0 (JStr (name_of 1))
             (mkTags (Some (JStr "irc.freenode.net")) (Some (JNum 6667))
                None None None None);
           BncSaveNetwork 0 (JStr (name_of 1)) empty_tags])%list.
Proof.
  cbv zeta. split_and!; try by vm_compute.
  - exists 1, NamingExample.saved. split_and!; [lia|reflexivity|].
    right. reflexivity.
  - intros H. destruct (H NamingExample.saved) as [_ H2].
    + right. left.
    + apply H2. reflexivity.
Qed.

(** * Further properties *)

(** ** Controller election *)

(** X1: whatever [getController] returns is a network object whose state
    is connected, and it is what the call leaves in
    [this.controllerNetwork]; it is the object that was cached before the
    call, or a network of [state.networks] that is connected with the
    capability enabled.  The cached object is not looked up in
    [state.networks]: a cached network that has left the list is returned
    for as long as its state is connected. *)
Theorem getController_returns_connected_network p :
  (∀ c, (getController p).1 = Some c →
     (∃ n, deref p c = Some n ∧ net_state n = connected)
     ∧ controllerNetwork (getController p).2 = Some c
     ∧ (controllerNetwork p = Some c
        ∨ ∃ (i : nat) n, c = InList i ∧ networks p !! i = Some n
                         ∧ can_control n = true))
  ∧ (∀ n, controllerNetwork p = Some (Detached n) →
       net_state n = connected →
       (getController p).1 = Some (Detached n)).
Proof.
  split.
  - intros c Hc. split_and!.
    + by apply getController_connected.
    + by rewrite getController_cached.
    + destruct (cached_controller_connected p) eqn:Hk.
      * left. unfold getController in Hc. by rewrite Hk in Hc.
      * right. destruct (getController_scan_listed p c Hk Hc) as [i ->].
        apply (getController_scan p i Hk) in Hc as (n & Hn & Hok & _).
        by exists i, n.
  - intros n Hc Hn. unfold getController.
    assert (cached_controller_connected p = true) as ->; [|done].
    unfold cached_controller_connected. rewrite Hc. simpl.
    unfold is_connected. by apply bool_decide_eq_true.
Qed.

(** X2: when no connected controller is cached, [getController] elects the
    first network, in stored order, that is connected with the bouncer
    capability enabled, and returns null exactly when there is none. *)
Theorem getController_elects_first_usable p :
  cached_controller_connected p = false →
  match (getController p).1 with
  | Some r =>
      ∃ (c : nat) n,
        r = InList c ∧ networks p !! c = Some n ∧ can_control n = true
        ∧ ∀ j m, networks p !! j = Some m → j < c → can_control m = false
  | None => Forall (λ n, can_control n = false) (networks p)
  end.
Proof.
  intros Hc. destruct (getController p).1 as [r|] eqn:Hr.
  - destruct (getController_scan_listed p r Hc Hr) as [c ->].
    apply (getController_scan p c Hc) in Hr as (n & Hn). by exists c, n.
  - by apply (getController_none p Hc).
Qed.

Lemma getController_elects_first_usable_witness :
  ∃ (c : nat) n,
    InList 2 = InList c
    ∧ networks ControllerExample.start !! c = Some n ∧ can_control n = true
    ∧ ∀ j m, networks ControllerExample.start !! j = Some m → j < c →
        can_control m = false.
Proof.
  apply (getController_elects_first_usable ControllerExample.start).
  reflexivity.
Defined.

(** X3: [getController] only writes [this.controllerNetwork], and a second
    call right after the first returns the same network and changes
    nothing. *)
Theorem getController_twice p :
  getController (getController p).2 = ((getController p).1, (getController p).2)
  ∧ networks (getController p).2 = networks p
  ∧ networksSnapshot (getController p).2 = networksSnapshot p
  ∧ bnc (getController p).2 = bnc p
  ∧ rewriteConnections (getController p).2 = rewriteConnections p
  ∧ trace (getController p).2 = trace p.
Proof.
  split.
  - destruct (getController p).1 as [c|] eqn:Hr; [by apply getController_stable|].
    pose proof (getController_cached p) as Hk. rewrite Hr in Hk.
    pose proof (getController_networks p) as Hn.
    assert (list_find (λ n, can_control n) (networks p) = None) as Hscan.
    { unfold getController in Hr.
      destruct (cached_controller_connected p) eqn:Hc; simpl in Hr.
      - unfold cached_controller_connected in Hc. by rewrite Hr in Hc.
      - by apply fmap_None in Hr. }
    set (p' := (getController p).2) in *.
    unfold getController.
    assert (cached_controller_connected p' = false) as ->.
    { unfold cached_controller_connected. by rewrite Hk. }
    rewrite Hn, Hscan. simpl. f_equal.
    destruct p'. simpl in Hk. by rewrite Hk.
  - unfold getController. by destruct (cached_controller_connected p).
Qed.

(** ** The snapshot store *)

(** A loop whose callback leaves the array alone visits every element, in
    order. *)
Lemma forEach_from_fixed {St A} (arr : St → list A) (cb : A → St → St) k len s :
  (∀ x s, arr (cb x s) = arr s) →
  k + len = length (arr s) →
  forEach_from arr (λ _, cb) k len s = foldl (λ s x, cb x s) s (drop k (arr s)).
Proof.
  intros Hfix. revert k s. induction len as [|len IH]; intros k s Hlen; simpl.
  - by rewrite drop_ge by lia.
  - destruct (arr s !! k) as [x|] eqn:Hk.
    + rewrite (drop_S _ x k Hk). simpl. rewrite IH.
      * by rewrite Hfix.
      * rewrite Hfix. lia.
    + apply lookup_ge_None in Hk. lia.
Qed.

Lemma forEach_fixed {St A} (arr : St → list A) (cb : A → St → St) s :
  (∀ x s, arr (cb x s) = arr s) →
  forEach arr (λ _, cb) s = foldl (λ s x, cb x s) s (arr s).
Proof.
  intros Hfix. unfold forEach. by rewrite forEach_from_fixed.
Qed.

Lemma snapshotCurrentNetworks_store p :
  networksSnapshot (snapshotCurrentNetworks p)
  = foldl (λ m n, if truthy (conn_bncname (connection n))
                  then <[snapshot_key (conn_bncname (connection n))
                           := snapshot_of n]> m
                  else m)
      ∅ (networks p).
Proof.
  unfold snapshotCurrentNetworks.
  rewrite (forEach_fixed networks
             (λ network p,
                if negb (truthy (conn_bncname (connection network))) then p
                else set_networksSnapshot
                       (<[snapshot_key (conn_bncname (connection network))
                            := snapshot_of network]> (networksSnapshot p)) p)).
  2:{ intros x s. by destruct (negb _). }
  change (networks (set_networksSnapshot ∅ p)) with (networks p).
  generalize (networks p). intros l.
  change ∅ with (networksSnapshot (set_networksSnapshot ∅ p)) at 2.
  generalize (set_networksSnapshot ∅ p). intros q.
  revert q. induction l as [|n l IH]; intros q; simpl; [done|].
  rewrite IH. by destruct (truthy (conn_bncname (connection n))).
Qed.

Lemma snapshot_store_lookup (l : list Network) k :
  foldl (λ m n, if truthy (conn_bncname (connection n))
                then <[snapshot_key (conn_bncname (connection n))
                         := snapshot_of n]> m
                else m)
    (∅ : gmap string Snapshot) l !! k
  = snapshot_of <$> last (filter (snapshot_source k) l).
Proof.
  induction l as [|n l IH] using rev_ind; [done|].
  rewrite foldl_app, filter_app. simpl.
  destruct (truthy (conn_bncname (connection n))) eqn:Hn.
  - destruct (decide (snapshot_key (conn_bncname (connection n)) = k)) as [Hk|Hk].
    + rewrite Hk, lookup_insert_eq.
      rewrite (filter_cons_True (snapshot_source k)) by done.
      rewrite filter_nil. by rewrite last_snoc.
    + rewrite lookup_insert_ne by done.
      rewrite (filter_cons_False (snapshot_source k)) by (by intros [_ ?]).
      rewrite filter_nil, app_nil_r. apply IH.
  - rewrite (filter_cons_False (snapshot_source k)).
    + rewrite filter_nil, app_nil_r. apply IH.
    + intros [Ht _]. congruence.
Qed.

(** X4: [snapshotCurrentNetworks] throws the old store away; the new one
    has, under a key, the record of the last network, in stored order,
    whose relay name is truthy and has that key, and nothing under a key no
    such network has.  Networks, configuration and trace are as before. *)
Theorem snapshotCurrentNetworks_lookup p k :
  networksSnapshot (snapshotCurrentNetworks p) !! k
  = snapshot_of <$> last (filter (snapshot_source k) (networks p))
  ∧ networks (snapshotCurrentNetworks p) = networks p
  ∧ bnc (snapshotCurrentNetworks p) = bnc p
  ∧ trace (snapshotCurrentNetworks p) = trace p.
Proof.
  split.
  - rewrite snapshotCurrentNetworks_store. apply snapshot_store_lookup.
  - destruct (snapshotCurrentNetworks_frame p) as (? & ? & ? & ?). done.
Qed.

(** ** [saveState], further *)

Lemma getController_rewriteConnections p :
  rewriteConnections (getController p).2 = rewriteConnections p.
Proof. unfold getController. by destruct (cached_controller_connected p). Qed.

Lemma filter_none {A} (P : A → Prop) `{∀ x, Decision (P x)} (l : list A) :
  (∀ y, y ∈ l → ¬ P y) → filter P l = [].
Proof.
  induction l as [|y l IH]; intros Hl; [done|].
  rewrite filter_cons_False by (apply Hl; by left).
  apply IH. intros z Hz. apply Hl. by right.
Qed.

Lemma last_filter_at {A} (P : A → Prop) `{∀ x, Decision (P x)} (l : list A) i x :
  l !! i = Some x →
  P x →
  (∀ j y, i < j → l !! j = Some y → ¬ P y) →
  last (filter P l) = Some x.
Proof.
  intros Hi Hx Hlater. rewrite <- (take_drop_middle l i x Hi).
  rewrite filter_app, filter_cons_True by done.
  rewrite (filter_none P (drop (S i) l)); [by rewrite last_snoc|].
  intros y [j Hj]%list_elem_of_lookup. rewrite lookup_drop in Hj.
  apply (Hlater (S i + j) y); [lia|done].
Qed.

Lemma diff_tags_own_snapshot n : diff_tags n (snapshot_of n) = empty_tags.
Proof.
  unfold diff_tags, changed, strict_ne, strict_eq, snapshot_of, empty_tags. simpl.
  by rewrite !bool_decide_eq_true_2.
Qed.

(** What a visit adds to the trace: at most one command, on the
    controller. *)
Lemma saveState_network_effects c i network p :
  controller_is c p →
  ∃ l, trace (saveState_network c i network p) = (trace p ++ l)%list
       ∧ length l ≤ 1 ∧ Forall (relay_command_via c) l.
Proof.
  intros Hc. rewrite (saveState_network_unfold c i network p Hc).
  destruct (is_bare_controller c i network).
  { exists []. split_and!; [by rewrite app_nil_r|simpl; lia|done]. }
  destruct (creates network p).
  { eexists [_]. split_and!; [done|simpl; lia|]. by apply Forall_singleton. }
  destruct (truthy _).
  - eexists [_]. split_and!; [done|simpl; lia|]. by apply Forall_singleton.
  - exists []. split_and!; [by rewrite app_nil_r|simpl; lia|done].
Qed.

Lemma saveState_loop_effects c k len p :
  controller_is c p →
  ∃ l, trace (forEach_from networks (saveState_network c) k len p)
       = (trace p ++ l)%list
       ∧ length l ≤ len ∧ Forall (relay_command_via c) l.
Proof.
  revert k p. induction len as [|len IH]; intros k p Hc; simpl.
  - exists []. split_and!; [by rewrite app_nil_r|simpl; lia|done].
  - set (p1 := match networks p !! k with
               | Some x => saveState_network c k x p
               | None => p
               end).
    assert (controller_is c p1
            ∧ ∃ l, trace p1 = (trace p ++ l)%list
                   ∧ length l ≤ 1 ∧ Forall (relay_command_via c) l)
      as (Hc1 & l1 & Ht1 & Hl1 & Hf1).
    { subst p1. destruct (networks p !! k) as [x|].
      - split; [by apply saveState_network_frame|].
        by apply saveState_network_effects.
      - split; [done|]. exists []. split_and!; [by rewrite app_nil_r|simpl; lia|done]. }
    destruct (IH (S k) p1 Hc1) as (l2 & Ht2 & Hl2 & Hf2).
    exists (l1 ++ l2)%list. split_and!.
    + by rewrite Ht2, Ht1, app_assoc.
    + rewrite length_app. lia.
    + by apply Forall_app.
Qed.

(** With a controller, [saveState] is the loop followed by the snapshot,
    and the controller is still cached when it returns. *)
Lemma saveState_with_controller p c :
  (getController p).1 = Some c →
  ∃ q, saveState p = snapshotCurrentNetworks q
       ∧ q = forEach networks (saveState_network c) (getController p).2
       ∧ controller_is c q
       ∧ controller_is c (saveState p)
       ∧ length (networks q) = length (networks p).
Proof.
  intros Hc. unfold saveState.
  pose proof (getController_controller_is p c Hc) as Hok.
  pose proof (getController_networks p) as Hn.
  destruct (getController p) as [r p1]. simpl in *. subst r.
  eexists. split; [reflexivity|]. split; [reflexivity|].
  unfold forEach.
  destruct (saveState_loop_frame c 0 (length (networks p1)) p1 Hok)
    as [G1 _ G3 _ _].
  split_and!; [done| |by rewrite G3, Hn].
  destruct (snapshotCurrentNetworks_frame
              (forEach_from networks (saveState_network c) 0
                 (length (networks p1)) p1)) as (F1 & _ & F3 & _).
  destruct G1 as [G1a G1b]. split; [by rewrite F3|].
  unfold cached_controller_connected in *. rewrite F3. rewrite G1a in *.
  destruct c as [c|n]; cbn [deref] in *; [by rewrite F1|done].
Qed.

(** X5: with a controller, when [saveState] returns every network with a
    truthy relay name has an entry under its key in the snapshot store, and
    the entry carries a name; the test of the create branch is false for
    the network, so the next [saveState] does not create it again. *)
Theorem saveState_leaves_named_entries p c i n :
  (getController p).1 = Some c →
  networks (saveState p) !! i = Some n →
  truthy (conn_bncname (connection n)) = true →
  ∃ s, networksSnapshot (saveState p) !! snapshot_key (conn_bncname (connection n))
       = Some s
       ∧ truthy (snap_name s) = true
       ∧ creates n (saveState p) = false.
Proof.
  intros Hc Hi Hb.
  destruct (saveState_with_controller p c Hc) as (q & Hq & _ & _ & _ & _).
  rewrite Hq in *.
  pose proof (snapshot_store_lookup (networks q)
                (snapshot_key (conn_bncname (connection n)))) as Hl.
  rewrite <- snapshotCurrentNetworks_store in Hl.
  rewrite (proj1 (snapshotCurrentNetworks_frame q)) in Hi.
  set (k := snapshot_key (conn_bncname (connection n))) in *.
  assert (n ∈ filter (snapshot_source k) (networks q)) as Hin.
  { apply list_elem_of_filter. split; [done|]. by eapply list_elem_of_lookup_2. }
  destruct (last (filter (snapshot_source k) (networks q))) as [m|] eqn:Hlast.
  2:{ apply last_None in Hlast. rewrite Hlast in Hin. by inversion Hin. }
  exists (snapshot_of m). split; [done|].
  assert (truthy (snap_name (snapshot_of m)) = true) as Hm.
  { apply last_Some_elem_of, list_elem_of_filter in Hlast as [[Ht _] _]. done. }
  split; [done|]. unfold creates, lookup_snapshot. fold k.
  rewrite Hl.
  change (default empty_snapshot (snapshot_of <$> Some m)) with (snapshot_of m).
  by rewrite Hm.
Qed.

Lemma saveState_leaves_named_entries_witness :
  ∃ s, networksSnapshot (saveState CreateExample.complete)
         !! snapshot_key (JStr "Network1") = Some s
       ∧ truthy (snap_name s) = true
       ∧ creates (set_bncname (JStr "Network1")
                    (SaveExample.fresh "irc.libera.chat" 6697 (JStr "alice")))
           (saveState CreateExample.complete) = false.
Proof.
  apply (saveState_leaves_named_entries CreateExample.complete 0 1
           (set_bncname (JStr "Network1")
              (SaveExample.fresh "irc.libera.chat" 6697 (JStr "alice"))));
    by vm_compute.
Defined.

(** X6: [saveState] keeps the list of networks, the relay's configuration
    and the rewrite switch; of a network it changes nothing, or, when it
    creates it, the relay name only, which becomes the display name. *)
Theorem saveState_changes_only_relay_names p :
  length (networks (saveState p)) = length (networks p)
  ∧ bnc (saveState p) = bnc p
  ∧ rewriteConnections (saveState p) = rewriteConnections p
  ∧ ∀ i n, networks p !! i = Some n →
      networks (saveState p) !! i = Some n
      ∨ networks (saveState p) !! i = Some (set_bncname (JStr (net_name n)) n).
Proof.
  destruct (getController p).1 as [c|] eqn:Hc.
  - destruct (saveState_with_controller p c Hc) as (q & Hq & Hq' & _ & _ & Hlen).
    destruct (snapshotCurrentNetworks_frame q) as (F1 & _ & _ & F4).
    pose proof (getController_bnc p) as Hb.
    pose proof (getController_rewriteConnections p) as Hr.
    pose proof (getController_controller_is p c Hc) as Hok.
    assert (bnc q = bnc p ∧ rewriteConnections q = rewriteConnections p)
      as [Hbq Hrq].
    { subst q. unfold forEach. rewrite <- Hb, <- Hr.
      apply (forEach_from_invariant networks (saveState_network c)
               (λ s, controller_is c s
                     ∧ bnc s = bnc (getController p).2
                     ∧ rewriteConnections s = rewriteConnections (getController p).2)
               0 (length (networks (getController p).2))
               (getController p).2); [|done].
      intros j x s (Hs & Hbs & Hrs) _. split; [by apply saveState_network_frame|].
      rewrite (saveState_network_unfold c j x s Hs).
      destruct (is_bare_controller c j x); [done|].
      destruct (creates x s); [done|]. by destruct (truthy _). }
    split_and!.
    + by rewrite Hq, F1.
    + by rewrite Hq, F4.
    + rewrite Hq. unfold snapshotCurrentNetworks, forEach.
      rewrite <- Hrq.
      apply (forEach_from_invariant networks _
               (λ s, rewriteConnections s = rewriteConnections q)); [|done].
      intros j x s Hs _. by destruct (negb _).
    + intros i n Hi.
      destruct (saveState_visit p c i n Hc Hi) as (v & Hv & _ & Hvi & _ & _ & Hend).
      rewrite Hend, (saveState_network_unfold c i n v Hv).
      destruct (is_bare_controller c i n); [by left|].
      destruct (creates n v).
      * right. change (networks (emit ?e ?s)) with (networks s).
        rewrite lookup_update_network. case_decide; [|done]. by rewrite Hvi.
      * left. by destruct (truthy _).
  - unfold saveState.
    pose proof (getController_networks p) as Hn.
    pose proof (getController_bnc p) as Hb.
    pose proof (getController_rewriteConnections p) as Hr.
    destruct (getController p) as [r p1]. simpl in *. subst r. simpl.
    rewrite Hn, Hb, Hr. split_and!; try done. intros i n Hi. by left.
Qed.

(** X7: with controller [c], [saveState] adds to the trace at most one
    entry per network, each a create or an update command carried by the
    client of [c]: it logs nothing, sends no raw line and uses no other
    client. *)
Theorem saveState_commands_on_controller p c :
  (getController p).1 = Some c →
  ∃ l, trace (saveState p) = (trace p ++ l)%list
       ∧ length l ≤ length (networks p)
       ∧ Forall (relay_command_via c) l.
Proof.
  intros Hc.
  destruct (saveState_with_controller p c Hc) as (q & Hq & Hq' & _ & _ & _).
  pose proof (getController_controller_is p c Hc) as Hok.
  pose proof (getController_networks p) as Hn.
  pose proof (getController_trace p) as Ht.
  destruct (saveState_loop_effects c 0 (length (networks (getController p).2))
              (getController p).2 Hok) as (l & Hl & Hlen & Hf).
  exists l. split_and!; [|by rewrite <- Hn|done].
  rewrite Hq. destruct (snapshotCurrentNetworks_frame q) as (_ & -> & _).
  rewrite Hq'. unfold forEach. by rewrite Hl, Ht.
Qed.

Lemma saveState_commands_on_controller_witness :
  ∃ l, trace (saveState CreateExample.complete)
       = (trace CreateExample.complete ++ l)%list
       ∧ length l ≤ length (networks CreateExample.complete)
       ∧ Forall (relay_command_via 0) l.
Proof.
  apply (saveState_commands_on_controller CreateExample.complete 0).
  reflexivity.
Defined.

(** X8: two [saveState] in a row, with a controller: in the second, a
    network with a truthy relay name that no later network shares, not the
    controller's bare connection, still gets an update command, and its
    change set is empty. *)
Theorem saveState_again_sends_empty_update p c i n :
  (getController p).1 = Some c →
  networks (saveState p) !! i = Some n →
  truthy (conn_bncname (connection n)) = true →
  is_bare_controller c i n = false →
  (∀ j m, i < j → networks (saveState p) !! j = Some m →
     ¬ snapshot_source (snapshot_key (conn_bncname (connection n))) m) →
  ∃ before after,
    trace (saveState (saveState p))
    = (trace (saveState p) ++ before
       ++ [BncSaveNetwork c (conn_bncname (connection n)) empty_tags]
       ++ after)%list.
Proof.
  intros Hc Hi Hb Hbare Hlast.
  destruct (saveState_with_controller p c Hc) as (q & Hq & _ & _ & Hok & _).
  set (p1 := saveState p) in *.
  assert ((getController p1).1 = Some c) as Hc1.
  { by rewrite (controller_is_getController c p1 Hok). }
  assert (lookup_snapshot p1 (conn_bncname (connection n)) = snapshot_of n) as Hl.
  { unfold lookup_snapshot. subst p1. rewrite Hq in *.
    rewrite snapshotCurrentNetworks_store, snapshot_store_lookup.
    rewrite (proj1 (snapshotCurrentNetworks_frame q)) in Hi, Hlast.
    by rewrite (last_filter_at _ (networks q) i n Hi (conj Hb eq_refl) Hlast). }
  destruct (saveState_visit p1 c i n Hc1 Hi)
    as (v & Hv & Hsnap & _ & [before Hbefore] & [after Hafter] & _).
  rewrite (saveState_network_unfold c i n v Hv), Hbare in Hafter.
  unfold creates, visit_tags in Hafter.
  rewrite (lookup_snapshot_eq p1 v _ Hsnap), Hl in Hafter.
  assert (truthy (snap_name (snapshot_of n)) = true) as Hname by done.
  rewrite Hname, diff_tags_own_snapshot in Hafter. simpl in Hafter.
  exists before, after. rewrite Hafter, Hbefore. by rewrite <- !app_assoc.
Qed.

Lemma saveState_again_sends_empty_update_witness :
  ∃ before after,
    trace (saveState (saveState SaveExample.renamed))
    = (trace (saveState SaveExample.renamed) ++ before
       ++ [BncSaveNetwork 0 (JStr "freenode") empty_tags] ++ after)%list.
Proof.
  apply (saveState_again_sends_empty_update SaveExample.renamed 0 0
           (SaveExample.freenode "bob")); try by vm_compute.
  intros j m Hj Hm. exfalso. destruct j as [|j]; [lia|].
  by vm_compute in Hm.
Defined.

(** X9: the controller's own connection, as long as it has no upstream, is
    never saved: its visit adds nothing to the trace and changes nothing,
    whatever its fields and the snapshot store hold, and the network is as
    it was when [saveState] returns. *)
Theorem saveState_skips_bare_controller p (c : nat) n :
  (getController p).1 = Some (InList c) →
  networks p !! c = Some n →
  bnc_hasNetwork (ircClient n) = false →
  (∀ q, controller_is c q → saveState_network c c n q = q)
  ∧ networks (saveState p) !! c = Some n.
Proof.
  intros Hc Hn Hup.
  assert (∀ q, controller_is c q → saveState_network c c n q = q) as Hvisit.
  { intros q Hq. rewrite (saveState_network_unfold c c n q Hq).
    unfold is_bare_controller. rewrite Hup. by rewrite bool_decide_eq_true_2. }
  split; [done|].
  destruct (saveState_visit p c c n Hc Hn) as (v & Hv & _ & Hvc & _ & _ & Hend).
  by rewrite Hend, (Hvisit v Hv).
Qed.

Lemma saveState_skips_bare_controller_witness :
  (∀ q, controller_is 0 q → saveState_network 0 0 SaveExample.control q = q)
  ∧ networks (saveState CreateExample.complete) !! 0 = Some SaveExample.control.
Proof.
  apply (saveState_skips_bare_controller CreateExample.complete 0
           SaveExample.control); reflexivity.
Defined.

(** ** The handlers of [network.connecting] *)

(** X10: what the rewriter writes is not what [saveState] compares: a
    rewritten network has the change set and the snapshot record it had
    before, and rewriting it again changes nothing. *)
Theorem rewrite_connection_invisible_to_saveState b n s :
  diff_tags (rewrite_connection b n) s = diff_tags n s
  ∧ snapshot_of (rewrite_connection b n) = snapshot_of n
  ∧ rewrite_connection b (rewrite_connection b n) = rewrite_connection b n.
Proof.
  destruct n as [? ? ? ? ? [] [? ? ? []] ?]. split_and!; [done|done|].
  unfold rewrite_connection. simpl. by destruct (truthy (bnc_password b)).
Qed.

(** X11: connecting a network that was never saved, with a controller
    [c]: when its change set is ready for creation and its display name is
    not empty, the second handler first has [saveState] create it on the
    relay and then, last, tells the relay to connect it under the relay
    name it has just been given. *)
Theorem onConnecting_save_creates_then_connects p c i n :
  (getController p).1 = Some c →
  networks p !! i = Some n →
  is_bare_controller c i n = false →
  truthy (snap_name (lookup_snapshot p (conn_bncname (connection n)))) = false →
  ready_to_create
    (diff_tags n (lookup_snapshot p (conn_bncname (connection n)))) = true →
  net_name n ≠ EmptyString →
  ∃ before after,
    trace (onConnecting_save i p)
    = (trace p ++ before
       ++ [create_command c n
             (diff_tags n (lookup_snapshot p (conn_bncname (connection n))))]
       ++ after
       ++ [Raw c ("BOUNCER connect " +:+ net_name n)])%list.
Proof.
  intros Hc Hi Hbare Hname Hready Hnonempty. unfold onConnecting_save.
  pose proof (getController_stable p c Hc) as Hst.
  pose proof (getController_networks p) as Hn.
  pose proof (getController_snapshot p) as Hs.
  pose proof (getController_trace p) as Ht.
  destruct (getController p) as [r p1]. simpl in *. subst r.
  assert ((getController p1).1 = Some c) as Hc1 by (by rewrite Hst).
  rewrite <- Hn in Hi.
  destruct (saveState_visit p1 c i n Hc1 Hi)
    as (v & Hv & Hsnap & Hvi & [before Hbefore] & [after Hafter] & Hend).
  rewrite (saveState_network_unfold c i n v Hv), Hbare in Hafter, Hend.
  assert (lookup_snapshot v (conn_bncname (connection n))
          = lookup_snapshot p (conn_bncname (connection n))) as Hl.
  { unfold lookup_snapshot. by rewrite Hsnap, Hs. }
  assert (creates n v = true) as Hcr.
  { unfold creates, visit_tags. rewrite Hl, Hname. exact Hready. }
  rewrite Hcr in Hafter, Hend. unfold visit_tags in Hafter. rewrite Hl in Hafter.
  change (networks (emit ?e ?s)) with (networks s) in Hend.
  rewrite lookup_update_network in Hend.
  rewrite decide_True in Hend by done. rewrite Hvi in Hend. simpl in Hend.
  rewrite Hend. simpl.
  assert (negb (String.eqb (net_name n) "") = true) as ->.
  { apply negb_true_iff, String.eqb_neq. done. }
  exists before, after. simpl. rewrite Hafter. simpl. rewrite Hbefore, Ht.
  unfold create_command. by rewrite <- !app_assoc.
Qed.

Lemma onConnecting_save_creates_then_connects_witness :
  ∃ before after,
    trace (onConnecting_save 1 CreateExample.complete)
    = (trace CreateExample.complete ++ before
       ++ [BncAddNetwork 0 "Network1" (JStr "irc.libera.chat") (JNum 6697)
             (JBool false) (JStr "alice") (JStr "") (JStr "")]
       ++ after
       ++ [Raw 0 "BOUNCER connect Network1"])%list.
Proof.
  apply (onConnecting_save_creates_then_connects CreateExample.complete 0 1
           (SaveExample.fresh "irc.libera.chat" 6697 (JStr "alice")));
    try reflexivity.
  discriminate.
Defined.

(** ** The [irc.motd] handler of [listenToState] *)

(** X12: after the banner the handler asks [WHO] for the channels of the
    network that are enabled and joined, in the order of the buffers, and
    for nothing else; it changes nothing but the trace. *)
Theorem onMotd_who_targets i p :
  trace (onMotd_who i p)
  = (trace p
     ++ ((λ b, Who i (buf_name b)) <$> filter who_target (network_buffers i p)))%list
  ∧ networks (onMotd_who i p) = networks p
  ∧ networksSnapshot (onMotd_who i p) = networksSnapshot p
  ∧ bnc (onMotd_who i p) = bnc p.
Proof.
  unfold onMotd_who, network_buffers.
  destruct (networks p !! i) as [n|]; [|by rewrite app_nil_r].
  generalize (buffers n). intros l. revert p.
  induction l as [|b l IH]; intros p; simpl; [by rewrite app_nil_r|].
  destruct (isChannel b && buf_enabled b && buf_joined b) eqn:Hb.
  - destruct (IH (emit (Who i (buf_name b)) p)) as (H1 & H2 & H3 & H4).
    rewrite filter_cons_True.
    2:{ apply andb_true_iff in Hb as [[? ?]%andb_true_iff ?]. done. }
    split_and!; [|done..]. rewrite H1. simpl. by rewrite <- app_assoc.
  - rewrite filter_cons_False; [apply IH|].
    intros (H1 & H2 & H3). by rewrite H1, H2, H3 in Hb.
Qed.

(** ** Reconciliation, further *)

Section reconciliation_further.
Context {platform : Platform}.

Lemma sync_buffer_trace i r p :
  ∃ l, trace (sync_buffer i r p) = (trace p ++ l)%list
       ∧ Forall (names_request i) l
       ∧ (∀ n, networks p !! i = Some n → is_connected n = false → l = []).
Proof.
  unfold sync_buffer.
  destruct (addBuffer i (bb_name r) p) as [k p1] eqn:Ha.
  set (q := update_buffer i k (apply_remote r) p1).
  assert (buffers_only i p q) as [Hn _ _ _ _ _ _].
  { eapply buffers_only_trans.
    - pose proof (addBuffer_buffers_only i (bb_name r) p) as H.
      rewrite Ha in H. exact H.
    - apply (buffers_only_update i (λ n, alter (apply_remote r) k (buffers n))). }
  assert (trace q = trace p) as Ht.
  { subst q. unfold addBuffer in Ha.
    destruct (list_find _ _) as [[? ?]|]; injection Ha as <- <-; done. }
  specialize (Hn i). clearbody q.
  destruct (networks q !! i) as [m|] eqn:Hm.
  2:{ exists []. rewrite app_nil_r. done. }
  destruct (buffers m !! k) as [b|].
  2:{ exists []. rewrite app_nil_r. done. }
  destruct (is_connected m && isChannel b && buf_joined b) eqn:Hc.
  - exists [Raw i ("NAMES " +:+ buf_name b)]. simpl. rewrite Ht. split_and!.
    + done.
    + apply Forall_singleton. by exists (buf_name b).
    + intros n Hi Hoff. rewrite Hi in Hn. simpl in Hn.
      apply (inj Some) in Hn. apply (f_equal net_state) in Hn. simpl in Hn.
      apply andb_true_iff in Hc as [[Hc _]%andb_true_iff _].
      unfold is_connected in *. rewrite Hn in Hc. congruence.
  - exists []. rewrite app_nil_r. done.
Qed.

Lemma sync_all_trace i (l : list BncBuffer) p :
  ∃ es, trace (foldl (λ p buffer, sync_buffer i buffer p) p l) = (trace p ++ es)%list
        ∧ Forall (names_request i) es
        ∧ (∀ n, networks p !! i = Some n → is_connected n = false → es = []).
Proof.
  induction l as [|r l (es & Ht & Hf & Hoff)] using rev_ind.
  - exists []. by rewrite app_nil_r.
  - rewrite foldl_app. simpl.
    set (q := foldl (λ p buffer, sync_buffer i buffer p) p l) in *.
    destruct (sync_buffer_trace i r q) as (es' & Ht' & Hf' & Hoff').
    exists (es ++ es')%list. split_and!.
    + by rewrite Ht', Ht, app_assoc.
    + by apply Forall_app.
    + intros n Hi Hc. rewrite (Hoff n Hi Hc). simpl.
      assert (buffers_only i p q) as [Hn _ _ _ _ _ _].
      { subst q. clear. induction l as [|x l IH] using rev_ind;
          [apply buffers_only_refl|].
        rewrite foldl_app. simpl. eapply buffers_only_trans; [exact IH|].
        apply sync_buffer_buffers_only. }
      specialize (Hn i). rewrite Hi in Hn.
      destruct (networks q !! i) as [m|] eqn:Hm; [|done].
      apply (Hoff' m eq_refl). simpl in Hn. apply (inj Some) in Hn.
      apply (f_equal net_state) in Hn. simpl in Hn.
      unfold is_connected in *. by rewrite Hn.
Qed.

Lemma remove_missing_trace i remote k x p :
  trace (remove_missing i remote k x p) = trace p.
Proof.
  unfold remove_missing. destruct (_ && _); [done|]. by case_bool_decide.
Qed.

(** X13: reconciling a network touches its buffers and nothing else of the
    state.  On the client of that network it first sends the request for
    the buffers the relay has under the relay name of the network, on
    every call; all it sends after that are [NAMES] lines, and none when
    the network is not connected. *)
Theorem syncBncNetwork_requests_then_names relay i p :
  buffers_only i p (syncBncNetwork relay i p)
  ∧ match networks p !! i with
    | Some n =>
        ∃ l, trace (syncBncNetwork relay i p)
             = (trace p ++ BncGetBuffers i (conn_bncname (connection n)) :: l)%list
             ∧ Forall (names_request i) l
             ∧ (is_connected n = false → l = [])
    | None => trace (syncBncNetwork relay i p) = trace p
    end.
Proof.
  split; [apply syncBncNetwork_buffers_only|].
  unfold syncBncNetwork. destruct (networks p !! i) as [n|] eqn:Hi; [|done].
  unfold reconcile, forEach.
  set (remote := getBuffers relay (conn_bncname (connection n))).
  set (p0 := emit (BncGetBuffers i (conn_bncname (connection n))) p).
  set (q := foldl (λ p buffer, sync_buffer i buffer p) p0 remote).
  destruct (sync_all_trace i remote p0) as (es & Ht & Hf & Hoff).
  exists es. split_and!; [|done|].
  - fold q in Ht. change (trace p0) with (trace p ++ [BncGetBuffers i
      (conn_bncname (connection n))])%list in Ht.
    rewrite <- app_assoc in Ht. simpl in Ht. rewrite <- Ht.
    apply (forEach_from_invariant (network_buffers i) _ (λ s, trace s = trace q));
      [|done].
    intros j x s Hs _. by rewrite remove_missing_trace.
  - intros Hoff'. by apply (Hoff n).
Qed.

Lemma settle_last name x (l : list BncBuffer) r :
  last (filter (λ e, same_name name (bb_name e)) l) = Some r →
  buf_joined (foldl (settle_step name) x l) = truthy (bb_joined r)
  ∧ buf_enabled (foldl (settle_step name) x l) = truthy (bb_joined r)
  ∧ buf_topic (foldl (settle_step name) x l) = js_or (bb_topic r) (JStr "").
Proof.
  induction l as [|e l IH] using rev_ind; [done|].
  rewrite filter_app, foldl_app. simpl. unfold settle_step at 1 3 5.
  destruct (decide (same_name name (bb_name e))) as [He|He].
  - rewrite (filter_cons_True _ e []) by done. rewrite filter_nil, last_snoc.
    by intros [= ->].
  - rewrite (filter_cons_False _ e []) by done. rewrite filter_nil, app_nil_r.
    apply IH.
Qed.

(** X14: after reconciliation every name the relay lists has a buffer in
    the network, and the first buffer of that name is joined and enabled
    as the last entry of that name in the list says, with the topic of
    that entry, or the empty string when it has none. *)
Theorem reconcile_applies_relay_state i remote p n r :
  networks p !! i = Some n →
  r ∈ remote →
  ∃ j b r',
    first_of_name (network_buffers i (reconcile i remote p)) j b
    ∧ same_name (buf_name b) (bb_name r)
    ∧ last (filter (λ e, same_name (bb_name r) (bb_name e)) remote) = Some r'
    ∧ buf_joined b = truthy (bb_joined r')
    ∧ buf_enabled b = truthy (bb_joined r')
    ∧ buf_topic b = js_or (bb_topic r') (JStr "").
Proof.
  intros Hi Hr.
  assert (settled remote (network_buffers i (reconcile i remote p))
          ∧ covered remote (network_buffers i (reconcile i remote p))) as [Hs Hc].
  { unfold reconcile. apply remove_pass_settled;
      rewrite (network_buffers_sync_all i remote p n Hi); apply sync_all_settled. }
  set (bs := network_buffers i (reconcile i remote p)) in *.
  destruct (Hc r Hr) as (b0 & Hb0 & Hm0).
  destruct (list_find_elem_of (λ b, same_name (buf_name b) (bb_name r)) bs b0 Hb0 Hm0)
    as [[j b] Hf].
  destruct (find_first_of_name r bs j b Hf) as [Hfirst Hname].
  destruct (last (filter (λ e, same_name (bb_name r) (bb_name e)) remote))
    as [r'|] eqn:Hlast.
  2:{ apply last_None in Hlast.
      assert (r ∈ filter (λ e, same_name (bb_name r) (bb_name e)) remote) as Hin
        by (by apply list_elem_of_filter).
      rewrite Hlast in Hin. by inversion Hin. }
  exists j, b, r'. split_and!; [done|done|done|..].
  all: rewrite <- (Hs j b Hfirst); unfold settle_buffer.
  all: rewrite (list_filter_iff _ (λ e, same_name (buf_name b) (bb_name e))) in Hlast.
  all: try (intros e; split; intros He;
            [by eapply same_name_trans|
             eapply same_name_trans; [by apply same_name_sym|done]]).
  all: by apply (settle_last (buf_name b) b remote r').
Qed.

End reconciliation_further.

Lemma reconcile_applies_relay_state_witness :
  ∃ j b r',
    @first_of_name ReconcileExample.example_platform
      (network_buffers 0
         (@reconcile ReconcileExample.example_platform 0
            ReconcileFailing.relay_buffers
            (ReconcileExample.with_buffers ReconcileFailing.local_buffers)))
      j b
    ∧ @same_name ReconcileExample.example_platform (buf_name b) "#chan"
    ∧ last (filter (λ e, @same_name ReconcileExample.example_platform "#chan"
                           (bb_name e))
              ReconcileFailing.relay_buffers) = Some r'
    ∧ buf_joined b = truthy (bb_joined r')
    ∧ buf_enabled b = truthy (bb_joined r')
    ∧ buf_topic b = js_or (bb_topic r') (JStr "").
Proof.
  apply (@reconcile_applies_relay_state ReconcileExample.example_platform 0
           ReconcileFailing.relay_buffers
           (ReconcileExample.with_buffers ReconcileFailing.local_buffers)
           (set_buffers ReconcileFailing.local_buffers (SaveExample.freenode "alice"))
           (ReconcileExample.remote "#chan" true JUndef)).
  - reflexivity.
  - apply list_elem_of_singleton. reflexivity.
Defined.

Section removal_pass.
Context {platform : Platform}.

Lemma remove_missing_network_buffers i remote k x p :
  network_buffers i (remove_missing i remote k x p)
  = if removes remote x then delete k (network_buffers i p)
    else network_buffers i p.
Proof.
  unfold remove_missing, removes.
  destruct (negb (isChannel x) && negb (isQuery x)); [done|]. simpl.
  case_bool_decide; [|done]. unfold removeBuffer.
  rewrite (network_buffers_update i (λ n, delete k (buffers n))).
  unfold network_buffers. by destruct (networks p !! i).
Qed.

Lemma forEach_from_beyond {St A} (arr : St → list A) cb k len s :
  length (arr s) ≤ k → forEach_from arr cb k len s = s.
Proof.
  revert k. induction len as [|len IH]; intros k Hk; simpl; [done|].
  rewrite (lookup_ge_None_2 (arr s) k) by done. apply IH. lia.
Qed.

(** The second loop of [reconcile], from the position behind [visited]. *)
Lemma remove_pass_sweep i remote len : ∀ visited rest p,
  network_buffers i p = (visited ++ rest)%list →
  length rest ≤ len →
  network_buffers i
    (forEach_from (network_buffers i) (remove_missing i remote)
       (length visited) len p)
  = (visited ++ sweep (removes remote) rest)%list.
Proof.
  induction len as [|len IH]; intros visited rest p Hp Hlen.
  - destruct rest; [|simpl in Hlen; lia]. by simpl.
  - simpl. rewrite Hp. destruct rest as [|x rest].
    + rewrite lookup_ge_None_2 by (rewrite app_nil_r; lia).
      rewrite forEach_from_beyond; [done|]. rewrite Hp, app_nil_r. lia.
    + rewrite list_lookup_middle by done.
      pose proof (remove_missing_network_buffers i remote (length visited) x p) as Hq.
      rewrite Hp in Hq. simpl. destruct (removes remote x).
      * rewrite delete_middle in Hq. destruct rest as [|y rest].
        -- rewrite forEach_from_beyond; [done|]. rewrite Hq, app_nil_r. lia.
        -- replace (S (length visited)) with (length (visited ++ [y])%list)
             by (rewrite length_app; simpl; lia).
           rewrite (IH (visited ++ [y])%list rest).
           ++ by rewrite <- app_assoc.
           ++ by rewrite <- app_assoc.
           ++ simpl in Hlen. lia.
      * replace (S (length visited)) with (length (visited ++ [x])%list)
          by (rewrite length_app; simpl; lia).
        rewrite (IH (visited ++ [x])%list rest).
        -- by rewrite <- app_assoc.
        -- by rewrite <- app_assoc.
        -- simpl in Hlen. lia.
Qed.

Lemma reconcile_sweep i remote p n :
  networks p !! i = Some n →
  network_buffers i (reconcile i remote p)
  = sweep (removes remote) (foldl (λ bs r, sync_buffers r bs) (buffers n) remote).
Proof.
  intros Hi. unfold reconcile, forEach.
  set (q := foldl (λ p buffer, sync_buffer i buffer p) p remote).
  assert (network_buffers i q
          = foldl (λ bs r, sync_buffers r bs) (buffers n) remote) as Hq.
  { subst q. rewrite (network_buffers_sync_all i remote p n Hi).
    unfold network_buffers. by rewrite Hi. }
  rewrite <- Hq.
  apply (remove_pass_sweep i remote (length (network_buffers i q)) []
           (network_buffers i q) q); done.
Qed.

(** X15: the buffers reconciliation leaves are those of the first loop,
    swept by the second: a channel or query the relay does not list is
    taken out, and the buffer directly behind a buffer taken out is not
    looked at and stays, whatever it is. *)
Theorem reconcile_removal_pass i remote p n :
  networks p !! i = Some n →
  network_buffers i (reconcile i remote p)
  = sweep (removes remote) (foldl (λ bs r, sync_buffers r bs) (buffers n) remote)
  ∧ ∀ a b (l : list Buffer),
      removes remote a = true →
      sweep (removes remote) (a :: b :: l) = b :: sweep (removes remote) l.
Proof.
  intros Hi. split; [by apply reconcile_sweep|].
  intros a b l Ha. simpl. by rewrite Ha.
Qed.

Lemma removes_wanted remote b : removes remote b = false ↔ wanted remote b.
Proof.
  unfold removes, wanted. split.
  - intros H. destruct (isChannel b) eqn:Hc, (isQuery b) eqn:Hq; simpl in H;
      try (by left).
    all: right; apply bool_decide_eq_false in H.
    all: destruct (filter _ remote) as [|r l] eqn:Hf; [done|].
    all: assert (r ∈ filter (λ bncBuffer, same_name (bb_name bncBuffer) (buf_name b))
                      remote) as Hin by (rewrite Hf; left).
    all: apply list_elem_of_filter in Hin as [? ?]; by exists r.
  - intros [[-> ->]|(r & Hr & Hs)]; [done|].
    apply andb_false_iff. right. apply bool_decide_eq_false. intros Hz.
    apply length_zero_iff_nil in Hz.
    assert (r ∈ filter (λ bncBuffer, same_name (bb_name bncBuffer) (buf_name b))
                  remote) as Hin by (by apply list_elem_of_filter).
    rewrite Hz in Hin. by inversion Hin.
Qed.

(** No two neighbours of the list are both to go. *)
Lemma sweep_complete {A} (gone : A → bool) n : ∀ l : list A,
  length l ≤ n →
  (∀ j x y, l !! j = Some x → l !! S j = Some y → gone x = false ∨ gone y = false) →
  Forall (λ x, gone x = false) (sweep gone l).
Proof.
  induction n as [|n IH]; intros l Hn Hq.
  - destruct l; [constructor|simpl in Hn; lia].
  - destruct l as [|x l]; [constructor|]. simpl. destruct (gone x) eqn:Hx.
    + destruct l as [|y l]; [constructor|].
      assert (gone y = false) as Hy.
      { destruct (Hq 0 x y eq_refl eq_refl); congruence. }
      constructor; [done|]. apply IH; [simpl in Hn; lia|].
      intros j a b Ha Hb. apply (Hq (S (S j)) a b); done.
    + constructor; [done|]. apply IH; [simpl in Hn; lia|].
      intros j a b Ha Hb. apply (Hq (S j) a b); done.
Qed.

Lemma removes_apply_remote remote r b :
  removes remote (apply_remote r b) = removes remote b.
Proof. done. Qed.

(** The first loop changes nothing in what the second will remove, and
    what it adds is not to be removed. *)
Lemma sync_buffers_removes remote r bs :
  r ∈ remote →
  ∃ m, removes remote <$> sync_buffers r bs
       = ((removes remote <$> bs) ++ replicate m false)%list.
Proof.
  intros Hr. unfold sync_buffers.
  destruct (list_find _ bs) as [[k x]|].
  - exists 0. rewrite app_nil_r. apply list_eq. intros j.
    rewrite !list_lookup_fmap. destruct (decide (j = k)) as [->|Hne].
    + rewrite list_lookup_alter_eq. by destruct (bs !! k).
    + by rewrite list_lookup_alter_ne.
  - exists 1. rewrite fmap_app. f_equal. simpl. f_equal.
    rewrite removes_apply_remote. apply removes_wanted. right.
    exists r. split; [done|]. by unfold same_name.
Qed.

Lemma sync_all_removes remote (l : list BncBuffer) bs :
  l ⊆ remote →
  ∃ m, removes remote <$> foldl (λ bs r, sync_buffers r bs) bs l
       = ((removes remote <$> bs) ++ replicate m false)%list.
Proof.
  induction l as [|r l IH] using rev_ind; intros Hl.
  - exists 0. by rewrite app_nil_r.
  - rewrite foldl_app. simpl.
    destruct IH as [m Hm]. { intros x Hx. apply Hl, elem_of_app. by left. }
    destruct (sync_buffers_removes remote r
                (foldl (λ bs r, sync_buffers r bs) bs l)) as [m' Hm'].
    { apply Hl, elem_of_app. right. by apply list_elem_of_singleton. }
    exists (m + m'). rewrite Hm', Hm, <- app_assoc. f_equal.
    by rewrite replicate_add.
Qed.

(** X16: when no two neighbours among the buffers of the network are both
    channels or queries the relay does not list, reconciliation removes
    every such buffer, and a second run with the same list leaves the
    buffers as the first left them. *)
Theorem reconcile_complete_without_neighbours i remote p n :
  networks p !! i = Some n →
  (∀ j a b, buffers n !! j = Some a → buffers n !! S j = Some b →
     wanted remote a ∨ wanted remote b) →
  Forall (wanted remote) (network_buffers i (reconcile i remote p))
  ∧ network_buffers i (reconcile i remote (reconcile i remote p))
    = network_buffers i (reconcile i remote p).
Proof.
  intros Hi Hq.
  assert (Forall (wanted remote) (network_buffers i (reconcile i remote p))) as Hw.
  { rewrite (reconcile_sweep i remote p n Hi).
    set (bs := foldl (λ bs r, sync_buffers r bs) (buffers n) remote).
    eapply Forall_impl; [|intros b; apply removes_wanted].
    apply (sweep_complete (removes remote) (length bs)); [done|].
    destruct (sync_all_removes remote remote (buffers n)) as [m Hm]; [done|].
    fold bs in Hm. intros j a b Ha Hb.
    assert ((removes remote <$> bs) !! j = Some (removes remote a)) as Ha'
      by (by rewrite list_lookup_fmap, Ha).
    assert ((removes remote <$> bs) !! S j = Some (removes remote b)) as Hb'
      by (by rewrite list_lookup_fmap, Hb).
    rewrite Hm in Ha', Hb'.
    destruct (decide (S j < length (buffers n))) as [Hlt|Hge].
    - rewrite lookup_app_l in Ha' by (rewrite length_fmap; lia).
      rewrite lookup_app_l in Hb' by (rewrite length_fmap; lia).
      rewrite list_lookup_fmap in Ha', Hb'.
      destruct (buffers n !! j) as [a0|] eqn:Ha0; [|done].
      destruct (buffers n !! S j) as [b0|] eqn:Hb0; [|done].
      simpl in Ha', Hb'. injection Ha' as <-. injection Hb' as <-.
      destruct (Hq j a0 b0 Ha0 Hb0) as [H|H]; [left|right];
        by apply removes_wanted.
    - right. rewrite lookup_app_r in Hb' by (rewrite length_fmap; lia).
      apply lookup_replicate in Hb' as [Hb' _]. done. }
  split; [done|]. by apply (reconcile_again i remote p n).
Qed.

End removal_pass.

Lemma reconcile_removal_pass_witness :
  network_buffers 0 ReconcileFailing.once
  = sweep (@removes ReconcileExample.example_platform ReconcileFailing.relay_buffers)
      (foldl (λ bs r, @sync_buffers ReconcileExample.example_platform r bs)
         ReconcileFailing.local_buffers ReconcileFailing.relay_buffers)
  ∧ ∀ a b (l : list Buffer),
      @removes ReconcileExample.example_platform ReconcileFailing.relay_buffers a
      = true →
      sweep (@removes ReconcileExample.example_platform
               ReconcileFailing.relay_buffers) (a :: b :: l)
      = b :: sweep (@removes ReconcileExample.example_platform
                      ReconcileFailing.relay_buffers) l.
Proof.
  apply (@reconcile_removal_pass ReconcileExample.example_platform 0
           ReconcileFailing.relay_buffers
           (ReconcileExample.with_buffers ReconcileFailing.local_buffers)
           (set_buffers ReconcileFailing.local_buffers (SaveExample.freenode "alice"))).
  reflexivity.
Defined.

Lemma reconcile_complete_without_neighbours_witness :
  let local := [ReconcileExample.server_buffer;
                ReconcileExample.chan "#old1" true;
                ReconcileExample.chan "#chan" true] in
  let once := @reconcile ReconcileExample.example_platform 0
                ReconcileFailing.relay_buffers (ReconcileExample.with_buffers local) in
  Forall (@wanted ReconcileExample.example_platform ReconcileFailing.relay_buffers)
    (network_buffers 0 once)
  ∧ network_buffers 0
      (@reconcile ReconcileExample.example_platform 0
         ReconcileFailing.relay_buffers once)
    = network_buffers 0 once.
Proof.
  apply (@reconcile_complete_without_neighbours ReconcileExample.example_platform 0
           ReconcileFailing.relay_buffers
           (ReconcileExample.with_buffers
              [ReconcileExample.server_buffer;
               ReconcileExample.chan "#old1" true;
               ReconcileExample.chan "#chan" true])
           (set_buffers
              [ReconcileExample.server_buffer;
               ReconcileExample.chan "#old1" true;
               ReconcileExample.chan "#chan" true]
              (SaveExample.freenode "alice"))).
  - reflexivity.
  - intros j a b Ha Hb. destruct j as [|[|j]].
    + left. injection Ha as <-. left. split; reflexivity.
    + right. injection Hb as <-. right.
      exists (ReconcileExample.remote "#chan" true JUndef). split.
      * apply list_elem_of_singleton. reflexivity.
      * reflexivity.
    + discriminate Hb.
Defined.

(** ** The networks of the relay *)

Section population.
Context {platform : Platform}.

Lemma getNetworkFromBncName_None name p :
  getNetworkFromBncName name p = None →
  ∀ n, n ∈ networks p → conn_bncname (connection n) ≠ JStr name.
Proof.
  unfold getNetworkFromBncName. rewrite fmap_None. intros H n Hn.
  apply list_find_None in H. rewrite Forall_forall in H. by apply H.
Qed.

Lemma addNetworkToState_adds relay network p :
  (∃ j n, networks (addNetworkToState relay network p) !! j = Some n
          ∧ conn_bncname (connection n) = JStr (bn_name network))
  ∧ length (networks p) ≤ length (networks (addNetworkToState relay network p))
  ∧ length (networks (addNetworkToState relay network p)) ≤ S (length (networks p))
  ∧ ((∃ n, n ∈ networks p ∧ conn_bncname (connection n) = JStr (bn_name network)) →
     length (networks (addNetworkToState relay network p)) = length (networks p)).
Proof.
  unfold addNetworkToState, find_or_add.
  destruct (getNetworkFromBncName (bn_name network) p) as [net|] eqn:Hf.
  - destruct (syncBncNetwork_buffers_only relay net p) as [H1 _ H3 _ _ _ _].
    destruct (getNetworkFromBncName_Some _ _ _ Hf) as (n & Hn & Hname).
    split_and!; [|lia|lia|done].
    specialize (H1 net). rewrite Hn in H1.
    destruct (networks (syncBncNetwork relay net p) !! net) as [n'|] eqn:Hn';
      [|done].
    exists net, n'. split; [done|].
    simpl in H1. apply (inj Some) in H1. apply (f_equal connection) in H1.
    simpl in H1. by rewrite H1.
  - unfold addNetwork.
    set (fresh := mkNetwork _ _ _ _ _ _ _ _).
    set (p1 := set_networks (networks p ++ [fresh]) p).
    destruct (syncBncNetwork_buffers_only relay (length (networks p)) p1)
      as [H1 _ H3 _ _ _ _].
    assert (length (networks p1) = S (length (networks p))) as Hlen.
    { subst p1. simpl. rewrite length_app. simpl. lia. }
    split_and!; [|lia|lia|].
    + specialize (H1 (length (networks p))).
      assert (networks p1 !! length (networks p) = Some fresh) as Hfresh.
      { subst p1. simpl. by rewrite list_lookup_middle. }
      rewrite Hfresh in H1.
      destruct (networks (syncBncNetwork relay _ p1) !! _) as [n'|] eqn:Hn';
        [|done].
      exists (length (networks p)), n'. split; [done|].
      simpl in H1. apply (inj Some) in H1. apply (f_equal connection) in H1.
      simpl in H1. by rewrite H1.
    + intros (n & Hn & Hname). exfalso.
      by apply (getNetworkFromBncName_None _ _ Hf n Hn).
Qed.

Lemma addNetworkToState_all_adds relay (l : list BncNetwork) p :
  let p' := foldl (λ p bncNet, addNetworkToState relay bncNet p) p l in
  (∀ bn, bn ∈ l →
     ∃ j n, networks p' !! j = Some n
            ∧ conn_bncname (connection n) = JStr (bn_name bn))
  ∧ length (networks p) ≤ length (networks p')
  ∧ length (networks p') ≤ length (networks p) + length l
  ∧ ((∀ bn, bn ∈ l →
        ∃ n, n ∈ networks p ∧ conn_bncname (connection n) = JStr (bn_name bn)) →
     length (networks p') = length (networks p)).
Proof.
  simpl. induction l as [|x l (IH1 & IH2 & IH3 & IH4)] using rev_ind.
  - simpl. split_and!; [|lia|lia|done]. intros bn Hbn. by inversion Hbn.
  - rewrite foldl_app. simpl.
    set (q := foldl (λ p bncNet, addNetworkToState relay bncNet p) p l) in *.
    destruct (addNetworkToState_adds relay x q) as (Ha & Hb & Hc & Hd).
    destruct (addNetworkToState_preserves relay x q) as [_ Hkeep].
    split_and!.
    + intros bn [Hbn|Hbn]%elem_of_app.
      * destruct (IH1 bn Hbn) as (j & n & Hj & Hn).
        destruct (Hkeep j n Hj) as (n' & Hj' & He).
        exists j, n'. split; [done|].
        apply (f_equal connection) in He. simpl in He. by rewrite He.
      * apply list_elem_of_singleton in Hbn as ->. exact Ha.
    + lia.
    + rewrite length_app. simpl. lia.
    + intros Hall. rewrite Hd.
      * apply IH4. intros bn Hbn. apply Hall, elem_of_app. by left.
      * destruct (Hall x) as (n & Hn & Hname).
        { apply elem_of_app. right. by apply list_elem_of_singleton. }
        apply list_elem_of_lookup in Hn as [j Hj].
        destruct (addNetworkToState_all_preserves relay l p) as [_ Hk].
        destruct (Hk j n Hj) as (n' & Hj' & He).
        exists n'. split; [by eapply list_elem_of_lookup_2|].
        apply (f_equal connection) in He. simpl in He. by rewrite He.
Qed.

(** X17: after the networks the relay reports have been merged, each of
    them has a local network with its name as relay name; at most one
    network was created for each; and merging the same list once more
    creates no network. *)
Theorem addNetworkToState_all_merges relay (l : list BncNetwork) p :
  let merge := foldl (λ p bncNet, addNetworkToState relay bncNet p) in
  (∀ bn, bn ∈ l →
     ∃ j n, networks (merge p l) !! j = Some n
            ∧ conn_bncname (connection n) = JStr (bn_name bn))
  ∧ length (networks p) ≤ length (networks (merge p l))
  ∧ length (networks (merge p l)) ≤ length (networks p) + length l
  ∧ length (networks (merge (merge p l) l)) = length (networks (merge p l)).
Proof.
  simpl. destruct (addNetworkToState_all_adds relay l p) as (H1 & H2 & H3 & _).
  split_and!; [done..|].
  destruct (addNetworkToState_all_adds relay l
              (foldl (λ p bncNet, addNetworkToState relay bncNet p) p l))
    as (_ & _ & _ & H4).
  apply H4. intros bn Hbn. destruct (H1 bn Hbn) as (j & n & Hj & Hn).
  exists n. split; [by eapply list_elem_of_lookup_2|done].
Qed.

(** X18: the login sequence on a controller whose password is a string
    returns with the relay registered and enabled, its address taken from
    the connection of the controller (the path defaulting to the empty
    string); the controller is hidden exactly when it has no upstream
    network, its connection is untouched; every network the relay reports
    has a local network; and the snapshot store left behind is the one of
    the networks as they are then. *)
Theorem initAndAddNetworks_outcome relay i p network s :
  networks p !! i = Some network →
  net_password network = JStr s →
  ∃ p' n',
    initAndAddNetworks relay i p = Returned p'
    ∧ bnc_registered (bnc p') = true
    ∧ bnc_enabled (bnc p') = true
    ∧ bnc_server (bnc p') = conn_server (connection network)
    ∧ bnc_port (bnc p') = conn_port (connection network)
    ∧ bnc_tls (bnc p') = conn_tls (connection network)
    ∧ bnc_direct (bnc p') = conn_direct (connection network)
    ∧ bnc_path (bnc p') = js_or (conn_path (connection network)) (JStr "")
    ∧ networks p' !! i = Some n'
    ∧ net_hidden n' = negb (bnc_hasNetwork (ircClient network))
    ∧ connection n' = connection network
    ∧ (∀ bn, bn ∈ getNetworks relay →
         ∃ j n, networks p' !! j = Some n
                ∧ conn_bncname (connection n) = JStr (bn_name bn))
    ∧ (∀ k, networksSnapshot p' !! k
            = snapshot_of <$> last (filter (snapshot_source k) (networks p'))).
Proof.
  intros Hi Hpw. unfold initAndAddNetworks. rewrite Hi.
  set (p0 := emit _ (update_network i _ (set_bnc _ p))).
  assert (networks p0 !! i
          = Some (set_hidden (negb (bnc_hasNetwork (ircClient network))) network))
    as Hi0.
  { subst p0. change (networks (emit ?e ?q)) with (networks q).
    rewrite lookup_update_network. case_decide; [|done].
    simpl. by rewrite Hi. }
  assert (bnc_registered (bnc p0) = true) as Hreg by done.
  destruct (addNetworkToState_all_preserves relay (getNetworks relay) p0)
    as [Hbnc Hkeep].
  destruct (addNetworkToState_all_adds relay (getNetworks relay) p0)
    as (Hall & _).
  simpl in Hbnc, Hall.
  set (q := foldl (λ p bncNet, addNetworkToState relay bncNet p) p0
              (getNetworks relay)) in *.
  clearbody q p0.
  destruct (Hkeep i _ Hi0) as (n' & Hn' & He).
  rewrite Hn'.
  assert (net_password n' = JStr s) as ->.
  { apply (f_equal net_password) in He. simpl in He. by rewrite He. }
  rewrite login_credentials_string.
  assert (connection n' = connection network) as Hconn.
  { apply (f_equal connection) in He. simpl in He. by rewrite He. }
  assert (net_hidden n' = negb (bnc_hasNetwork (ircClient network))) as Hhid.
  { apply (f_equal net_hidden) in He. simpl in He. by rewrite He. }
  set (q1 := set_bnc _ q).
  destruct (snapshotCurrentNetworks_frame q1) as (Hn & _ & _ & Hb).
  exists (monitorNetworkChanges q1), n'. unfold monitorNetworkChanges.
  rewrite Hb, Hn.
  split_and!; try done.
  - subst q1. simpl. by rewrite Hbnc.
  - subst q1. simpl. by rewrite Hconn.
  - subst q1. simpl. by rewrite Hconn.
  - subst q1. simpl. by rewrite Hconn.
  - subst q1. simpl. by rewrite Hconn.
  - subst q1. simpl. by rewrite Hconn.
  - intros k. rewrite snapshotCurrentNetworks_store. apply snapshot_store_lookup.
Qed.


End population.

(** ** The naming allocator, further *)

(** X20: a new network without relay name whose display name is not
    itself of the form [Network<k>] is given a name [Network<k>] that no
    other network has, as display name or as relay name; the other
    networks are as they were. *)
Theorem onNetworkNew_name_is_free fuel i p network :
  networks p !! i = Some network →
  truthy (conn_bncname (connection network)) = false →
  (∀ k, net_name network ≠ name_of k) →
  2 * length (networks p) < fuel →
  ∃ p' k,
    onNetworkNew fuel i p = Some p'
    ∧ 1 ≤ k
    ∧ networks p' !! i = Some (set_name (name_of k) network)
    ∧ ∀ j m, j ≠ i → networks p' !! j = Some m →
        networks p !! j = Some m
        ∧ net_name m ≠ name_of k
        ∧ conn_bncname (connection m) ≠ JStr (name_of k).
Proof.
  intros Hi Hb Hname Hfuel. unfold onNetworkNew. rewrite Hi, Hb. simpl.
  destruct (allocateName_search fuel i 1 p) as (k & H1 & H2 & _ & H4).
  { destruct (some_name_unused p) as (k & Hk & Hf).
    exists k. split; [lia|by left]. }
  apply (stops_iff i p k network Hi Hb) in H2 as [Hfree|(n & Hn & Hnk & _)].
  2:{ exfalso. apply (Hname k). congruence. }
  exists (update_network i (set_name (name_of k)) p), k.
  split_and!; [done|done|..].
  - rewrite lookup_update_network. rewrite decide_True by done. by rewrite Hi.
  - intros j m Hji Hm. rewrite lookup_update_network in Hm.
    rewrite decide_False in Hm by done.
    split; [done|]. apply Hfree. by eapply list_elem_of_lookup_2.
Qed.

Lemma onNetworkNew_name_is_free_witness :
  ∃ p' k,
    onNetworkNew 7 2 NamingExample.with_gap = Some p'
    ∧ 1 ≤ k
    ∧ networks p' !! 2
      = Some (set_name (name_of k) (NamingExample.named "New network" JUndef))
    ∧ ∀ j m, j ≠ 2 → networks p' !! j = Some m →
        networks NamingExample.with_gap !! j = Some m
        ∧ net_name m ≠ name_of k
        ∧ conn_bncname (connection m) ≠ JStr (name_of k).
Proof.
  apply (onNetworkNew_name_is_free 7 2 NamingExample.with_gap
           (NamingExample.named "New network" JUndef)).
  - reflexivity.
  - reflexivity.
  - intros k H. unfold name_of in H. simpl in H. discriminate H.
  - simpl. lia.
Defined.

Lemma initAndAddNetworks_outcome_witness :
  ∃ p',
    @initAndAddNetworks ReconcileExample.example_platform MergeExample.relay 0
      (LoginExample.login "alice/freenode:s3cret")
    = Returned p'
    ∧ bnc_registered (bnc p') = true
    ∧ bnc_server (bnc p') = JStr "bnc.example.org"
    ∧ (net_hidden <$> networks p' !! 0) = Some true
    ∧ ∃ j n, networks p' !! j = Some n
             ∧ conn_bncname (connection n) = JStr "freenode".
Proof.
  destruct (@initAndAddNetworks_outcome ReconcileExample.example_platform
              MergeExample.relay 0 (LoginExample.login "alice/freenode:s3cret")
              _ "alice/freenode:s3cret" eq_refl eq_refl)
    as (p' & n' & Hret & Hreg & _ & Hserver & _ & _ & _ & _ & Hn' & Hhid & _
        & Hall & _).
  exists p'. split_and!; [exact Hret|exact Hreg|exact Hserver| |].
  - rewrite Hn'. simpl. by rewrite Hhid.
  - apply (Hall (mkBncNetwork "freenode" (JStr "irc.freenode.net") (JStr "6667")
                   (JStr "0") (JStr "alice") JUndef JUndef)).
    apply list_elem_of_singleton. reflexivity.
Defined.

